(** * Reminder engine of the personal assistant: task store, date resolver,
      scan loop and manual trigger

    Shallow embedding of [tasks_manager.py], [scheduler.py] and the date
    handling of [sms_handler.py].

    - The SQLite table [tasks] is a list of rows in rowid order together with
      the AUTOINCREMENT counter; every statement the source executes is
      written as the list operation it denotes.
    - Python exceptions are explicit: a call into the storage layer takes a
      flag saying whether SQLite raises [sqlite3.Error] during that call, and
      library calls that may raise return a [py_result].
    - A method of [TasksManager] is given twice where Python adds something
      to the statement it executes: Module [TasksManager] has the method on a
      [task_id] that SQLite can hold and at the clock value it computed;
      Module [Call] has it as it is called, with any [int] and reading the
      clock itself.
    - Strings are byte strings; [str.lower] and [\d] are the ASCII ones,
      which on a text of ASCII characters are Python's. *)

From Stdlib Require Import ZArith List String Ascii Bool Lia Permutation Sorted.
From Stdlib Require Import DecimalString DecimalN DecimalZ DecimalPos.
Import ListNotations.
Open Scope Z_scope.

(** ** Three-way comparisons and their lexicographic composition *)

Module Cmp.

Class Order {A : Type} (cmp : A -> A -> comparison) : Prop := {
  cmp_antisym : forall a b, cmp b a = CompOpp (cmp a b);
  cmp_trans : forall c a b d, cmp a b = c -> cmp b d = c -> cmp a d = c
}.

(** [ORDER BY k1, k2]: the second key decides only among equals of the
    first. *)
Definition lex (c1 c2 : comparison) : comparison :=
  match c1 with Eq => c2 | _ => c1 end.

Definition on {A B : Type} (f : A -> B) (cmp : B -> B -> comparison)
  : A -> A -> comparison := fun a b => cmp (f a) (f b).

Definition both {A : Type} (c1 c2 : A -> A -> comparison)
  : A -> A -> comparison := fun a b => lex (c1 a b) (c2 a b).

(** SQLite sorts NULL before every other value in ascending order. *)
Definition nulls_first {A : Type} (cmp : A -> A -> comparison)
  (x y : option A) : comparison :=
  match x, y with
  | None, None => Eq
  | None, Some _ => Lt
  | Some _, None => Gt
  | Some a, Some b => cmp a b
  end.

(** The order the specification describes for due times: NULL after every
    value. *)
Definition nulls_last {A : Type} (cmp : A -> A -> comparison)
  (x y : option A) : comparison :=
  match x, y with
  | None, None => Eq
  | None, Some _ => Gt
  | Some _, None => Lt
  | Some a, Some b => cmp a b
  end.

Definition le {A : Type} (cmp : A -> A -> comparison) (a b : A) : Prop :=
  cmp a b <> Gt.

Section Facts.
Context {A : Type} (cmp : A -> A -> comparison) `{!Order cmp}.

Lemma cmp_refl a : cmp a a = Eq.
Proof.
  pose proof (cmp_antisym (cmp := cmp) a a) as H.
  destruct (cmp a a); simpl in H; congruence.
Qed.

Lemma cmp_eq_sym a b : cmp a b = Eq -> cmp b a = Eq.
Proof. intros H. rewrite (cmp_antisym (cmp := cmp)), H. reflexivity. Qed.

Lemma cmp_eq_l a b d : cmp a b = Eq -> cmp a d = cmp b d.
Proof.
  intros Hab.
  destruct (cmp b d) eqn:Hbd.
  - eapply cmp_trans; eauto.
  - destruct (cmp a d) eqn:Had; trivial.
    + assert (cmp b d = Eq) by
        (eapply cmp_trans; [apply cmp_eq_sym; eassumption | assumption]).
      congruence.
    + assert (Hda : cmp d a = Lt) by (rewrite (cmp_antisym (cmp := cmp)), Had; reflexivity).
      assert (cmp b a = Lt) by (eapply cmp_trans; eauto).
      apply cmp_eq_sym in Hab. congruence.
  - destruct (cmp a d) eqn:Had; trivial.
    + assert (cmp b d = Eq) by
        (eapply cmp_trans; [apply cmp_eq_sym; eassumption | assumption]).
      congruence.
    + assert (Hdb : cmp d b = Lt) by (rewrite (cmp_antisym (cmp := cmp)), Hbd; reflexivity).
      assert (cmp a b = Lt) by (eapply cmp_trans; eauto).
      congruence.
Qed.

Lemma cmp_eq_r a b d : cmp b d = Eq -> cmp a d = cmp a b.
Proof.
  intros Hbd. rewrite (cmp_antisym (cmp := cmp) d a), (cmp_antisym (cmp := cmp) b a).
  f_equal. apply cmp_eq_l. now apply cmp_eq_sym.
Qed.

Lemma le_total a b : le cmp a b \/ le cmp b a.
Proof.
  unfold le. rewrite (cmp_antisym (cmp := cmp) a b).
  destruct (cmp a b); simpl; intuition congruence.
Qed.

Lemma le_trans a b d : le cmp a b -> le cmp b d -> le cmp a d.
Proof.
  unfold le. intros Hab Hbd.
  destruct (cmp a b) eqn:E1; try congruence.
  - rewrite (cmp_eq_l _ _ _ E1). assumption.
  - destruct (cmp b d) eqn:E2; try congruence.
    + rewrite (cmp_eq_r _ _ _ E2), E1. discriminate.
    + rewrite (cmp_trans Lt a b d E1 E2). discriminate.
Qed.
End Facts.

#[export] Instance Order_on {A B : Type} (f : A -> B) cmp `{!Order cmp}
  : Order (on f cmp).
Proof.
  split; unfold on; intros.
  - apply cmp_antisym.
  - eapply cmp_trans; eauto.
Qed.

#[export] Instance Order_both {A : Type} (c1 c2 : A -> A -> comparison)
  `{!Order c1} `{!Order c2} : Order (both c1 c2).
Proof.
  split; unfold both, lex.
  - intros a b. rewrite (cmp_antisym (cmp := c1) a b).
    destruct (c1 a b); simpl; trivial. apply cmp_antisym.
  - intros c a b d.
    destruct (c1 a b) eqn:E1; destruct (c1 b d) eqn:E2; intros H1 H2.
    + rewrite (cmp_trans (cmp := c1) Eq a b d E1 E2).
      eapply cmp_trans; eauto.
    + rewrite (cmp_eq_l c1 _ _ _ E1), E2. assumption.
    + rewrite (cmp_eq_l c1 _ _ _ E1), E2. assumption.
    + rewrite (cmp_eq_r c1 _ _ _ E2), E1. assumption.
    + rewrite (cmp_trans (cmp := c1) Lt a b d E1 E2). assumption.
    + congruence.
    + rewrite (cmp_eq_r c1 _ _ _ E2), E1. assumption.
    + congruence.
    + rewrite (cmp_trans (cmp := c1) Gt a b d E1 E2). assumption.
Qed.

#[export] Instance Order_nulls_first {A : Type} (cmp : A -> A -> comparison)
  `{!Order cmp} : Order (nulls_first cmp).
Proof.
  split.
  - intros [a|] [b|]; simpl; trivial. apply cmp_antisym.
  - intros c [a|] [b|] [d|]; simpl; try congruence.
    apply cmp_trans.
Qed.

#[export] Instance Order_nulls_last {A : Type} (cmp : A -> A -> comparison)
  `{!Order cmp} : Order (nulls_last cmp).
Proof.
  split.
  - intros [a|] [b|]; simpl; trivial. apply cmp_antisym.
  - intros c [a|] [b|] [d|]; simpl; try congruence.
    apply cmp_trans.
Qed.

#[export] Instance Order_Z : Order Z.compare.
Proof.
  split.
  - intros a b. apply Z.compare_antisym.
  - intros [] a b d H1 H2.
    + apply Z.compare_eq in H1, H2. subst. apply Z.compare_refl.
    + rewrite Z.compare_lt_iff in *. lia.
    + rewrite Z.compare_gt_iff in *. lia.
Qed.

#[export] Instance Order_ascii : Order Ascii.compare.
Proof.
  split; unfold Ascii.compare.
  - intros a b. apply N.compare_antisym.
  - intros [] a b d H1 H2.
    + apply N.compare_eq in H1, H2. rewrite H1, H2. apply N.compare_refl.
    + rewrite N.compare_lt_iff in *. lia.
    + rewrite N.compare_gt_iff in *. lia.
Qed.

(** TEXT values compare bytewise (collation BINARY). *)
#[export] Instance Order_string : Order String.compare.
Proof.
  split.
  - intros a b. apply String.compare_antisym.
  - intros c a. induction a as [|x a IH]; intros [|y b] [|z d]; simpl;
      try congruence.
    destruct (Ascii.compare x y) eqn:E1; destruct (Ascii.compare y z) eqn:E2;
      intros H1 H2.
    + rewrite (cmp_trans (cmp := Ascii.compare) Eq x y z E1 E2).
      eapply IH; eauto.
    + rewrite (cmp_eq_l Ascii.compare _ _ _ E1), E2. assumption.
    + rewrite (cmp_eq_l Ascii.compare _ _ _ E1), E2. assumption.
    + rewrite (cmp_eq_r Ascii.compare _ _ _ E2), E1. assumption.
    + rewrite (cmp_trans (cmp := Ascii.compare) Lt x y z E1 E2). assumption.
    + congruence.
    + rewrite (cmp_eq_r Ascii.compare _ _ _ E2), E1. assumption.
    + congruence.
    + rewrite (cmp_trans (cmp := Ascii.compare) Gt x y z E1 E2). assumption.
Qed.

End Cmp.

(** ** The relational operations the queries are built from *)

Module Sql.

Section OrderBy.
Context {A : Type} (cmp : A -> A -> comparison).

(** Place [x] in front of the first element that does not sort before
    it. *)
Fixpoint insert (x : A) (l : list A) : list A :=
  match l with
  | [] => [x]
  | y :: l' =>
      match cmp x y with
      | Gt => y :: insert x l'
      | _ => x :: l
      end
  end.

(** [ORDER BY]: rows that tie on the sort key keep the order of the
    table scan. *)
Definition order_by (l : list A) : list A := fold_right insert [] l.

Lemma insert_perm x l : Permutation (insert x l) (x :: l).
Proof.
  induction l as [|y l IH]; simpl; [reflexivity|].
  destruct (cmp x y); try reflexivity.
  rewrite IH. apply perm_swap.
Qed.

Lemma order_by_perm l : Permutation (order_by l) l.
Proof.
  induction l as [|x l IH]; simpl; [constructor|].
  rewrite insert_perm. now constructor.
Qed.

Lemma order_by_In l x : In x (order_by l) <-> In x l.
Proof.
  split; apply Permutation_in;
    [apply order_by_perm | apply Permutation_sym, order_by_perm].
Qed.

Context `{!Cmp.Order cmp}.

Lemma insert_sorted x l :
  StronglySorted (Cmp.le cmp) l -> StronglySorted (Cmp.le cmp) (insert x l).
Proof.
  induction 1 as [|y l Hs IH Hall]; simpl.
  - repeat constructor.
  - destruct (cmp x y) eqn:E.
    + constructor; [now constructor|].
      constructor; [unfold Cmp.le; congruence|].
      eapply Forall_impl; [|exact Hall]. intros z Hz.
      eapply Cmp.le_trans; eauto. unfold Cmp.le; congruence.
    + constructor; [now constructor|].
      constructor; [unfold Cmp.le; congruence|].
      eapply Forall_impl; [|exact Hall]. intros z Hz.
      eapply Cmp.le_trans; eauto. unfold Cmp.le; congruence.
    + constructor; trivial.
      assert (Hyx : Cmp.le cmp y x).
      { unfold Cmp.le. rewrite (Cmp.cmp_antisym (cmp := cmp)), E. discriminate. }
      eapply Permutation_Forall;
        [apply Permutation_sym, insert_perm|].
      now constructor.
Qed.

Lemma order_by_sorted l : StronglySorted (Cmp.le cmp) (order_by l).
Proof.
  induction l as [|x l IH]; simpl; [constructor|].
  now apply insert_sorted.
Qed.
End OrderBy.

End Sql.

(** ** What the embedding needs of Python: exceptions and [datetime] *)

Module Py.

(** The outcome of a call that may raise. *)
Inductive py_result (A : Type) : Type :=
| Return (a : A)
| Raise.
Arguments Return {A} a.
Arguments Raise {A}.

Definition bind {A B : Type} (m : py_result A) (k : A -> py_result B)
  : py_result B :=
  match m with
  | Return a => k a
  | Raise => Raise
  end.

(** [try: m  except Exception: return d] *)
Definition try_except {A : Type} (m : py_result A) (d : A) : A :=
  match m with
  | Return a => a
  | Raise => d
  end.

Module Notations.
Notation "x <- m ;; k" := (bind m (fun x => k))
  (at level 61, m at next level, right associativity).
End Notations.

(** A [datetime] value: its calendar fields down to the second, counted as
    seconds from [1970-01-01T00:00:00] read on the same wall clock, the
    [microsecond] field, and the UTC offset in seconds of its [tzinfo]
    ([None] for a naive value). *)
Record datetime : Type := {
  wall : Z;
  microsecond : Z;
  tzinfo : option Z
}.

(** The UTC offset Python works with: that of [tzinfo], and for a naive
    value that of the machine's local time, [local_utcoffset], at the
    value's wall time. *)
Definition utcoffset (local_utcoffset : Z -> Z) (dt : datetime) : Z :=
  match tzinfo dt with
  | Some o => o
  | None => local_utcoffset (wall dt)
  end.

(** [dt.astimezone(pytz.UTC)] *)
Definition astimezone_utc (local_utcoffset : Z -> Z) (dt : datetime)
  : datetime :=
  {| wall := wall dt - utcoffset local_utcoffset dt;
     microsecond := microsecond dt;
     tzinfo := Some 0 |}.

(** [tz.localize(dt)] of pytz on a naive value: the same wall time, with
    the zone's offset at that wall time attached. *)
Definition localize (tz_utcoffset : Z -> Z) (dt : datetime) : datetime :=
  {| wall := wall dt;
     microsecond := microsecond dt;
     tzinfo := Some (tz_utcoffset (wall dt)) |}.

(** [dt.replace(microsecond=0)] *)
Definition replace_microsecond_0 (dt : datetime) : datetime :=
  {| wall := wall dt; microsecond := 0; tzinfo := tzinfo dt |}.

(** [int(dt.timestamp())]: seconds since the epoch, fraction dropped
    towards zero. ([timestamp()] is a float, which holds the microseconds
    apart below 2^33 seconds, that is until the year 2242.) *)
Definition int_timestamp (local_utcoffset : Z -> Z) (dt : datetime) : Z :=
  Z.quot ((wall dt - utcoffset local_utcoffset dt) * 1000000
          + microsecond dt) 1000000.

(** [datetime.utcnow()] at the instant [clock] seconds and [us]
    microseconds after the epoch: a naive value that carries the UTC wall
    time. *)
Definition utcnow (clock us : Z) : datetime :=
  {| wall := clock; microsecond := us; tzinfo := None |}.



(** [s.replace("Z", "+00:00")] *)
Fixpoint replace_Z (s : string) : string :=
  match s with
  | EmptyString => EmptyString
  | String c s' =>
      if Ascii.eqb c "Z"%char
      then ("+00:00" ++ replace_Z s')%string
      else String c (replace_Z s')
  end.

(** [s.isascii()]: every character has a code below 128. On such a text
    [str.lower], [str.strip], [\s] and [\d] are the ones modelled here. *)
Fixpoint isascii (s : string) : bool :=
  match s with
  | EmptyString => true
  | String c s' => (N_of_ascii c <? 128)%N && isascii s'
  end.

(** Truth value of a [str]: the empty string is false. *)
Definition truthy (s : string) : bool :=
  match s with
  | EmptyString => false
  | String _ _ => true
  end.

End Py.

(** ** [tasks_manager.py] *)

Module TasksManager.

(** One row of the table [tasks]. *)
Record row : Type := {
  id : Z;
  text : string;
  due_date : option string;
  due_ts : option Z;
  completed : Z;
  priority : string;
  created_at : string;
  completed_at : option string
}.

(** The database file: the rows of [tasks] in rowid order and the largest
    rowid AUTOINCREMENT has handed out. *)
Record database : Type := {
  tasks : list row;
  sqlite_sequence : Z
}.

Definition empty : database := {| tasks := []; sqlite_sequence := 0 |}.

Definition max_rowid (rows : list row) : Z :=
  fold_right (fun r m => Z.max (id r) m) 0 rows.

(** [INTEGER PRIMARY KEY AUTOINCREMENT]: one more than the largest rowid
    that ever existed in the table. *)
Definition next_rowid (db : database) : Z :=
  Z.max (sqlite_sequence db) (max_rowid (tasks db)) + 1.

(** The dictionaries the queries build from the selected columns. *)
Record task : Type := {
  task_id : Z;
  task_text : string;
  task_due_date : option string;
  task_completed : bool;
  task_priority : string;
  task_created_at : string;
  task_completed_at : option string
}.

Record pending_task : Type := {
  pending_id : Z;
  pending_text : string;
  pending_due_date : option string;
  pending_priority : string;
  pending_created_at : string
}.

Record due_task : Type := {
  due_id : Z;
  due_text : string;
  due_due_date : option string;
  due_priority : string
}.

Definition task_of_row (r : row) : task :=
  {| task_id := id r;
     task_text := text r;
     task_due_date := due_date r;
     task_completed := negb (completed r =? 0);
     task_priority := priority r;
     task_created_at := created_at r;
     task_completed_at := completed_at r |}.

Definition pending_of_row (r : row) : pending_task :=
  {| pending_id := id r;
     pending_text := text r;
     pending_due_date := due_date r;
     pending_priority := priority r;
     pending_created_at := created_at r |}.

Definition due_of_row (r : row) : due_task :=
  {| due_id := id r;
     due_text := text r;
     due_due_date := due_date r;
     due_priority := priority r |}.

Section AddTask.
(** [datetime.fromisoformat]; [None] when it raises [ValueError]. *)
Variable fromisoformat : string -> option Py.datetime.
(** UTC offset of the machine's local time at a wall time. *)
Variable local_utcoffset : Z -> Z.

(** The epoch seconds [add_task] computes next to the display string. *)
Definition compute_due_ts (due_date : option string) : option Z :=
  match due_date with
  | Some s =>
      if Py.truthy s then
        match fromisoformat (Py.replace_Z s) with
        | Some dt => Some (Py.int_timestamp local_utcoffset dt)
        | None => None
        end
      else None
  | None => None
  end.

(** [add_task(text, due_date, priority)]. [sqlite_error] says whether
    the storage layer raises during the call; [current_timestamp] is
    what CURRENT_TIMESTAMP evaluates to. Returns the new id, or [-1]. *)
Definition add_task (sqlite_error : bool) (current_timestamp : string)
    (text : string) (due_date : option string) (priority : string)
    (db : database) : Z * database :=
  if sqlite_error then (-1, db)
  else
    let due_ts := compute_due_ts due_date in
    let task_id := next_rowid db in
    (task_id,
     {| tasks := tasks db ++
          [{| id := task_id;
              text := text;
              due_date := due_date;
              due_ts := due_ts;
              completed := 0;
              priority := priority;
              created_at := current_timestamp;
              completed_at := None |}];
        sqlite_sequence := task_id |}).
End AddTask.

(** [cursor.execute(sql, (task_id,))] binds [task_id] as a signed 64-bit
    INTEGER, the type of every stored id. *)
Definition SQLITE_INTEGER_MIN : Z := -9223372036854775808.
Definition SQLITE_INTEGER_MAX : Z := 9223372036854775807.

Definition binds (task_id : Z) : bool :=
  (SQLITE_INTEGER_MIN <=? task_id) && (task_id <=? SQLITE_INTEGER_MAX).

(** [SELECT ... FROM tasks WHERE id = ?] followed by [fetchone]. *)
Definition row_with_id (task_id : Z) (rows : list row) : option row :=
  find (fun r => id r =? task_id) rows.

(** [get_task(task_id)], for a [task_id] that binds. *)
Definition get_task (sqlite_error : bool) (task_id : Z) (db : database)
  : option task :=
  if sqlite_error then None
  else
    match row_with_id task_id (tasks db) with
    | Some r => Some (task_of_row r)
    | None => None
    end.

(** [CASE priority WHEN 'high' THEN 1 WHEN 'medium' THEN 2 WHEN 'low'
    THEN 3 END]: NULL for any other text. *)
Definition priority_rank (p : string) : option Z :=
  if String.eqb p "high" then Some 1
  else if String.eqb p "medium" then Some 2
  else if String.eqb p "low" then Some 3
  else None.

(** [ORDER BY CASE priority ... END, due_date ASC, created_at ASC] *)
Definition pending_order : row -> row -> comparison :=
  Cmp.both (Cmp.on (fun r => priority_rank (priority r))
                   (Cmp.nulls_first Z.compare))
    (Cmp.both (Cmp.on due_date (Cmp.nulls_first String.compare))
              (Cmp.on created_at String.compare)).

Definition is_pending (r : row) : bool := completed r =? 0.

Definition pending_rows (db : database) : list row :=
  Sql.order_by pending_order (filter is_pending (tasks db)).

(** [get_pending_tasks()] *)
Definition get_pending_tasks (sqlite_error : bool) (db : database)
  : list pending_task :=
  if sqlite_error then []
  else map pending_of_row (pending_rows db).

(** [WHERE completed = 0 AND due_ts IS NOT NULL AND due_ts < ?] *)
Definition is_overdue (now_ts : Z) (r : row) : bool :=
  (completed r =? 0) &&
  match due_ts r with
  | Some ts => ts <? now_ts
  | None => false
  end.

(** [ORDER BY due_ts ASC] *)
Definition due_ts_order : row -> row -> comparison :=
  Cmp.on due_ts (Cmp.nulls_first Z.compare).

Definition overdue_rows (now_ts : Z) (db : database) : list row :=
  Sql.order_by due_ts_order (filter (is_overdue now_ts) (tasks db)).

(** [get_overdue_tasks()] from the query on; [now_ts] is the value the
    call has computed from the clock,
    [int(datetime.utcnow().timestamp())]. *)
Definition get_overdue_tasks (sqlite_error : bool) (now_ts : Z)
    (db : database) : list due_task :=
  if sqlite_error then []
  else map due_of_row (overdue_rows now_ts db).

(** [WHERE id = ? AND completed = 0] *)
Definition completes (task_id : Z) (r : row) : bool :=
  (id r =? task_id) && (completed r =? 0).

(** [SET completed = 1, completed_at = CURRENT_TIMESTAMP] *)
Definition mark_completed (current_timestamp : string) (r : row) : row :=
  {| id := id r;
     text := text r;
     due_date := due_date r;
     due_ts := due_ts r;
     completed := 1;
     priority := priority r;
     created_at := created_at r;
     completed_at := Some current_timestamp |}.

Definition update_completed (current_timestamp : string) (task_id : Z)
    (rows : list row) : list row :=
  map (fun r => if completes task_id r
                then mark_completed current_timestamp r else r) rows.

Definition rowcount (p : row -> bool) (rows : list row) : Z :=
  Z.of_nat (List.length (filter p rows)).

(** [complete_task(task_id)], for a [task_id] that binds: the conditional
    UPDATE, committed when it changed a row. An error leaves the
    transaction uncommitted. *)
Definition complete_task (sqlite_error : bool) (current_timestamp : string)
    (task_id : Z) (db : database) : bool * database :=
  if sqlite_error then (false, db)
  else if rowcount (completes task_id) (tasks db) >? 0 then
    (true,
     {| tasks := update_completed current_timestamp task_id (tasks db);
        sqlite_sequence := sqlite_sequence db |})
  else (false, db).

(** [delete_task(task_id)], for a [task_id] that binds:
    [DELETE FROM tasks WHERE id = ?]. *)
Definition delete_task (sqlite_error : bool) (task_id : Z) (db : database)
  : bool * database :=
  if sqlite_error then (false, db)
  else if rowcount (fun r => id r =? task_id) (tasks db) >? 0 then
    (true,
     {| tasks := filter (fun r => negb (id r =? task_id)) (tasks db);
        sqlite_sequence := sqlite_sequence db |})
  else (false, db).

(** [WHERE completed = 0 AND due_ts IS NOT NULL AND due_ts BETWEEN ? AND ?] *)
Definition is_due_soon (now_ts future_time_ts : Z) (r : row) : bool :=
  (completed r =? 0) &&
  match due_ts r with
  | Some ts => (now_ts <=? ts) && (ts <=? future_time_ts)
  | None => false
  end.

(** [get_tasks_due_soon(minutes_ahead)]; [now_ts] is the clock value the
    call reads. *)
Definition get_tasks_due_soon (sqlite_error : bool) (now_ts : Z)
    (minutes_ahead : Z) (db : database) : list due_task :=
  if sqlite_error then []
  else
    let future_time_ts := now_ts + minutes_ahead * 60 in
    map due_of_row
      (Sql.order_by due_ts_order
         (filter (is_due_soon now_ts future_time_ts) (tasks db))).

(** The primary key is unique and no row carries an id beyond the
    AUTOINCREMENT counter. *)
Definition well_formed (db : database) : Prop :=
  NoDup (map id (tasks db)) /\
  Forall (fun r => 0 < id r <= sqlite_sequence db) (tasks db).

End TasksManager.

(** ** The methods of [TasksManager] as they are called

    With any [int] as [task_id]: [execute] raises [OverflowError] for an
    [int] that does not bind, and [OverflowError] is no [sqlite3.Error], so
    the [except] clause of the method lets it through. [sqlite_error] says
    whether SQLite raises in the call, which for such an [int] can only be
    before the binding. And with the clock read inside the call. *)

Module Call.
Import TasksManager.

(** [get_task(task_id)] *)
Definition get_task (sqlite_error : bool) (task_id : Z) (db : database)
  : Py.py_result (option task) :=
  if sqlite_error then Py.Return None
  else if negb (binds task_id) then Py.Raise
  else
    match row_with_id task_id (tasks db) with
    | Some r => Py.Return (Some (task_of_row r))
    | None => Py.Return None
    end.

(** [complete_task(task_id)] *)
Definition complete_task (sqlite_error : bool) (current_timestamp : string)
    (task_id : Z) (db : database) : Py.py_result bool * database :=
  if sqlite_error then (Py.Return false, db)
  else if negb (binds task_id) then (Py.Raise, db)
  else if rowcount (completes task_id) (tasks db) >? 0 then
    (Py.Return true,
     {| tasks := update_completed current_timestamp task_id (tasks db);
        sqlite_sequence := sqlite_sequence db |})
  else (Py.Return false, db).

(** [delete_task(task_id)] *)
Definition delete_task (sqlite_error : bool) (task_id : Z) (db : database)
  : Py.py_result bool * database :=
  if sqlite_error then (Py.Return false, db)
  else if negb (binds task_id) then (Py.Raise, db)
  else if rowcount (fun r => id r =? task_id) (tasks db) >? 0 then
    (Py.Return true,
     {| tasks := filter (fun r => negb (id r =? task_id)) (tasks db);
        sqlite_sequence := sqlite_sequence db |})
  else (Py.Return false, db).

(** [now_ts = int(datetime.utcnow().timestamp())] at the instant [clock]
    seconds and [us] microseconds after the epoch, on a machine whose local
    time has the UTC offset [local_utcoffset]: [utcnow()] is naive, and
    [timestamp()] reads a naive value as local time. *)
Definition now_ts (local_utcoffset : Z -> Z) (clock us : Z) : Z :=
  Py.int_timestamp local_utcoffset (Py.utcnow clock us).

(** [get_overdue_tasks()] called at the instant [clock], [us]. *)
Definition get_overdue_tasks (local_utcoffset : Z -> Z)
    (sqlite_error : bool) (clock us : Z) (db : database) : list due_task :=
  TasksManager.get_overdue_tasks sqlite_error
    (now_ts local_utcoffset clock us) db.

End Call.

(** ** [scheduler.py]: one scan pass *)

Module Scheduler.
Import TasksManager.

(** What a scan pass meets outside the store. Within one pass every id is
    handled at most once, so the outcomes are indexed by the task. *)
Record environment : Type := {
  (** [message_sender.is_configured()] *)
  is_configured : bool;
  (** [message_sender.send_reminder(text, due_date, id)]: [True], [False],
      or an exception. *)
  send_reminder : string -> option string -> Z -> Py.py_result bool;
  (** the clock read by [get_overdue_tasks] *)
  now_ts : Z;
  (** whether SQLite raises inside [get_overdue_tasks] *)
  overdue_error : bool;
  (** whether SQLite raises inside [complete_task(id)] *)
  complete_error : Z -> bool;
  (** CURRENT_TIMESTAMP when [complete_task(id)] runs *)
  complete_time : Z -> string
}.

(** The local variables of the loop, and the calls made to
    [send_reminder] so far (oldest first). *)
Record pass : Type := {
  sent_count : Z;
  seen : list Z;
  reminders : list due_task
}.

Definition start : pass := {| sent_count := 0; seen := []; reminders := [] |}.

Definition send (env : environment) (t : due_task) : Py.py_result bool :=
  send_reminder env (due_text t) (due_due_date t) (due_id t).

(** The body of [for task in due_tasks], the same in
    [_check_and_send_reminders] and [run_reminder_scan_now]. The result
    of [complete_task] is not looked at. *)
Definition process_task (env : environment) (t : due_task)
    (s : database * pass) : database * pass :=
  let (db, p) := s in
  if existsb (Z.eqb (due_id t)) (seen p) then s
  else
    let seen' := due_id t :: seen p in
    let reminders' := reminders p ++ [t] in
    match send env t with
    | Py.Return true =>
        (snd (complete_task (complete_error env (due_id t))
                            (complete_time env (due_id t)) (due_id t) db),
         {| sent_count := sent_count p + 1;
            seen := seen';
            reminders := reminders' |})
    | Py.Return false | Py.Raise =>
        (db, {| sent_count := sent_count p;
                seen := seen';
                reminders := reminders' |})
    end.

Definition scan_tasks (env : environment) (due_tasks : list due_task)
    (s : database * pass) : database * pass :=
  fold_left (fun s t => process_task env t s) due_tasks s.

(** Both entry points up to their return value: the configuration check,
    the overdue query, the early return on an empty list, the loop. *)
Definition scan (env : environment) (db : database) : database * pass :=
  if negb (is_configured env) then (db, start)
  else
    let due_tasks := get_overdue_tasks (overdue_error env) (now_ts env) db in
    match due_tasks with
    | [] => (db, start)
    | _ :: _ => scan_tasks env due_tasks (db, start)
    end.

(** [_check_and_send_reminders()] returns nothing. *)
Definition _check_and_send_reminders (env : environment) (db : database)
  : database * list due_task :=
  let (db', p) := scan env db in (db', reminders p).

(** [run_reminder_scan_now()] returns [sent_count]. *)
Definition run_reminder_scan_now (env : environment) (db : database)
  : Z * (database * list due_task) :=
  let (db', p) := scan env db in (sent_count p, (db', reminders p)).

End Scheduler.

(** ** The regular expressions of the date resolver *)

Module Re.

(** The patterns only use literal characters, [\d+] and an optional
    character. *)
Inductive atom : Type :=
| Lit (c : ascii)
| Digits
| Opt (c : ascii).

Definition is_digit (c : ascii) : bool :=
  let n := N_of_ascii c in ((48 <=? n) && (n <=? 57))%N.

Fixpoint lit (s : string) : list atom :=
  match s with
  | EmptyString => []
  | String c s' => Lit c :: lit s'
  end.

(** Match a pattern at the start of [s], greedily and with backtracking,
    as [re] does; the result is the length of the match. *)
Fixpoint match_here (p : list atom) (s : string) : option nat :=
  match p with
  | [] => Some O
  | Lit c :: p' =>
      match s with
      | String x s' =>
          if Ascii.eqb x c then option_map S (match_here p' s') else None
      | EmptyString => None
      end
  | Opt c :: p' =>
      match s with
      | String x s' =>
          if Ascii.eqb x c then
            match match_here p' s' with
            | Some n => Some (S n)
            | None => match_here p' s
            end
          else match_here p' s
      | EmptyString => match_here p' s
      end
  | Digits :: p' =>
      (fix digits (s : string) : option nat :=
         match s with
         | String x s' =>
             if is_digit x then
               match digits s' with
               | Some n => Some (S n)
               | None => option_map S (match_here p' s')
               end
             else None
         | EmptyString => None
         end) s
  end.

(** [re.search(p, s)]: the leftmost match; the result is
    [match.group(0)]. *)
Fixpoint search (p : list atom) (s : string) : option string :=
  match match_here p s with
  | Some n => Some (substring 0 n s)
  | None =>
      match s with
      | EmptyString => None
      | String _ s' => search p s'
      end
  end.

End Re.

(** ** [sms_handler.py]: the date resolver and task creation *)

Module SMSHandler.
Import Py.Notations.

Definition lower_ascii (c : ascii) : ascii :=
  let n := N_of_ascii c in
  if ((65 <=? n) && (n <=? 90))%N then ascii_of_N (n + 32) else c.

(** [text.lower()] *)
Fixpoint lower (s : string) : string :=
  match s with
  | EmptyString => EmptyString
  | String c s' => String (lower_ascii c) (lower s')
  end.

(** [needle in hay] *)
Fixpoint contains (needle hay : string) : bool :=
  String.prefix needle hay ||
  match hay with
  | EmptyString => false
  | String _ hay' => contains needle hay'
  end.

(** A pattern: the text written in the source and what it denotes. *)
Record pattern : Type := {
  source : string;
  compiled : list Re.atom
}.

Definition numeric_in (unit : string) : pattern :=
  {| source := "in (\d+) " ++ unit ++ "[s]?";
     compiled := Re.lit "in " ++ [Re.Digits] ++ Re.lit " " ++ Re.lit unit
                 ++ [Re.Opt "s"] |}.

Definition numeric_from_now (unit : string) : pattern :=
  {| source := "(\d+) " ++ unit ++ "[s]? from now";
     compiled := [Re.Digits] ++ Re.lit " " ++ Re.lit unit ++ [Re.Opt "s"]
                 ++ Re.lit " from now" |}.

Definition literal (s : string) : pattern :=
  {| source := s; compiled := Re.lit s |}.

Definition time_patterns : list pattern :=
  [ numeric_in "minute";
    numeric_in "hour";
    numeric_in "day";
    numeric_in "second";
    numeric_from_now "minute";
    numeric_from_now "hour";
    numeric_from_now "day";
    numeric_from_now "second";
    literal "tomorrow";
    literal "today";
    literal "next week";
    literal "next month" ].

(** The phrase handed to the parser once [pattern] has matched with
    [group0] as the whole match. *)
Definition phrase_for (p : pattern) (group0 : string) : string :=
  if contains "tomorrow" (source p) then "tomorrow"
  else if contains "today" (source p) then "today"
  else if contains "next week" (source p) then "next week"
  else if contains "next month" (source p) then "next month"
  else group0.

(** [for pattern in time_patterns: ... break]: the phrase of the first
    pattern found in the lowered text. *)
Fixpoint first_phrase (patterns : list pattern) (lowered : string)
  : option string :=
  match patterns with
  | [] => None
  | p :: rest =>
      match Re.search (compiled p) lowered with
      | Some group0 => Some (phrase_for p group0)
      | None => first_phrase rest lowered
      end
  end.

(** The replies of [_handle_task_creation], by kind. *)
Inductive reply : Type :=
| RemindOn (task_id : Z)
| Remind (task_id : Z)
| Added (task_id : Z)
| CouldNotSave
| CreationError.

Section Handler.
(** [dateparser.parse(., settings=settings)] with the settings of
    [_parse_date_nlp], the relative base included. *)
Variable parse : string -> Py.py_result (option Py.datetime).
(** UTC offset of the configured zone [self.tzinfo] at a wall time. *)
Variable tz_utcoffset : Z -> Z.
(** UTC offset of the machine's local time at a wall time. *)
Variable local_utcoffset : Z -> Z.
(** [datetime.isoformat] *)
Variable isoformat : Py.datetime -> string.
(** [datetime.fromisoformat]; [None] when it raises. *)
Variable fromisoformat : string -> option Py.datetime.
(** [memory_manager.add_conversation] *)
Variable add_conversation : string -> reply -> Py.py_result bool.

(** The fallback of [_parse_date_nlp]: parse the phrase of the first
    matching pattern, if any. *)
Definition parse_phrase (text : string)
  : Py.py_result (option Py.datetime) :=
  match first_phrase time_patterns (lower text) with
  | Some phrase => parse phrase
  | None => Py.Return None
  end.


(** From the parsed value to the returned string. *)
Definition to_utc_seconds (parsed : Py.datetime) : Py.datetime :=
  let parsed :=
    match Py.tzinfo parsed with
    | None => Py.localize tz_utcoffset parsed
    | Some _ => parsed
    end in
  let parsed_utc := Py.astimezone_utc local_utcoffset parsed in
  Py.replace_microsecond_0 parsed_utc.

(** [_parse_date_nlp(text)] *)
Definition _parse_date_nlp (text : string) : option string :=
  Py.try_except
    (parsed <- parse text ;;
     parsed <- match parsed with
               | Some dt => Py.Return (Some dt)
               | None => parse_phrase text
               end ;;
     match parsed with
     | None => Py.Return None
     | Some dt => Py.Return (Some (isoformat (to_utc_seconds dt)))
     end)
    None.

(** [_handle_task_creation(task_info, user_message, context)], with
    [task_text] and [priority] as read from [task_info]. *)
Definition _handle_task_creation (sqlite_error : bool)
    (current_timestamp : string) (task_text priority user_message : string)
    (db : TasksManager.database) : reply * TasksManager.database :=
  let parsed_utc_iso := _parse_date_nlp user_message in
  let (task_id, db') :=
    TasksManager.add_task fromisoformat local_utcoffset sqlite_error
      current_timestamp task_text parsed_utc_iso priority db in
  if task_id >? 0 then
    let response :=
      match parsed_utc_iso with
      | Some s =>
          if Py.truthy s then
            match fromisoformat (Py.replace_Z s) with
            | Some _ => RemindOn task_id
            | None => Remind task_id
            end
          else Added task_id
      | None => Added task_id
      end in
    match add_conversation user_message response with
    | Py.Return _ => (response, db')
    | Py.Raise => (CreationError, db')
    end
  else (CouldNotSave, db').
End Handler.

End SMSHandler.

(** ** [scheduler.py]: the loop thread and the manual trigger, interleaved

    The timed loop runs in the thread [start_scheduler] creates; the manual
    trigger runs in the worker that serves the request. A step of the system
    is one of them moving to its next statement that touches the store or the
    thread state: entering a pass (the configuration check and the overdue
    query), handling one task of the list it fetched, leaving the pass. *)

Module Service.
Import TasksManager Scheduler.

(** Where a thread stands with respect to a scan pass. *)
Inductive progress : Type :=
| Idle
| Scanning (todo : list due_task) (p : pass).

(** A thread created by [start_scheduler]: inside [_run_loop], or
    returned from it. *)
Inductive loop_thread : Type :=
| Running (at_ : progress)
| Finished.

Record system : Type := {
  store : database;
  (** the module globals *)
  _scheduler_thread : option nat;
  _scheduler_stop : bool;
  (** every thread created so far, by creation order *)
  threads : list loop_thread;
  (** the worker that serves the manual trigger *)
  request : progress
}.

Definition boot (db : database) : system :=
  {| store := db;
     _scheduler_thread := None;
     _scheduler_stop := false;
     threads := [];
     request := Idle |}.

(** [thread.is_alive()] *)
Definition is_alive (s : system) (i : nat) : bool :=
  match nth_error (threads s) i with
  | Some (Running _) => true
  | _ => false
  end.

(** [start_scheduler()] *)
Definition start_scheduler (s : system) : system :=
  if match _scheduler_thread s with
     | Some i => is_alive s i
     | None => false
     end
  then s
  else
    {| store := store s;
       _scheduler_thread := Some (List.length (threads s));
       _scheduler_stop := false;
       threads := threads s ++ [Running Idle];
       request := request s |}.

(** [stop_scheduler()] *)
Definition stop_scheduler (s : system) : system :=
  {| store := store s;
     _scheduler_thread := _scheduler_thread s;
     _scheduler_stop := true;
     threads := threads s;
     request := request s |}.

(** The start of either entry point, up to the first iteration of the
    loop. Neither reads or writes any state shared with the other. *)
Definition enter (env : environment) (db : database) : progress :=
  if negb (is_configured env) then Idle
  else
    match get_overdue_tasks (overdue_error env) (now_ts env) db with
    | [] => Idle
    | due_tasks => Scanning due_tasks start
    end.

Fixpoint set_thread (i : nat) (t : loop_thread) (l : list loop_thread)
  : list loop_thread :=
  match l, i with
  | [], _ => []
  | _ :: l', O => t :: l'
  | x :: l', S i' => x :: set_thread i' t l'
  end.

Definition with_thread (s : system) (i : nat) (t : loop_thread)
    (db : database) : system :=
  {| store := db;
     _scheduler_thread := _scheduler_thread s;
     _scheduler_stop := _scheduler_stop s;
     threads := set_thread i t (threads s);
     request := request s |}.

Definition with_request (s : system) (r : progress) (db : database)
  : system :=
  {| store := db;
     _scheduler_thread := _scheduler_thread s;
     _scheduler_stop := _scheduler_stop s;
     threads := threads s;
     request := r |}.

Inductive step : system -> system -> Prop :=
| step_start s :
    step s (start_scheduler s)
| step_stop s :
    step s (stop_scheduler s)
(** [while not _scheduler_stop.is_set()] sees the flag: the loop ends *)
| step_loop_exit s i :
    nth_error (threads s) i = Some (Running Idle) ->
    _scheduler_stop s = true ->
    step s (with_thread s i Finished (store s))
(** [schedule.run_pending()] calls [_check_and_send_reminders] *)
| step_loop_enter s i env :
    nth_error (threads s) i = Some (Running Idle) ->
    _scheduler_stop s = false ->
    step s (with_thread s i (Running (enter env (store s))) (store s))
| step_loop_task s i env t todo p :
    nth_error (threads s) i = Some (Running (Scanning (t :: todo) p)) ->
    step s (with_thread s i
              (Running (Scanning todo (snd (process_task env t (store s, p)))))
              (fst (process_task env t (store s, p))))
| step_loop_leave s i p :
    nth_error (threads s) i = Some (Running (Scanning [] p)) ->
    step s (with_thread s i (Running Idle) (store s))
(** a request calls [run_reminder_scan_now] *)
| step_manual_enter s env :
    request s = Idle ->
    step s (with_request s (enter env (store s)) (store s))
| step_manual_task s env t todo p :
    request s = Scanning (t :: todo) p ->
    step s (with_request s
              (Scanning todo (snd (process_task env t (store s, p))))
              (fst (process_task env t (store s, p))))
| step_manual_leave s p :
    request s = Scanning [] p ->
    step s (with_request s Idle (store s))
(** a request runs another command on the store (add, done, delete) *)
| step_command s db :
    request s = Idle ->
    step s (with_request s Idle db).

Inductive reachable (s0 : system) : system -> Prop :=
| reachable_refl : reachable s0 s0
| reachable_step s s' : reachable s0 s -> step s s' -> reachable s0 s'.

Definition is_running (t : loop_thread) : bool :=
  match t with
  | Running _ => true
  | Finished => false
  end.

Definition is_scanning (pr : progress) : bool :=
  match pr with
  | Scanning _ _ => true
  | Idle => false
  end.

Definition thread_scanning (t : loop_thread) : bool :=
  match t with
  | Running pr => is_scanning pr
  | Finished => false
  end.

(** Scan passes the timed loop has in progress. *)
Definition scheduled_scans (s : system) : nat :=
  List.length (filter thread_scanning (threads s)).

Definition manual_scans (s : system) : nat :=
  if is_scanning (request s) then 1%nat else 0%nat.

(** All scan passes in progress. *)
Definition scans_in_progress (s : system) : nat :=
  (scheduled_scans s + manual_scans s)%nat.

End Service.

(** ** More of Python: whitespace, [str] and [int] on integers *)

Module PyText.

(** [\s] and [str.isspace] on bytes: tab to carriage return, the four
    separators, space. *)
Definition is_space (c : ascii) : bool :=
  let n := N_of_ascii c in
  (((9 <=? n) && (n <=? 13)) || ((28 <=? n) && (n <=? 32)))%N.

Fixpoint lstrip (s : string) : string :=
  match s with
  | EmptyString => EmptyString
  | String c s' => if is_space c then lstrip s' else s
  end.

Fixpoint rstrip (s : string) : string :=
  match s with
  | EmptyString => EmptyString
  | String c s' =>
      match rstrip s' with
      | EmptyString => if is_space c then EmptyString else String c EmptyString
      | r => String c r
      end
  end.

(** [s.strip()] *)
Definition strip (s : string) : string := rstrip (lstrip s).

(** [str(n)] of an [int], as the f-strings use it. *)
Definition str (n : Z) : string := NilZero.string_of_int (Z.to_int n).

(** [int(s)] on what [\d+] matched: the decimal value; [None] for the empty
    string or a character that is no digit. No limit on the number of
    digits is modelled. *)
Definition int (s : string) : option Z :=
  option_map (fun u => Z.of_N (N.of_uint u)) (NilZero.uint_of_string s).

(** The line feed of ["\n"]. *)
Definition newline : string := String (ascii_of_nat 10) EmptyString.

End PyText.

(** ** The regular expressions of the commands: one group of digits *)

Module ReGroup.

Inductive atom : Type :=
| Lit (c : ascii)
| Spaces
| Group.

Fixpoint lit (s : string) : list atom :=
  match s with
  | EmptyString => []
  | String c s' => Lit c :: lit s'
  end.

(** Match at the start of [s], greedily and with backtracking; the result
    is [group(1)], the digits [(\d+)] matched. *)
Fixpoint match_here (p : list atom) (s : string) : option string :=
  match p with
  | [] => Some EmptyString
  | Lit c :: p' =>
      match s with
      | String x s' => if Ascii.eqb x c then match_here p' s' else None
      | EmptyString => None
      end
  | Spaces :: p' =>
      (fix spaces (s : string) : option string :=
         match s with
         | String x s' =>
             if PyText.is_space x then
               match spaces s' with
               | Some g => Some g
               | None => match_here p' s'
               end
             else None
         | EmptyString => None
         end) s
  | Group :: p' =>
      (fix digits (s : string) : option string :=
         match s with
         | String x s' =>
             if Re.is_digit x then
               match digits s' with
               | Some g => Some (String x g)
               | None =>
                   match match_here p' s' with
                   | Some _ => Some (String x EmptyString)
                   | None => None
                   end
               end
             else None
         | EmptyString => None
         end) s
  end.

(** [re.search(p, s)], then [group(1)] of the match. *)
Fixpoint search (p : list atom) (s : string) : option string :=
  match match_here p s with
  | Some g => Some g
  | None =>
      match s with
      | EmptyString => None
      | String _ s' => search p s'
      end
  end.

End ReGroup.

(** ** [tasks_manager.py]: the summary of pending tasks *)

Module TaskSummary.
Import TasksManager.
Local Open Scope string_scope.

Section Summary.
(** [datetime.fromisoformat]; [None] when it raises. *)
Variable fromisoformat : string -> option Py.datetime.
(** [dt.strftime("%m/%d %H:%M")] *)
Variable strftime : Py.datetime -> string.

(** [{"high": ..., "medium": ..., "low": ...}.get(priority, ...)] *)
Definition priority_emoji (priority : string) : string :=
  if String.eqb priority "high" then "🔴"
  else if String.eqb priority "medium" then "🟡"
  else if String.eqb priority "low" then "🟢"
  else "🟡".

(** The line appended for one task. *)
Definition task_line (t : pending_task) : string :=
  let line :=
    priority_emoji (pending_priority t) ++ " " ++ PyText.str (pending_id t)
    ++ ". " ++ pending_text t in
  match pending_due_date t with
  | Some due_date =>
      if Py.truthy due_date then
        match fromisoformat due_date with
        | Some due_dt => line ++ " (due: " ++ strftime due_dt ++ ")"
        | None => line ++ " (due: " ++ due_date ++ ")"
        end
      else line
  | None => line
  end.

(** [summary_parts] for a non-empty listing. *)
Definition summary_parts (tasks : list pending_task) : list string :=
  let n := Z.of_nat (List.length tasks) in
  [ "You have " ++ PyText.str n ++ " pending task"
    ++ (if negb (n =? 1)%Z then "s" else "") ++ ":" ]
  ++ map task_line (firstn 5 tasks)
  ++ (if (n >? 5)%Z then ["... and " ++ PyText.str (n - 5) ++ " more"]
      else []).

(** [get_task_summary()] *)
Definition get_task_summary (sqlite_error : bool) (db : database) : string :=
  let tasks := get_pending_tasks sqlite_error db in
  match tasks with
  | [] => "You have no pending tasks! 🎉"
  | _ :: _ => String.concat PyText.newline (summary_parts tasks)
  end.

End Summary.

End TaskSummary.

(** ** [message_sender.py] *)

Module MessageSender.
Local Open Scope string_scope.

(** The environment variables [__init__] reads. *)
Record environ : Type := {
  TWILIO_ACCOUNT_SID : option string;
  TWILIO_AUTH_TOKEN : option string;
  USE_WHATSAPP : option string;
  USER_PHONE_NUMBER : option string;
  WHATSAPP_FROM : option string;
  TWILIO_PHONE_NUMBER : option string
}.

(** Truth value of something that is a [str] or [None]. *)
Definition truthy (o : option string) : bool :=
  match o with
  | Some s => Py.truthy s
  | None => false
  end.

(** The attributes of a [MessageSender]; [client] says whether a Twilio
    client was made. *)
Record sender : Type := {
  account_sid : option string;
  auth_token : option string;
  use_whatsapp : bool;
  user_number : option string;
  from_number : option string;
  client : bool
}.

(** [_format_destination(number, use_whatsapp)] *)
Definition _format_destination (number : option string) (use_whatsapp : bool)
  : option string :=
  match number with
  | None => number
  | Some n =>
      if negb (Py.truthy n) then number
      else if use_whatsapp && negb (String.prefix "whatsapp:" n)
           then Some ("whatsapp:" ++ n)
           else number
  end.

(** [MessageSender()] *)
Definition init (env : environ) : sender :=
  let use_whatsapp :=
    String.eqb
      (SMSHandler.lower
         (match USE_WHATSAPP env with Some v => v | None => "false" end))
      "true" in
  {| account_sid := TWILIO_ACCOUNT_SID env;
     auth_token := TWILIO_AUTH_TOKEN env;
     use_whatsapp := use_whatsapp;
     user_number := _format_destination (USER_PHONE_NUMBER env) use_whatsapp;
     from_number :=
       _format_destination
         (if use_whatsapp then WHATSAPP_FROM env else TWILIO_PHONE_NUMBER env)
         use_whatsapp;
     client := truthy (TWILIO_ACCOUNT_SID env)
               && truthy (TWILIO_AUTH_TOKEN env) |}.

(** [is_configured()] *)
Definition is_configured (s : sender) : bool :=
  client s && truthy (user_number s) && truthy (from_number s)
  && truthy (account_sid s) && truthy (auth_token s).

(** The text of a reminder. *)
Definition message_body (task_text : string) (task_id : Z) : string :=
  "⏰ Reminder: " ++ task_text ++ PyText.newline ++ PyText.newline
  ++ "Reply 'done " ++ PyText.str task_id ++ "' when completed!".

Definition number (o : option string) : string :=
  match o with
  | Some n => n
  | None => ""
  end.

Section Twilio.
(** [client.messages.create(body=, from_=, to=)]: it returns or raises. *)
Variable create : string -> string -> string -> Py.py_result unit.

(** [send_reminder(task_text, due_date, task_id)]: both [except] clauses
    return [False]. *)
Definition send_reminder (s : sender) (task_text : string)
    (due_date : option string) (task_id : Z) : bool :=
  if negb (is_configured s) then false
  else
    match create (message_body task_text task_id)
                 (number (from_number s)) (number (user_number s)) with
    | Py.Return _ => true
    | Py.Raise => false
    end.

(** What a scan pass meets when it runs with this sender. *)
Definition scan_environment (s : sender) (now_ts : Z) (overdue_error : bool)
    (complete_error : Z -> bool) (complete_time : Z -> string)
  : Scheduler.environment :=
  {| Scheduler.is_configured := is_configured s;
     Scheduler.send_reminder := fun task_text due_date task_id =>
       Py.Return (send_reminder s task_text due_date task_id);
     Scheduler.now_ts := now_ts;
     Scheduler.overdue_error := overdue_error;
     Scheduler.complete_error := complete_error;
     Scheduler.complete_time := complete_time |}.

End Twilio.

End MessageSender.

(** ** [llm_engine.py] and [sms_handler.py]: commands and message routing *)

Module Commands.
Import TasksManager.
Local Open Scope string_scope.

(** [LLMEngine.should_handle_command(message)] *)
Definition should_handle_command (message : string) : option string :=
  let message_lower := PyText.strip (SMSHandler.lower message) in
  if String.eqb message_lower "forget this" then Some "forget"
  else if String.eqb message_lower "show tasks" then Some "show_tasks"
  else if String.prefix "done " message_lower then Some "complete_task"
  else if String.prefix "delete task " message_lower then Some "delete_task"
  else None.

(** [r'done\s+(\d+)'] *)
Definition done_pattern : list ReGroup.atom :=
  ReGroup.lit "done" ++ [ReGroup.Spaces; ReGroup.Group].

(** [r'delete\s+task\s+(\d+)'] *)
Definition delete_pattern : list ReGroup.atom :=
  ReGroup.lit "delete" ++ [ReGroup.Spaces] ++ ReGroup.lit "task"
  ++ [ReGroup.Spaces; ReGroup.Group].

(** The replies of [_handle_command], by kind. *)
Inductive command_reply : Type :=
| Forgotten
| ForgetFailed
| Summary (text : string)
| Completed (task_id : Z)
| NotCompleted (task_id : Z)
| SpecifyDoneId
| Deleted (task_id : Z)
| NotDeleted (task_id : Z)
| SpecifyDeleteId
| NotUnderstood
| CommandError.

(** The replies of [process_message]. *)
Inductive message_reply : Type :=
| CommandReply (r : command_reply)
| TaskReply (r : SMSHandler.reply)
| Chat (response : string)
| ProcessingError.

Section Handler.
Variable fromisoformat : string -> option Py.datetime.
Variable strftime : Py.datetime -> string.
(** [memory_manager.forget_last()] *)
Variable forget_last : Py.py_result bool.

(** [_handle_command(command, message)]; an [int] that does not bind makes
    the store method raise, which the [except] clause here answers. *)
Definition _handle_command (sqlite_error : bool) (current_timestamp : string)
    (command message : string) (db : database) : command_reply * database :=
  if String.eqb command "forget" then
    match forget_last with
    | Py.Return true => (Forgotten, db)
    | Py.Return false => (ForgetFailed, db)
    | Py.Raise => (CommandError, db)
    end
  else if String.eqb command "show_tasks" then
    (Summary (TaskSummary.get_task_summary fromisoformat strftime
                sqlite_error db), db)
  else if String.eqb command "complete_task" then
    match ReGroup.search done_pattern (SMSHandler.lower message) with
    | Some group1 =>
        match PyText.int group1 with
        | Some task_id =>
            match Call.complete_task sqlite_error current_timestamp task_id
                    db with
            | (Py.Return success, db') =>
                (if success then Completed task_id else NotCompleted task_id,
                 db')
            | (Py.Raise, db') => (CommandError, db')
            end
        | None => (CommandError, db)
        end
    | None => (SpecifyDoneId, db)
    end
  else if String.eqb command "delete_task" then
    match ReGroup.search delete_pattern (SMSHandler.lower message) with
    | Some group1 =>
        match PyText.int group1 with
        | Some task_id =>
            match Call.delete_task sqlite_error task_id db with
            | (Py.Return success, db') =>
                (if success then Deleted task_id else NotDeleted task_id, db')
            | (Py.Raise, db') => (CommandError, db')
            end
        | None => (CommandError, db)
        end
    | None => (SpecifyDeleteId, db)
    end
  else (NotUnderstood, db).

(** The collaborators of [process_message]. *)
Variable parse : string -> Py.py_result (option Py.datetime).
Variables tz_utcoffset local_utcoffset : Z -> Z.
Variable isoformat : Py.datetime -> string.
Variable add_conversation : string -> SMSHandler.reply -> Py.py_result bool.
(** [memory_manager.get_context_for_prompt(message)] *)
Variable get_context_for_prompt : string -> Py.py_result string.
(** [llm_engine.parse_task_intent(message)]: the task text and priority of
    a detected task. *)
Variable parse_task_intent : string -> Py.py_result (option (string * string)).
(** [llm_engine.ask_llm(message, context)] followed by recording the
    conversation. *)
Variable ask_llm : string -> string -> Py.py_result string.

(** [process_message(user_message, user_phone)] *)
Definition process_message (sqlite_error : bool) (current_timestamp : string)
    (user_message : string) (db : database) : message_reply * database :=
  match should_handle_command user_message with
  | Some command =>
      let (r, db') :=
        _handle_command sqlite_error current_timestamp command user_message
          db in
      (CommandReply r, db')
  | None =>
      match get_context_for_prompt user_message with
      | Py.Raise => (ProcessingError, db)
      | Py.Return context =>
          match parse_task_intent user_message with
          | Py.Raise => (ProcessingError, db)
          | Py.Return (Some (task_text, priority)) =>
              let (r, db') :=
                SMSHandler._handle_task_creation parse tz_utcoffset
                  local_utcoffset isoformat fromisoformat add_conversation
                  sqlite_error current_timestamp task_text priority
                  user_message db in
              (TaskReply r, db')
          | Py.Return None =>
              match ask_llm user_message context with
              | Py.Return response => (Chat response, db)
              | Py.Raise => (ProcessingError, db)
              end
          end
      end
  end.

End Handler.

End Commands.

(** * The orders the specification words, and sample inputs *)

Module Spec.
Import TasksManager.

(** The order the specification gives for the pending listing: priority
    (high, medium, low), then the due instant ascending with NULL last, then
    creation order. *)
Definition list_pending_order : row -> row -> comparison :=
  Cmp.both (Cmp.on (fun r => priority_rank (priority r))
                   (Cmp.nulls_first Z.compare))
    (Cmp.both (Cmp.on due_ts (Cmp.nulls_last Z.compare))
              (Cmp.on id Z.compare)).

End Spec.

(** ** What can happen to a store over time *)

Module History.
Import TasksManager.

Section Commands.
Variable fromisoformat : string -> option Py.datetime.
Variable local_utcoffset : Z -> Z.

(** The calls that write to the store: the three commands of the request
    handlers and a scan pass (scheduled or manual). *)
Inductive command : Type :=
| AddTask (sqlite_error : bool) (current_timestamp text : string)
    (due_date : option string) (priority : string)
| CompleteTask (sqlite_error : bool) (current_timestamp : string) (task_id : Z)
| DeleteTask (sqlite_error : bool) (task_id : Z)
| ScanPass (env : Scheduler.environment).

Definition run_command (c : command) (db : database) : database :=
  match c with
  | AddTask e now text due priority =>
      snd (add_task fromisoformat local_utcoffset e now text due priority db)
  | CompleteTask e now task_id => snd (complete_task e now task_id db)
  | DeleteTask e task_id => snd (delete_task e task_id db)
  | ScanPass env => fst (Scheduler.scan env db)
  end.

Definition run (cs : list command) (db : database) : database :=
  fold_left (fun db c => run_command c db) cs db.

End Commands.

End History.

Module Sample.
Import TasksManager.
Local Open Scope string_scope.

(** A parser that knows the two timestamps the samples use. *)
Definition fromisoformat (s : string) : option Py.datetime :=
  if String.eqb s "2024-01-15T10:00:00+00:00" then
    Some {| Py.wall := 1705312800; Py.microsecond := 0; Py.tzinfo := Some 0 |}
  else if String.eqb s "2024-01-14T08:00:00+00:00" then
    Some {| Py.wall := 1705219200; Py.microsecond := 0; Py.tzinfo := Some 0 |}
  else None.

Definition utc (wall : Z) : Z := 0.

(** A machine whose local time is six hours behind UTC all year. *)
Definition behind_utc (wall : Z) : Z := -21600.

Definition add (now text : string) (due : option string) (priority : string)
    (db : database) : database :=
  snd (add_task fromisoformat utc false now text due priority db).

(** Three pending tasks and a completed one. *)
Definition db : database :=
  snd (complete_task false "2024-01-12 07:00:00" 4
    (add "2024-01-10 09:15:00" "water plants"
         (Some "2024-01-14T08:00:00+00:00") "low"
    (add "2024-01-10 09:10:00" "call mom"
         (Some "2024-01-14T08:00:00+00:00") "high"
    (add "2024-01-10 09:05:00" "buy milk" None "medium"
    (add "2024-01-10 09:00:00" "pay rent"
         (Some "2024-01-15T10:00:00+00:00") "medium" empty))))).

(** A pass at 2024-01-15T10:00:01Z in which the reminder for task 3 is
    sent, the one for task 1 is refused, and any other raises. *)
Definition env : Scheduler.environment :=
  {| Scheduler.is_configured := true;
     Scheduler.send_reminder := fun _ _ task_id =>
       if (task_id =? 3)%Z then Py.Return true
       else if (task_id =? 1)%Z then Py.Return false
       else Py.Raise;
     Scheduler.now_ts := 1705312801;
     Scheduler.overdue_error := false;
     Scheduler.complete_error := fun _ => false;
     Scheduler.complete_time := fun _ => "2024-01-15 10:00:01" |}.

(** The same pass with SQLite failing in every [complete_task]. *)
Definition env_failing : Scheduler.environment :=
  {| Scheduler.is_configured := true;
     Scheduler.send_reminder := Scheduler.send_reminder env;
     Scheduler.now_ts := 1705312801;
     Scheduler.overdue_error := false;
     Scheduler.complete_error := fun _ => true;
     Scheduler.complete_time := fun _ => "2024-01-15 10:00:01" |}.

(** A stand-in for [dateparser.parse] with the reference instant
    2024-01-15T23:00 in a zone six hours behind UTC: it knows two phrases,
    raises on one text and finds nothing in any other. "tomorrow" comes back
    naive, at 23:00:00.250000 of the next day. *)
Definition parse (s : string) : Py.py_result (option Py.datetime) :=
  if String.eqb s "in 5 minutes" then
    Py.Return (Some {| Py.wall := 1705359900;
                       Py.microsecond := 617000;
                       Py.tzinfo := Some (-21600) |})
  else if String.eqb s "tomorrow" then
    Py.Return (Some {| Py.wall := 1705446000;
                       Py.microsecond := 250000;
                       Py.tzinfo := None |})
  else if String.eqb s "remind me \ud83d" then Py.Raise
  else Py.Return None.

(** The configured zone: six hours behind UTC all year. *)
Definition tz_utcoffset (wall : Z) : Z := -21600.

(** A stand-in for [isoformat] that spells the two instants used here. *)
Definition isoformat (dt : Py.datetime) : string :=
  if (Py.wall dt =? 1705381500)%Z then "2024-01-16T05:05:00+00:00"
  else if (Py.wall dt =? 1705467600)%Z then "2024-01-17T05:00:00+00:00"
  else "1970-01-01T00:00:00+00:00".

Definition add_conversation (user_message : string)
    (response : SMSHandler.reply) : Py.py_result bool :=
  Py.Return false.

(** The two overdue tasks of [db] at the instant of [env]. *)
Definition task3 : due_task :=
  {| due_id := 3; due_text := "call mom";
     due_due_date := Some "2024-01-14T08:00:00+00:00";
     due_priority := "high" |}.

Definition task1 : due_task :=
  {| due_id := 1; due_text := "pay rent";
     due_due_date := Some "2024-01-15T10:00:00+00:00";
     due_priority := "medium" |}.

(** The service after start-up, ... *)
Definition started : Service.system :=
  Service.start_scheduler (Service.boot db).

(** ... after the loop thread has entered a pass, ... *)
Definition scheduled : Service.system :=
  Service.with_thread started 0
    (Service.Running (Service.enter env (Service.store started)))
    (Service.store started).

(** ... after a request has entered the manual pass meanwhile, ... *)
Definition overlapping : Service.system :=
  Service.with_request scheduled
    (Service.enter env (Service.store scheduled))
    (Service.store scheduled).

(** ... after the loop thread has handled task 3, ... *)
Definition sent_once : Service.system :=
  Service.with_thread overlapping 0
    (Service.Running
       (Service.Scanning [task1]
          (snd (Scheduler.process_task env task3
                  (Service.store overlapping, Scheduler.start)))))
    (fst (Scheduler.process_task env task3
            (Service.store overlapping, Scheduler.start))).

(** ... and after the manual pass has handled task 3 as well. *)
Definition sent_twice : Service.system :=
  Service.with_request sent_once
    (Service.Scanning [task1]
       (snd (Scheduler.process_task env task3
               (Service.store sent_once, Scheduler.start))))
    (fst (Scheduler.process_task env task3
            (Service.store sent_once, Scheduler.start))).

(** Stand-ins for the other collaborators of [process_message]. *)
Definition strftime (dt : Py.datetime) : string := "01/15 10:00".

Definition forget_last : Py.py_result bool := Py.Return true.

Definition get_context_for_prompt (message : string) : Py.py_result string :=
  Py.Return "".

Definition parse_task_intent (message : string)
  : Py.py_result (option (string * string)) :=
  Py.Return None.

Definition ask_llm (message context : string) : Py.py_result string :=
  Py.Return "ok".

(** [process_message] with the stand-ins, no SQLite error. *)
Definition process_message (now message : string) (db : database)
  : Commands.message_reply * database :=
  Commands.process_message fromisoformat strftime forget_last parse
    tz_utcoffset utc isoformat add_conversation get_context_for_prompt
    parse_task_intent ask_llm false now message db.

(** A sender for WhatsApp, and a Twilio that accepts the reminder for
    "call mom" and raises on any other message. *)
Definition sender : MessageSender.sender :=
  MessageSender.init
    {| MessageSender.TWILIO_ACCOUNT_SID := Some "AC0001";
       MessageSender.TWILIO_AUTH_TOKEN := Some "secret";
       MessageSender.USE_WHATSAPP := Some "True";
       MessageSender.USER_PHONE_NUMBER := Some "+15550001";
       MessageSender.WHATSAPP_FROM := Some "whatsapp:+15550002";
       MessageSender.TWILIO_PHONE_NUMBER := None |}.

Definition twilio_create (body from_ to : string) : Py.py_result unit :=
  if String.eqb body (MessageSender.message_body "call mom" 3)
  then Py.Return tt else Py.Raise.

(** A parser of ISO strings that knows what [isoformat] above spells. *)
Definition fromisoformat_utc (s : string) : option Py.datetime :=
  if String.eqb s "2024-01-16T05:05:00+00:00" then
    Some {| Py.wall := 1705381500; Py.microsecond := 0; Py.tzinfo := Some 0 |}
  else if String.eqb s "2024-01-17T05:00:00+00:00" then
    Some {| Py.wall := 1705467600; Py.microsecond := 0; Py.tzinfo := Some 0 |}
  else None.

End Sample.

(** * Properties of the task store *)

Module TasksManagerFacts.
Import TasksManager.

Lemma rowcount_positive (p : row -> bool) (rows : list row) :
  (rowcount p rows >? 0) = true <-> exists r, In r rows /\ p r = true.
Proof.
  unfold rowcount. rewrite Z.gtb_lt. split.
  - destruct (filter p rows) as [|r l] eqn:E; simpl; [lia|].
    intros _. exists r. apply filter_In. rewrite E. now left.
  - intros (r & Hin & Hp).
    assert (Hf : In r (filter p rows)) by (apply filter_In; auto).
    destruct (filter p rows); simpl in *; [contradiction | lia].
Qed.

Lemma rowcount_zero (p : row -> bool) (rows : list row) :
  (rowcount p rows >? 0) = false <-> forall r, In r rows -> p r = false.
Proof.
  split.
  - intros H r Hin. destruct (p r) eqn:E; trivial.
    assert ((rowcount p rows >? 0) = true) by (apply rowcount_positive; eauto).
    congruence.
  - intros H. destruct (rowcount p rows >? 0) eqn:E; trivial.
    apply rowcount_positive in E. destruct E as (r & Hin & Hp).
    rewrite (H r Hin) in Hp. discriminate.
Qed.

Lemma completes_spec (task_id : Z) (r : row) :
  completes task_id r = true <-> id r = task_id /\ completed r = 0.
Proof.
  unfold completes. rewrite andb_true_iff, !Z.eqb_eq. reflexivity.
Qed.

Lemma completes_mark_completed now task_id r :
  completes task_id (mark_completed now r) = false.
Proof. unfold completes. simpl. apply andb_false_r. Qed.

Lemma update_completed_none_left now task_id rows r :
  In r (update_completed now task_id rows) -> completes task_id r = false.
Proof.
  unfold update_completed. rewrite in_map_iff. intros (r0 & <- & _).
  destruct (completes task_id r0) eqn:E; trivial.
  apply completes_mark_completed.
Qed.

Lemma update_completed_id_when_none now task_id rows :
  (forall r, In r rows -> completes task_id r = false) ->
  update_completed now task_id rows = rows.
Proof.
  intros H. unfold update_completed.
  rewrite <- (map_id rows) at 2. apply map_ext_in.
  intros r Hin. now rewrite (H r Hin).
Qed.

(** Whatever [complete_task] reports, the table it leaves is the
    conditional UPDATE applied to the table it found, unless SQLite
    failed. *)
Lemma complete_task_tasks e now task_id db :
  tasks (snd (complete_task e now task_id db)) =
  if e then tasks db else update_completed now task_id (tasks db).
Proof.
  unfold complete_task. destruct e; trivial.
  destruct (rowcount _ _ >? 0) eqn:E; simpl; trivial.
  symmetry. apply update_completed_id_when_none.
  now apply rowcount_zero.
Qed.

Lemma complete_task_sequence e now task_id db :
  sqlite_sequence (snd (complete_task e now task_id db)) = sqlite_sequence db.
Proof.
  unfold complete_task. destruct e; trivial.
  destruct (rowcount _ _ >? 0); trivial.
Qed.

Lemma map_id_update_completed now task_id rows :
  map id (update_completed now task_id rows) = map id rows.
Proof.
  unfold update_completed. rewrite map_map. apply map_ext.
  intros r. now destruct (completes task_id r).
Qed.

Lemma max_rowid_ge rows r : In r rows -> id r <= max_rowid rows.
Proof.
  induction rows as [|x rows IH]; simpl; [contradiction|].
  intros [->|H]; [lia|]. specialize (IH H). lia.
Qed.

Lemma max_rowid_nonneg rows : 0 <= max_rowid rows.
Proof. induction rows; simpl; lia. Qed.

Lemma next_rowid_fresh db r : In r (tasks db) -> id r < next_rowid db.
Proof.
  intros H. apply max_rowid_ge in H. unfold next_rowid. lia.
Qed.

Lemma next_rowid_positive db : 0 < next_rowid db.
Proof. unfold next_rowid. pose proof (max_rowid_nonneg (tasks db)). lia. Qed.

(** *** The primary-key invariant is kept by every operation *)

Lemma well_formed_empty : well_formed empty.
Proof. split; constructor. Qed.

Lemma well_formed_add_task fromisoformat local_utcoffset e now text due
    priority db :
  well_formed db ->
  well_formed (snd (add_task fromisoformat local_utcoffset e now text due
                      priority db)).
Proof.
  intros [Hnd Hall]. unfold add_task. destruct e; [now split|].
  simpl. split; simpl.
  - rewrite map_app. simpl.
    apply NoDup_app.
    repeat split; trivial.
    + repeat constructor. simpl. tauto.
    + intros x Hx [<-|[]].
      apply in_map_iff in Hx. destruct Hx as (r & Hr & Hin).
      apply next_rowid_fresh in Hin. lia.
  - apply Forall_app. split.
    + eapply Forall_impl; [|exact Hall]. simpl.
      intros r Hr. unfold next_rowid. lia.
    + constructor; [|constructor]. simpl.
      pose proof (next_rowid_positive db). lia.
Qed.

Lemma well_formed_complete_task e now task_id db :
  well_formed db -> well_formed (snd (complete_task e now task_id db)).
Proof.
  intros [Hnd Hall]. unfold well_formed.
  rewrite complete_task_tasks, complete_task_sequence.
  destruct e; [now split|].
  rewrite map_id_update_completed. split; trivial.
  unfold update_completed. apply Forall_map.
  eapply Forall_impl; [|exact Hall]. simpl.
  intros r Hr. now destruct (completes task_id r).
Qed.

Lemma well_formed_delete_task e task_id db :
  well_formed db -> well_formed (snd (delete_task e task_id db)).
Proof.
  intros [Hnd Hall]. unfold delete_task. destruct e; [now split|].
  destruct (rowcount _ _ >? 0); [|now split].
  split; simpl.
  - clear Hall. induction (tasks db) as [|r rows IH]; simpl; trivial.
    inversion Hnd; subst.
    destruct (id r =? task_id); simpl; auto.
    constructor; auto.
    intros Hin. apply in_map_iff in Hin. destruct Hin as (r' & Hr' & Hin).
    apply filter_In in Hin. destruct Hin as [Hin _].
    apply H1. apply in_map_iff. eauto.
  - apply Forall_forall. intros r Hin. apply filter_In in Hin.
    rewrite Forall_forall in Hall. now apply Hall.
Qed.

(** *** Looking a row up by its id *)

Lemma row_with_id_unique rows r :
  NoDup (map id rows) -> In r rows -> row_with_id (id r) rows = Some r.
Proof.
  unfold row_with_id.
  induction rows as [|x rows IH]; simpl; [contradiction|].
  intros Hnd Hin. inversion Hnd as [|? ? Hnotin Hnd']; subst.
  destruct Hin as [->|Hin].
  - now rewrite Z.eqb_refl.
  - destruct (id x =? id r) eqn:E; [|auto].
    apply Z.eqb_eq in E. exfalso. apply Hnotin. rewrite E. now apply in_map.
Qed.

(** What the conditional UPDATE of [complete_task] does to one row. *)
Definition complete_row (now : string) (r : row) : row :=
  if completed r =? 0 then mark_completed now r else r.

Lemma row_with_id_update_completed now i j rows :
  row_with_id i (update_completed now j rows) =
  if i =? j then option_map (complete_row now) (row_with_id i rows)
  else row_with_id i rows.
Proof.
  unfold row_with_id, update_completed, complete_row.
  induction rows as [|x rows IH]; simpl.
  - now destruct (i =? j).
  - assert (Hid : id (if completes j x then mark_completed now x else x)
                  = id x) by now destruct (completes j x).
    rewrite Hid. destruct (id x =? i) eqn:Exi; [|exact IH].
    apply Z.eqb_eq in Exi. unfold completes. rewrite Exi.
    now destruct (i =? j).
Qed.

Lemma row_with_id_complete_task e now i j db :
  row_with_id i (tasks (snd (complete_task e now j db))) =
  if negb e && (i =? j)
  then option_map (complete_row now) (row_with_id i (tasks db))
  else row_with_id i (tasks db).
Proof.
  rewrite complete_task_tasks. destruct e; simpl; trivial.
  apply row_with_id_update_completed.
Qed.

(** *** The overdue query *)

Lemma NoDup_map_filter {K V : Type} (key : V -> K) (keep : V -> bool) :
  forall rows : list V,
    NoDup (map key rows) -> NoDup (map key (filter keep rows)).
Proof.
  intros rows. induction rows as [|v rows IH]; simpl; trivial.
  intros H. inversion H as [|? ? Hnotin Hnd]; subst.
  destruct (keep v); simpl; auto.
  constructor; auto.
  intros Hin. apply Hnotin.
  apply in_map_iff in Hin. destruct Hin as (x & Hx & Hin).
  apply filter_In in Hin. apply in_map_iff. exists x. tauto.
Qed.

Lemma StronglySorted_within {A : Type} (R R' : A -> A -> Prop) (l : list A) :
  (forall a b, In a l -> In b l -> R a b -> R' a b) ->
  StronglySorted R l -> StronglySorted R' l.
Proof.
  intros Himp Hs. induction Hs as [|a l Hs IH Hall]; constructor.
  - apply IH. intros x y Hx Hy. apply Himp; now right.
  - rewrite Forall_forall in *. intros x Hx.
    apply Himp; [now left | now right | now apply Hall].
Qed.

Lemma is_overdue_spec (now_ts : Z) (r : row) :
  is_overdue now_ts r = true <->
  completed r = 0 /\ exists ts, due_ts r = Some ts /\ ts < now_ts.
Proof.
  unfold is_overdue. rewrite andb_true_iff, Z.eqb_eq.
  destruct (due_ts r) as [ts|].
  - rewrite Z.ltb_lt. split.
    + intros [H1 H2]. eauto.
    + intros [H1 (ts' & [= <-] & H2)]. auto.
  - split; [intros [_ [=]] | intros [_ (ts & [=] & _)]].
Qed.

Lemma overdue_rows_In (now_ts : Z) (db : database) (r : row) :
  In r (overdue_rows now_ts db) <->
  In r (tasks db) /\ is_overdue now_ts r = true.
Proof.
  unfold overdue_rows. rewrite Sql.order_by_In. apply filter_In.
Qed.

Lemma due_id_of_rows (rows : list row) :
  map due_id (map due_of_row rows) = map id rows.
Proof. rewrite map_map. reflexivity. Qed.

Lemma get_overdue_tasks_NoDup e now_ts db :
  well_formed db -> NoDup (map due_id (get_overdue_tasks e now_ts db)).
Proof.
  intros [Hnd _]. unfold get_overdue_tasks. destruct e; [constructor|].
  rewrite due_id_of_rows.
  eapply Permutation_NoDup.
  - apply Permutation_map, Permutation_sym, Sql.order_by_perm.
  - now apply NoDup_map_filter.
Qed.

Lemma get_overdue_tasks_In e now_ts db t :
  In t (get_overdue_tasks e now_ts db) ->
  exists r, t = due_of_row r /\ In r (tasks db) /\ completed r = 0.
Proof.
  unfold get_overdue_tasks. destruct e; [contradiction|].
  intros Hin. apply in_map_iff in Hin. destruct Hin as (r & <- & Hin).
  apply overdue_rows_In in Hin. destruct Hin as [Hin Hover].
  apply is_overdue_spec in Hover. exists r. tauto.
Qed.

(** *** The sort keys are orders *)

Lemma Order_due_ts_order : Cmp.Order due_ts_order.
Proof.
  unfold due_ts_order.
  apply Cmp.Order_on, Cmp.Order_nulls_first, Cmp.Order_Z.
Qed.

Lemma Order_pending_order : Cmp.Order pending_order.
Proof.
  unfold pending_order. apply Cmp.Order_both.
  - apply Cmp.Order_on, Cmp.Order_nulls_first, Cmp.Order_Z.
  - apply Cmp.Order_both.
    + apply Cmp.Order_on, Cmp.Order_nulls_first, Cmp.Order_string.
    + apply Cmp.Order_on, Cmp.Order_string.
Qed.

Lemma well_formed_sample : well_formed Sample.db.
Proof.
  split.
  - vm_compute. repeat constructor; simpl; intuition discriminate.
  - vm_compute. repeat constructor; discriminate.
Qed.

(** *** The methods on an [int] that binds *)

Lemma binds_spec (task_id : Z) :
  binds task_id = true <->
  SQLITE_INTEGER_MIN <= task_id <= SQLITE_INTEGER_MAX.
Proof.
  unfold binds. rewrite andb_true_iff, !Z.leb_le. reflexivity.
Qed.

Lemma call_get_task_binds e task_id db :
  binds task_id = true ->
  Call.get_task e task_id db = Py.Return (get_task e task_id db).
Proof.
  intros H. unfold Call.get_task, get_task. rewrite H. destruct e; trivial.
  now destruct (row_with_id task_id (tasks db)).
Qed.

Lemma call_complete_task_binds e now task_id db :
  binds task_id = true ->
  Call.complete_task e now task_id db =
  (Py.Return (fst (complete_task e now task_id db)),
   snd (complete_task e now task_id db)).
Proof.
  intros H. unfold Call.complete_task, complete_task. rewrite H.
  destruct e; trivial. now destruct (rowcount _ _ >? 0).
Qed.

Lemma call_delete_task_binds e task_id db :
  binds task_id = true ->
  Call.delete_task e task_id db =
  (Py.Return (fst (delete_task e task_id db)),
   snd (delete_task e task_id db)).
Proof.
  intros H. unfold Call.delete_task, delete_task. rewrite H.
  destruct e; trivial. now destruct (rowcount _ _ >? 0).
Qed.

End TasksManagerFacts.

(** * Properties of a scan pass *)

Module SchedulerFacts.
Import TasksManager TasksManagerFacts Scheduler.

(** A pass writes to the store through [complete_task] only. *)
Lemma process_task_store env t db p :
  fst (process_task env t (db, p)) = db \/
  fst (process_task env t (db, p)) =
    snd (complete_task (complete_error env (due_id t))
           (complete_time env (due_id t)) (due_id t) db).
Proof.
  unfold process_task.
  destruct (existsb _ _); [now left|].
  destruct (send env t) as [[|]|]; simpl; auto.
Qed.

Lemma scan_tasks_cons env t l s :
  scan_tasks env (t :: l) s = scan_tasks env l (process_task env t s).
Proof. reflexivity. Qed.

Lemma scan_tasks_preserves (P : database -> Prop) env :
  (forall e now task_id db, P db -> P (snd (complete_task e now task_id db))) ->
  forall due_tasks db p, P db -> P (fst (scan_tasks env due_tasks (db, p))).
Proof.
  intros Hc. induction due_tasks as [|t l IH]; intros db p HP; trivial.
  rewrite scan_tasks_cons.
  destruct (process_task env t (db, p)) as [db1 p1] eqn:E.
  apply IH.
  destruct (process_task_store env t db p) as [H|H];
    rewrite E in H; simpl in H; subst; auto.
Qed.

Lemma scan_preserves (P : database -> Prop) env :
  (forall e now task_id db, P db -> P (snd (complete_task e now task_id db))) ->
  forall db, P db -> P (fst (scan env db)).
Proof.
  intros Hc db HP. unfold scan.
  destruct (negb (is_configured env)); trivial.
  destruct (get_overdue_tasks _ _ db) as [|t l]; trivial.
  now apply scan_tasks_preserves.
Qed.

(** Only fetched tasks are handed to [send_reminder]. *)
Lemma process_task_reminders env t db p x :
  In x (reminders (snd (process_task env t (db, p)))) ->
  In x (reminders p) \/ x = t.
Proof.
  unfold process_task.
  destruct (existsb _ _); [now left|].
  destruct (send env t) as [[|]|]; simpl; rewrite in_app_iff; simpl;
    intuition.
Qed.

Lemma scan_tasks_reminders env due_tasks :
  forall db p x,
    In x (reminders (snd (scan_tasks env due_tasks (db, p)))) ->
    In x (reminders p) \/ In x due_tasks.
Proof.
  induction due_tasks as [|t l IH]; intros db p x; [now left|].
  rewrite scan_tasks_cons.
  destruct (process_task env t (db, p)) as [db1 p1] eqn:E.
  intros H. apply IH in H. destruct H as [H|H]; [|now right; right].
  pose proof (process_task_reminders env t db p x) as Hp.
  rewrite E in Hp. simpl in Hp.
  destruct (Hp H) as [H1| ->]; [now left | right; now left].
Qed.

Lemma scan_reminders env db x :
  In x (reminders (snd (scan env db))) ->
  In x (get_overdue_tasks (overdue_error env) (now_ts env) db).
Proof.
  unfold scan. destruct (negb (is_configured env)); [contradiction|].
  destruct (get_overdue_tasks _ _ db) as [|t l] eqn:E; [contradiction|].
  intros H. apply scan_tasks_reminders in H. destruct H as [[]|H]. exact H.
Qed.

(** *** What a pass does to each fetched task *)

Lemma seen_spec (i : Z) (l : list Z) :
  existsb (Z.eqb i) l = true <-> In i l.
Proof.
  rewrite existsb_exists. split.
  - intros (x & Hin & Heq). apply Z.eqb_eq in Heq. now subst.
  - intros Hin. exists i. split; trivial. apply Z.eqb_refl.
Qed.

Lemma not_seen_spec (i : Z) (l : list Z) :
  ~ In i l -> existsb (Z.eqb i) l = false.
Proof.
  intros H. destruct (existsb (Z.eqb i) l) eqn:E; trivial.
  apply seen_spec in E. contradiction.
Qed.

(** What handling [t] does to the row that carries its id. *)
Definition outcome (env : environment) (t : due_task) (o : option row)
  : option row :=
  match send env t with
  | Py.Return true =>
      if complete_error env (due_id t) then o
      else option_map (complete_row (complete_time env (due_id t))) o
  | _ => o
  end.

Lemma process_task_other env t db p i :
  due_id t <> i ->
  row_with_id i (tasks (fst (process_task env t (db, p)))) =
  row_with_id i (tasks db).
Proof.
  intros Hne.
  destruct (process_task_store env t db p) as [-> | ->]; trivial.
  rewrite row_with_id_complete_task.
  assert (E : (i =? due_id t) = false) by (apply Z.eqb_neq; congruence).
  rewrite E, andb_false_r. reflexivity.
Qed.

Lemma process_task_fresh env t db p :
  ~ In (due_id t) (seen p) ->
  row_with_id (due_id t) (tasks (fst (process_task env t (db, p)))) =
    outcome env t (row_with_id (due_id t) (tasks db)) /\
  reminders (snd (process_task env t (db, p))) = reminders p ++ [t] /\
  seen (snd (process_task env t (db, p))) = due_id t :: seen p.
Proof.
  intros Hfresh. unfold process_task, outcome.
  rewrite (not_seen_spec _ _ Hfresh).
  destruct (send env t) as [[|]|]; simpl; auto.
  split; auto.
  rewrite row_with_id_complete_task, Z.eqb_refl, andb_true_r.
  now destruct (complete_error env (due_id t)).
Qed.

Lemma scan_tasks_other env i l :
  forall db p,
    (forall t, In t l -> due_id t <> i) ->
    row_with_id i (tasks (fst (scan_tasks env l (db, p)))) =
    row_with_id i (tasks db).
Proof.
  induction l as [|t l IH]; intros db p Hne; trivial.
  rewrite scan_tasks_cons.
  destruct (process_task env t (db, p)) as [db1 p1] eqn:E.
  rewrite IH by (intros; apply Hne; now right).
  pose proof (process_task_other env t db p i (Hne t (or_introl eq_refl))) as H.
  now rewrite E in H.
Qed.

Lemma scan_tasks_each env l :
  forall db p,
    NoDup (map due_id l) ->
    (forall t, In t l -> ~ In (due_id t) (seen p)) ->
    reminders (snd (scan_tasks env l (db, p))) = reminders p ++ l /\
    forall t, In t l ->
      row_with_id (due_id t) (tasks (fst (scan_tasks env l (db, p)))) =
      outcome env t (row_with_id (due_id t) (tasks db)).
Proof.
  induction l as [|t l IH]; intros db p Hnd Hfresh.
  - simpl. rewrite app_nil_r. split; [reflexivity | contradiction].
  - rewrite scan_tasks_cons.
    inversion Hnd as [|? ? Hnotin Hnd']; subst.
    destruct (process_task_fresh env t db p (Hfresh t (or_introl eq_refl)))
      as (Hrow & Hrem & Hseen).
    destruct (process_task env t (db, p)) as [db1 p1] eqn:E.
    simpl in Hrow, Hrem, Hseen.
    assert (Hfresh1 : forall t', In t' l -> ~ In (due_id t') (seen p1)).
    { intros t' Hin. rewrite Hseen. intros [Heq|Hin'].
      - apply Hnotin. rewrite Heq. now apply in_map.
      - exact (Hfresh t' (or_intror Hin) Hin'). }
    destruct (IH db1 p1 Hnd' Hfresh1) as [IHrem IHrow].
    split.
    + rewrite IHrem, Hrem, <- app_assoc. reflexivity.
    + intros t' [<-|Hin].
      * rewrite scan_tasks_other; trivial.
        intros t' Hin Heq. apply Hnotin. rewrite <- Heq. now apply in_map.
      * rewrite (IHrow t' Hin). f_equal.
        pose proof (process_task_other env t db p (due_id t')) as H.
        rewrite E in H. apply H.
        intros Heq. apply Hnotin. rewrite Heq. now apply in_map.
Qed.

(** *** The [seen] set: one call per id, whatever list is iterated *)

(** [seen] holds the ids of the calls made so far, and no id was called
    twice. *)
Definition deduplicated (p : pass) : Prop :=
  NoDup (map due_id (reminders p)) /\
  forall i, In i (seen p) <-> In i (map due_id (reminders p)).

Lemma deduplicated_start : deduplicated start.
Proof. split; [constructor | reflexivity]. Qed.

Lemma process_task_deduplicated env t db p :
  deduplicated p ->
  deduplicated (snd (process_task env t (db, p))) /\
  In (due_id t) (seen (snd (process_task env t (db, p)))) /\
  forall i, In i (seen p) -> In i (seen (snd (process_task env t (db, p)))).
Proof.
  intros [Hnd Hseen].
  destruct (in_dec Z.eq_dec (due_id t) (seen p)) as [Hin|Hnotin].
  - unfold process_task. apply seen_spec in Hin. rewrite Hin. simpl.
    apply seen_spec in Hin. repeat split; trivial; apply Hseen.
  - destruct (process_task_fresh env t db p Hnotin) as (_ & Hrem & Hs).
    unfold deduplicated. rewrite Hrem, Hs. repeat split.
    + rewrite map_app. simpl. apply NoDup_app. repeat split; trivial.
      * repeat constructor. simpl. tauto.
      * intros x Hx [<-|[]]. apply Hnotin. now apply Hseen.
    + rewrite map_app, in_app_iff. simpl.
      intros [<-|Hi]; [tauto|]. left. now apply Hseen.
    + rewrite map_app, in_app_iff. simpl.
      intros [Hi|[<-|[]]]; [right; now apply Hseen | now left].
    + now left.
    + intros i Hi. now right.
Qed.

Lemma scan_tasks_deduplicated env l :
  forall db p,
    deduplicated p ->
    deduplicated (snd (scan_tasks env l (db, p))) /\
    (forall i, In i (seen p) -> In i (seen (snd (scan_tasks env l (db, p)))))
    /\
    forall t, In t l -> In (due_id t) (seen (snd (scan_tasks env l (db, p)))).
Proof.
  induction l as [|t l IH]; intros db p Hd.
  - simpl. repeat split; try apply Hd; trivial. contradiction.
  - rewrite scan_tasks_cons.
    destruct (process_task_deduplicated env t db p Hd) as (Hd1 & Ht & Hmono).
    destruct (process_task env t (db, p)) as [db1 p1]. simpl in *.
    destruct (IH db1 p1 Hd1) as (Hd2 & Hmono2 & Hall).
    repeat split; try apply Hd2; auto.
    intros t' [<-|Hin]; auto.
Qed.

End SchedulerFacts.


(** * The claims about the task store *)

Module TaskStoreClaims.
Import TasksManager TasksManagerFacts.

(** C1, as the specification states it, fails on an id SQLite cannot hold:
    no row of the sample store carries 2^63, and [complete_task(2^63)] does
    not return [False] but raises ([OverflowError], from the binding of the
    parameter). It also fails under an SQLite error: task 1 exists and is
    pending, and [complete_task(1)] returns [False]. *)
Lemma complete_task_raises_beyond_sqlite_integers :
  (forall r, In r (tasks Sample.db) -> id r <> 9223372036854775808) /\
  Call.complete_task false "2024-01-16 00:00:00" 9223372036854775808
    Sample.db = (Py.Raise, Sample.db) /\
  (exists r, In r (tasks Sample.db) /\ id r = 1 /\ completed r = 0) /\
  Call.complete_task true "2024-01-16 00:00:00" 1 Sample.db =
    (Py.Return false, Sample.db).
Proof.
  split; [|split; [reflexivity|split; [|reflexivity]]].
  - intros r Hin. vm_compute in Hin.
    repeat (destruct Hin as [<-|Hin]; [discriminate|]). contradiction.
  - eexists. split; [left; reflexivity|]. split; reflexivity.
Qed.

(** What the UPDATE of [complete_task(task_id)], run at [now], makes of
    one row: a pending row with that id becomes completed and gets its
    [completed_at]; any other row stays as it is. *)
Definition updated_by (now : string) (task_id : Z) (r r' : row) : Prop :=
  (id r = task_id /\ completed r = 0 ->
   r' = {| id := id r;
           text := text r;
           due_date := due_date r;
           due_ts := due_ts r;
           completed := 1;
           priority := priority r;
           created_at := created_at r;
           completed_at := Some now |}) /\
  (~ (id r = task_id /\ completed r = 0) -> r' = r).

Lemma update_completed_row_by_row now task_id rows :
  Forall2 (updated_by now task_id) rows (update_completed now task_id rows).
Proof.
  induction rows as [|r rows IH]; simpl; constructor; trivial.
  unfold updated_by. destruct (completes task_id r) eqn:E.
  - split; [reflexivity|]. apply completes_spec in E. tauto.
  - split; [|reflexivity]. intros H. apply completes_spec in H. congruence.
Qed.

(** C1, amended. For an id SQLite can hold, [complete_task(id)] never
    raises. It returns [True] exactly when SQLite does not fail and a row
    with that id and [completed = 0] exists, and then the table is the one
    it found with the pending rows of that id completed and stamped, every
    other row and the row order as before. When it returns [False] (no
    such row, the row already completed, an SQLite error) the store is as
    it was. After a call that ran without an SQLite error, a second call on
    the same id returns [False] and leaves the store unchanged. *)
Theorem complete_task_conditional :
  forall (e e' : bool) (now now' : string) (task_id : Z) (db : database),
    binds task_id = true ->
    let result := fst (Call.complete_task e now task_id db) in
    let db' := snd (Call.complete_task e now task_id db) in
    (result = Py.Return true \/ result = Py.Return false) /\
    (result = Py.Return true <->
       e = false /\
       exists r, In r (tasks db) /\ id r = task_id /\ completed r = 0) /\
    (result = Py.Return false -> db' = db) /\
    (result = Py.Return true ->
       sqlite_sequence db' = sqlite_sequence db /\
       Forall2 (updated_by now task_id) (tasks db) (tasks db')) /\
    (e = false ->
     Call.complete_task e' now' task_id db' = (Py.Return false, db')).
Proof.
  intros e e' now now' task_id db Hb result db'.
  unfold result, db', Call.complete_task. rewrite Hb. cbn [negb].
  destruct e.
  { cbn [fst snd]. split; [now right|]. split.
    - split; [discriminate | intros [H _]; discriminate].
    - split; [trivial|]. split; discriminate. }
  destruct (rowcount (completes task_id) (tasks db) >? 0) eqn:E;
    cbn [fst snd tasks].
  - pose proof E as E'. apply rowcount_positive in E'.
    destruct E' as (r & Hin & Hc). apply completes_spec in Hc.
    split; [now left|]. split; [|split; [discriminate|split]].
    + split; [|trivial]. intros _. split; [reflexivity|].
      exists r. tauto.
    + intros _. split; [reflexivity|]. apply update_completed_row_by_row.
    + intros _.
      assert (E2 : (rowcount (completes task_id)
                      (update_completed now task_id (tasks db)) >? 0) = false).
      { apply rowcount_zero. intros r0. apply update_completed_none_left. }
      rewrite E2. now destruct e'.
  - split; [now right|]. split; [|split; [trivial|split]].
    + split; [discriminate|].
      intros (_ & r & Hin & Hid & Hc).
      assert (E1 : (rowcount (completes task_id) (tasks db) >? 0) = true).
      { apply rowcount_positive. exists r. split; trivial.
        now apply completes_spec. }
      congruence.
    + discriminate.
    + intros _. rewrite E. now destruct e'.
Qed.

(** Task 1 of the sample store is pending: the first call completes it,
    the second returns [False]. *)
Lemma complete_task_conditional_witness :
  fst (Call.complete_task false "2024-01-16 00:00:00" 1 Sample.db) =
    Py.Return true /\
  Call.complete_task false "2024-01-17 00:00:00" 1
    (snd (Call.complete_task false "2024-01-16 00:00:00" 1 Sample.db)) =
  (Py.Return false,
   snd (Call.complete_task false "2024-01-16 00:00:00" 1 Sample.db)).
Proof.
  destruct (complete_task_conditional false false "2024-01-16 00:00:00"
              "2024-01-17 00:00:00" 1 Sample.db eq_refl)
    as (_ & _ & _ & _ & Hsecond).
  split; [reflexivity|]. exact (Hsecond eq_refl).
Defined.

(** C2 fails of the call on a machine whose local time is not UTC. The
    query compares [due_ts], seconds since the epoch, with
    [int(datetime.utcnow().timestamp())]: [utcnow()] is naive and
    [timestamp()] reads a naive value as local time, so the value is the
    instant shifted by the local UTC offset. Six hours behind UTC, at
    2024-01-15T08:00:00Z, the call computes the clock value of 14:00:00Z and
    returns task 1 of the sample store, due at 10:00:00Z, two hours before
    it is due; on a machine on UTC, at the same instant, it does not. *)
Theorem get_overdue_tasks_reads_utc_as_local_time :
  (exists r, In r (tasks Sample.db) /\ id r = 1 /\ completed r = 0 /\
             due_ts r = Some 1705312800 /\ 1705305600 < 1705312800) /\
  Call.now_ts Sample.behind_utc 1705305600 0 = 1705305600 + 21600 /\
  map due_id
    (Call.get_overdue_tasks Sample.behind_utc false 1705305600 0 Sample.db)
  = [3; 1] /\
  Call.now_ts Sample.utc 1705305600 0 = 1705305600 /\
  map due_id
    (Call.get_overdue_tasks Sample.utc false 1705305600 0 Sample.db) = [3].
Proof.
  split; [|repeat split].
  eexists. split; [left; reflexivity|]. repeat split.
Qed.

(** C8, as the specification states it, fails: with task 1 present and
    pending, [get_task(1)] under an SQLite error returns what [get_task(99)]
    returns for an id no row carries, and likewise for [complete_task]; the
    caller sees [None], respectively [False], in both cases. *)
Lemma storage_error_looks_like_not_found :
  get_task true 1 Sample.db = get_task false 99 Sample.db /\
  get_task false 1 Sample.db <> None /\
  complete_task true "2024-01-16 00:00:00" 1 Sample.db =
    complete_task false "2024-01-16 00:00:00" 99 Sample.db /\
  fst (complete_task false "2024-01-16 00:00:00" 1 Sample.db) = true.
Proof. repeat split; try reflexivity. discriminate. Qed.

(** C8, amended. An SQLite error inside [get_task] or [complete_task] is
    caught inside the call, whatever the id and the store: [get_task]
    returns [None], [complete_task] returns [False] and leaves the store as
    it was. A store that works and does not hold the task answers the same,
    so the caller cannot tell the two apart. *)
Theorem storage_error_is_swallowed :
  forall (now : string) (task_id : Z) (db : database),
    Call.get_task true task_id db = Py.Return None /\
    Call.complete_task true now task_id db = (Py.Return false, db) /\
    (binds task_id = true ->
     let absent := snd (Call.delete_task false task_id db) in
     (forall r, In r (tasks absent) -> id r <> task_id) /\
     Call.get_task false task_id absent = Call.get_task true task_id db /\
     Call.complete_task false now task_id absent =
       (fst (Call.complete_task true now task_id db), absent)).
Proof.
  intros now task_id db. split; [reflexivity|]. split; [reflexivity|].
  intros Hb absent.
  assert (Hnone : forall r, In r (tasks absent) -> id r <> task_id).
  { intros r. unfold absent, Call.delete_task. rewrite Hb. cbn [negb].
    destruct (rowcount _ _ >? 0) eqn:E; cbn [snd tasks].
    - rewrite filter_In, negb_true_iff, Z.eqb_neq. tauto.
    - intros Hin Hid.
      apply (proj1 (rowcount_zero _ _)) with (r := r) in E; trivial.
      apply Z.eqb_neq in E. contradiction. }
  split; [exact Hnone|].
  assert (Hfind : find (fun r => id r =? task_id) (tasks absent) = None).
  { destruct (find _ _) as [r|] eqn:E; trivial.
    apply find_some in E. destruct E as [Hin Hid].
    apply Z.eqb_eq in Hid. now destruct (Hnone r Hin). }
  assert (Hrc : (rowcount (completes task_id) (tasks absent) >? 0) = false).
  { apply rowcount_zero. intros r Hin.
    destruct (completes task_id r) eqn:E; trivial.
    apply completes_spec in E. now destruct (Hnone r Hin). }
  unfold Call.get_task, Call.complete_task, row_with_id.
  rewrite Hb, Hfind, Hrc. split; reflexivity.
Qed.

(** Task 1 is in the sample store, pending: under an SQLite error the two
    calls answer as they do on the working store without task 1. *)
Lemma storage_error_is_swallowed_witness :
  Call.get_task false 1 (snd (Call.delete_task false 1 Sample.db)) =
    Call.get_task true 1 Sample.db /\
  Call.complete_task false "2024-01-16 00:00:00" 1
    (snd (Call.delete_task false 1 Sample.db)) =
  (fst (Call.complete_task true "2024-01-16 00:00:00" 1 Sample.db),
   snd (Call.delete_task false 1 Sample.db)).
Proof.
  exact (proj2 (proj2 (proj2
    (storage_error_is_swallowed "2024-01-16 00:00:00" 1 Sample.db))
    eq_refl)).
Defined.

Lemma is_pending_spec (r : row) : is_pending r = true <-> completed r = 0.
Proof. unfold is_pending. apply Z.eqb_eq. Qed.

(** C9, as the specification states it, fails: in the sample store tasks 1
    and 2 are both pending with priority medium, task 1 has a due time and
    task 2 has none, and the listing puts task 2 first. *)
Lemma pending_null_due_date_comes_first :
  map pending_id (get_pending_tasks false Sample.db) = [3; 2; 1] /\
  ~ StronglySorted (Cmp.le Spec.list_pending_order) (pending_rows Sample.db).
Proof.
  split; [reflexivity|].
  intros H. vm_compute in H.
  inversion H as [|? ? _ Hall]; subst.
  inversion Hall as [|? ? _ Hall']; subst.
  inversion Hall' as [|? ? _ Hall'']; subst.
  clear - H. inversion H as [|? ? H' _]; subst.
  inversion H' as [|? ? _ Hf]; subst.
  inversion Hf as [|? ? Hle _]; subst.
  apply Hle. reflexivity.
Qed.

(** C9, amended. The pending listing returns the rows with [completed = 0],
    each once, ordered by the priority rank (high, medium, low; any other
    text ranks before them), then by the due-date text ascending with NULL
    first, then by the creation timestamp. *)
Theorem get_pending_tasks_order :
  forall (db : database),
    get_pending_tasks false db = map pending_of_row (pending_rows db) /\
    (forall r, In r (pending_rows db) <-> In r (tasks db) /\ completed r = 0) /\
    Permutation (pending_rows db) (filter is_pending (tasks db)) /\
    StronglySorted (Cmp.le pending_order) (pending_rows db).
Proof.
  intros db. repeat apply conj.
  - reflexivity.
  - intros r. unfold pending_rows.
    rewrite Sql.order_by_In, filter_In, is_pending_spec. reflexivity.
  - apply Sql.order_by_perm.
  - apply (Sql.order_by_sorted pending_order (H := Order_pending_order)).
Qed.

(** *** A task stored without [due_ts] stays without it *)

(** No row with this id carries a [due_ts], and the id is not free to be
    handed out again. *)
Definition without_due_ts (task_id : Z) (db : database) : Prop :=
  task_id <= sqlite_sequence db /\
  forall r, In r (tasks db) -> id r = task_id -> due_ts r = None.

Lemma without_due_ts_complete_task task_id e now i db :
  without_due_ts task_id db ->
  without_due_ts task_id (snd (complete_task e now i db)).
Proof.
  intros [Hseq Hrows]. unfold without_due_ts.
  rewrite complete_task_tasks, complete_task_sequence. split; trivial.
  destruct e; trivial.
  unfold update_completed. intros r Hin Hid.
  apply in_map_iff in Hin. destruct Hin as (r0 & <- & Hin).
  destruct (completes i r0); simpl in *; auto.
Qed.

Lemma without_due_ts_run_command fromisoformat local_utcoffset task_id c db :
  without_due_ts task_id db ->
  without_due_ts task_id
    (History.run_command fromisoformat local_utcoffset c db).
Proof.
  intros H. destruct c as [e now text due priority|e now i|e i|env]; simpl.
  - destruct H as [Hseq Hrows]. unfold add_task. destruct e; [now split|].
    simpl. split; simpl.
    + unfold next_rowid. lia.
    + intros r Hin Hid. apply in_app_iff in Hin.
      destruct Hin as [Hin|[<-|[]]]; auto.
      simpl in Hid. unfold next_rowid in Hid. lia.
  - now apply without_due_ts_complete_task.
  - destruct H as [Hseq Hrows]. unfold delete_task. destruct e; [now split|].
    destruct (rowcount _ _ >? 0); [|now split].
    split; simpl; trivial.
    intros r Hin. apply filter_In in Hin. now apply Hrows.
  - apply SchedulerFacts.scan_preserves; trivial.
    intros. now apply without_due_ts_complete_task.
Qed.

Lemma without_due_ts_run fromisoformat local_utcoffset task_id cs :
  forall db,
    without_due_ts task_id db ->
    without_due_ts task_id (History.run fromisoformat local_utcoffset cs db).
Proof.
  induction cs as [|c cs IH]; intros db H; simpl; trivial.
  apply IH. now apply without_due_ts_run_command.
Qed.

Lemma without_due_ts_not_overdue task_id e now_ts db :
  without_due_ts task_id db ->
  ~ In task_id (map due_id (get_overdue_tasks e now_ts db)).
Proof.
  intros [_ Hrows]. unfold get_overdue_tasks. destruct e; [intros []|].
  rewrite due_id_of_rows. intros Hin.
  apply in_map_iff in Hin. destruct Hin as (r & Hid & Hin).
  apply overdue_rows_In in Hin. destruct Hin as [Hin Hover].
  apply is_overdue_spec in Hover. destruct Hover as (_ & ts & Hts & _).
  rewrite (Hrows r Hin Hid) in Hts. discriminate.
Qed.

(** C10. A task added with a due-date string that [fromisoformat] rejects is
    stored with that string and with a NULL [due_ts]. Whatever is done to the
    store afterwards, the overdue query never returns it and no scan pass,
    scheduled or manual, sends a reminder for it. *)
Theorem unparseable_due_date_never_reminds :
  forall (fromisoformat : string -> option Py.datetime)
         (local_utcoffset : Z -> Z)
         (now text s priority : string) (db : database),
    fromisoformat (Py.replace_Z s) = None ->
    let added :=
      add_task fromisoformat local_utcoffset false now text (Some s)
        priority db in
    (exists r, tasks (snd added) = tasks db ++ [r] /\
               id r = fst added /\ due_date r = Some s /\ due_ts r = None) /\
    forall (later : list History.command) (env : Scheduler.environment)
           (e : bool) (now_ts : Z),
      let db' :=
        History.run fromisoformat local_utcoffset later (snd added) in
      ~ In (fst added) (map due_id (get_overdue_tasks e now_ts db')) /\
      ~ In (fst added)
          (map due_id (snd (Scheduler._check_and_send_reminders env db'))) /\
      ~ In (fst added)
          (map due_id (snd (snd (Scheduler.run_reminder_scan_now env db')))).
Proof.
  intros fromisoformat local_utcoffset now text s priority db Hbad added.
  assert (Hts : compute_due_ts fromisoformat local_utcoffset (Some s) = None).
  { unfold compute_due_ts. rewrite Hbad. now destruct (Py.truthy s). }
  assert (Hinv : without_due_ts (fst added) (snd added)).
  { unfold added, add_task, without_due_ts.
    cbn [fst snd sqlite_sequence tasks]. split; [apply Z.le_refl|].
    intros r Hin Hid. apply in_app_iff in Hin.
    destruct Hin as [Hin|[<-|[]]]; [|exact Hts].
    apply next_rowid_fresh in Hin. lia. }
  split.
  - eexists. unfold added, add_task. cbn [fst snd tasks].
    split; [reflexivity|]. cbn [id due_date due_ts]. auto.
  - intros later env e now_ts db'.
    assert (Hinv' : without_due_ts (fst added) db')
      by now apply without_due_ts_run.
    assert (Hscan : forall t,
               In t (Scheduler.reminders (snd (Scheduler.scan env db'))) ->
               due_id t <> fst added).
    { intros t Hin Hid. apply SchedulerFacts.scan_reminders in Hin.
      eapply without_due_ts_not_overdue; [exact Hinv'|].
      rewrite <- Hid. apply in_map. exact Hin. }
    repeat split.
    + now apply without_due_ts_not_overdue.
    + unfold Scheduler._check_and_send_reminders.
      destruct (Scheduler.scan env db') as [db'' p]. simpl in *.
      intros Hin. apply in_map_iff in Hin. destruct Hin as (t & Hid & Hin).
      exact (Hscan t Hin Hid).
    + unfold Scheduler.run_reminder_scan_now.
      destruct (Scheduler.scan env db') as [db'' p]. simpl in *.
      intros Hin. apply in_map_iff in Hin. destruct Hin as (t & Hid & Hin).
      exact (Hscan t Hin Hid).
Qed.

(** In the sample store, a task due "next tuesday" gets id 5 and is not
    overdue even at a very late instant. *)
Lemma unparseable_due_date_never_reminds_witness :
  Sample.fromisoformat (Py.replace_Z "next tuesday") = None /\
  ~ In 5 (map due_id
            (get_overdue_tasks false 4102444800
               (snd (add_task Sample.fromisoformat Sample.utc false
                       "2024-01-16 00:00:00" "dentist" (Some "next tuesday"%string)
                       "high" Sample.db)))).
Proof.
  split; [reflexivity|].
  exact (proj1 (proj2
    (unparseable_due_date_never_reminds Sample.fromisoformat Sample.utc
       "2024-01-16 00:00:00" "dentist" "next tuesday" "high" Sample.db
       eq_refl) [] Sample.env false 4102444800)).
Defined.

End TaskStoreClaims.

(** * The claims about the scan pass *)

Module ScanClaims.
Import TasksManager TasksManagerFacts Scheduler SchedulerFacts.

Lemma outcome_not_sent env t o :
  send env t <> Py.Return true -> outcome env t o = o.
Proof.
  unfold outcome. destruct (send env t) as [[|]|]; congruence.
Qed.

Lemma scan_fetched env db :
  is_configured env = true ->
  scan env db =
  scan_tasks env (get_overdue_tasks (overdue_error env) (now_ts env) db)
    (db, start).
Proof.
  intros Hc. unfold scan. rewrite Hc. simpl.
  now destruct (get_overdue_tasks _ _ db).
Qed.

(** C3, as the specification states it, fails: the loop calls
    [complete_task] after a delivery and does not look at what it returns.
    In the sample pass with SQLite failing in [complete_task], the reminder
    for task 3 is delivered and counted, and task 3 is still pending. *)
Lemma delivered_task_stays_pending_when_completion_fails :
  In Sample.task3
    (get_overdue_tasks (overdue_error Sample.env_failing)
       (now_ts Sample.env_failing) Sample.db) /\
  send Sample.env_failing Sample.task3 = Py.Return true /\
  fst (run_reminder_scan_now Sample.env_failing Sample.db) = 1 /\
  get_task false 3 (fst (scan Sample.env_failing Sample.db)) =
    get_task false 3 Sample.db /\
  exists tk,
    get_task false 3 (fst (scan Sample.env_failing Sample.db)) = Some tk /\
    task_completed tk = false.
Proof.
  split; [left; reflexivity|]. repeat split.
  eexists. split; reflexivity.
Qed.

(** C3, amended. In one pass over a store whose primary key is unique,
    with the sender configured, [send_reminder] is called once for each
    fetched task, in the fetched order, whatever the calls for the other
    tasks did (return [False], raise). After a delivery the loop calls
    [complete_task] and ignores its result: the task is completed after the
    pass when SQLite did not fail in that call, and is still pending, its
    row untouched, when it did. A task whose reminder was refused or raised
    is still pending, its row untouched. Both entry points run this pass.
    Were the fetched list to repeat an id, the loop would still call
    [send_reminder] once per id and reach every id of the list. *)
Theorem scan_pass_handles_every_task :
  forall (env : environment) (db : database) (t : due_task),
    well_formed db ->
    is_configured env = true ->
    In t (get_overdue_tasks (overdue_error env) (now_ts env) db) ->
    let db' := fst (scan env db) in
    let sent := reminders (snd (scan env db)) in
    sent = get_overdue_tasks (overdue_error env) (now_ts env) db /\
    NoDup (map due_id sent) /\
    (send env t = Py.Return true ->
     complete_error env (due_id t) = false ->
     exists tk, get_task false (due_id t) db' = Some tk /\
                task_completed tk = true) /\
    (send env t = Py.Return true ->
     complete_error env (due_id t) = true ->
     get_task false (due_id t) db' = get_task false (due_id t) db /\
     exists tk, get_task false (due_id t) db' = Some tk /\
                task_completed tk = false) /\
    (send env t <> Py.Return true ->
     get_task false (due_id t) db' = get_task false (due_id t) db /\
     exists tk, get_task false (due_id t) db' = Some tk /\
                task_completed tk = false) /\
    _check_and_send_reminders env db = (db', sent) /\
    snd (run_reminder_scan_now env db) = (db', sent) /\
    forall (due_tasks : list due_task),
      let called :=
        map due_id (reminders (snd (scan_tasks env due_tasks (db, start)))) in
      NoDup called /\ forall x, In x due_tasks -> In (due_id x) called.
Proof.
  intros env db t Hwf Hconf Hin db' sent.
  pose proof (get_overdue_tasks_NoDup (overdue_error env) (now_ts env) db Hwf)
    as Hnd.
  destruct (scan_tasks_each env _ db start Hnd (fun _ _ H => H))
    as [Hrem Hrow].
  rewrite <- (scan_fetched env db Hconf) in Hrem, Hrow.
  simpl in Hrem. fold sent in Hrem. specialize (Hrow t Hin). fold db' in Hrow.
  destruct (get_overdue_tasks_In _ _ _ _ Hin) as (r & -> & Hr & Hpending).
  simpl in Hrow |- *.
  rewrite (row_with_id_unique _ _ (proj1 Hwf) Hr) in Hrow.
  assert (Hsame : row_with_id (id r) (tasks db') = Some r ->
            get_task false (id r) db' = get_task false (id r) db /\
            exists tk, get_task false (id r) db' = Some tk /\
                       task_completed tk = false).
  { intros H. unfold get_task.
    rewrite H, (row_with_id_unique _ _ (proj1 Hwf) Hr).
    split; trivial. eexists. split; [reflexivity|].
    simpl. now rewrite Hpending. }
  split; [exact Hrem|]. split; [now rewrite Hrem|].
  split; [|split; [|split]].
  - intros Hsend Hok. unfold get_task. rewrite Hrow.
    unfold outcome. rewrite Hsend. simpl. rewrite Hok. simpl.
    eexists. split; [reflexivity|].
    unfold complete_row. rewrite Hpending. reflexivity.
  - intros Hsend Hfail. apply Hsame. rewrite Hrow.
    unfold outcome. rewrite Hsend. simpl. now rewrite Hfail.
  - intros Hsend. apply Hsame.
    now rewrite Hrow, (outcome_not_sent _ _ _ Hsend).
  - unfold _check_and_send_reminders, run_reminder_scan_now, db', sent.
    split; [now destruct (scan env db)|].
    split; [now destruct (scan env db)|].
    intros due_tasks.
    destruct (scan_tasks_deduplicated env due_tasks db start
                deduplicated_start) as ([Hnd' Hseen] & _ & Hall).
    split; [exact Hnd'|].
    intros x Hx. apply Hseen. now apply Hall.
Qed.

(** In the sample pass task 3 is sent and completed, and task 1, whose
    reminder is refused, stays pending; with SQLite failing in
    [complete_task], task 3 stays pending as well. *)
Lemma scan_pass_handles_every_task_witness :
  (exists tk, get_task false 3 (fst (scan Sample.env Sample.db)) = Some tk /\
              task_completed tk = true) /\
  get_task false 1 (fst (scan Sample.env Sample.db)) =
    get_task false 1 Sample.db /\
  get_task false 3 (fst (scan Sample.env_failing Sample.db)) =
    get_task false 3 Sample.db.
Proof.
  split; [|split].
  - refine (proj1 (proj2 (proj2
      (scan_pass_handles_every_task Sample.env Sample.db Sample.task3
         well_formed_sample eq_refl (or_introl eq_refl))))
      eq_refl eq_refl).
  - refine (proj1 (proj1 (proj2 (proj2 (proj2 (proj2
      (scan_pass_handles_every_task Sample.env Sample.db Sample.task1
         well_formed_sample eq_refl
         (or_intror (or_introl eq_refl))))))) _)).
    discriminate.
  - exact (proj1 (proj1 (proj2 (proj2 (proj2
      (scan_pass_handles_every_task Sample.env_failing Sample.db
         Sample.task3 well_formed_sample eq_refl (or_introl eq_refl)))))
      eq_refl eq_refl)).
Defined.

End ScanClaims.

(** * What the patterns of the date resolver match *)

Module ReFacts.
Import Re SMSHandler.
Local Open Scope string_scope.

(** The decimal digits, which are what [\d] matches in a text of ASCII
    characters. *)
Definition digit (c : ascii) : Prop :=
  In c (list_ascii_of_string "0123456789").

Fixpoint digits (d : string) : Prop :=
  match d with
  | EmptyString => True
  | String c d' => digit c /\ digits d'
  end.

(** What [\d+] matches. *)
Definition number (d : string) : Prop := d <> "" /\ digits d.











(** *** The matcher, unfolded one step *)



(** *** The matcher finds what the atoms match, and only that *)






(** *** What each pattern stands for *)











End ReFacts.

(** * The claims about the date resolver *)

Module DateResolverClaims.
Import SMSHandler.






Section Resolver.
Variable parse : string -> Py.py_result (option Py.datetime).
Variables tz_utcoffset local_utcoffset : Z -> Z.
Variable isoformat : Py.datetime -> string.

Let resolve := _parse_date_nlp parse tz_utcoffset local_utcoffset isoformat.

(** What [_parse_date_nlp] makes of the parser's answer. *)
Definition finish (r : Py.py_result (option Py.datetime)) : option string :=
  match r with
  | Py.Return (Some dt) =>
      Some (isoformat (to_utc_seconds tz_utcoffset local_utcoffset dt))
  | _ => None
  end.

Lemma resolve_whole_text text dt :
  parse text = Py.Return (Some dt) ->
  resolve text = finish (Py.Return (Some dt)).
Proof.
  intros H. unfold resolve, _parse_date_nlp. rewrite H. reflexivity.
Qed.

Lemma resolve_fallback text :
  parse text = Py.Return None ->
  resolve text = finish (parse_phrase parse text).
Proof.
  intros H. unfold resolve, _parse_date_nlp. rewrite H. simpl.
  now destruct (parse_phrase parse text) as [[dt|]|].
Qed.

Lemma resolve_raise text : parse text = Py.Raise -> resolve text = None.
Proof.
  intros H. unfold resolve, _parse_date_nlp. rewrite H. reflexivity.
Qed.

(** Every successful resolution comes from some phrase the parser
    accepted. *)
Lemma resolve_some text s :
  resolve text = Some s ->
  exists phrase dt,
    parse phrase = Py.Return (Some dt) /\
    s = isoformat (to_utc_seconds tz_utcoffset local_utcoffset dt).
Proof.
  destruct (parse text) as [[dt|]|] eqn:E.
  - rewrite (resolve_whole_text _ _ E). simpl. intros [= <-]. eauto.
  - rewrite (resolve_fallback _ E). unfold parse_phrase.
    destruct (first_phrase time_patterns (lower text)) as [phrase|];
      [|discriminate].
    destruct (parse phrase) as [[dt|]|] eqn:E'; try discriminate.
    simpl. intros [= <-]. eauto.
  - rewrite (resolve_raise _ E). discriminate.
Qed.

End Resolver.

(** C5. Whenever date resolution succeeds, the returned string is the ISO
    form of a value in UTC whose microseconds are zero and whose wall time
    is that of the parsed value minus its UTC offset; for a naive parsed
    value the offset is the one the configured zone has at that wall time. *)
Theorem resolved_date_is_utc_whole_seconds :
  forall (parse : string -> Py.py_result (option Py.datetime))
         (tz_utcoffset local_utcoffset : Z -> Z)
         (isoformat : Py.datetime -> string) (text s : string),
    _parse_date_nlp parse tz_utcoffset local_utcoffset isoformat text
      = Some s ->
    exists (phrase : string) (parsed : Py.datetime),
      parse phrase = Py.Return (Some parsed) /\
      let result := to_utc_seconds tz_utcoffset local_utcoffset parsed in
      s = isoformat result /\
      Py.tzinfo result = Some 0 /\
      Py.microsecond result = 0 /\
      Py.wall result =
        Py.wall parsed -
        match Py.tzinfo parsed with
        | Some offset => offset
        | None => tz_utcoffset (Py.wall parsed)
        end.
Proof.
  intros parse tz_utcoffset local_utcoffset isoformat text s H.
  apply resolve_some in H. destruct H as (phrase & dt & Hp & ->).
  exists phrase, dt. split; trivial.
  unfold to_utc_seconds. repeat split.
  now destruct (Py.tzinfo dt) eqn:E; simpl; unfold Py.utcoffset; simpl;
    rewrite ?E.
Qed.

(** "tomorrow" at 23:00 on 2024-01-15 six hours behind UTC resolves to
    05:00 UTC on 2024-01-17. *)
Lemma resolved_date_is_utc_whole_seconds_witness :
  _parse_date_nlp Sample.parse Sample.tz_utcoffset Sample.utc
    Sample.isoformat "call mom tomorrow" = Some "2024-01-17T05:00:00+00:00"%string
  /\
  exists (phrase : string) (parsed : Py.datetime),
    Sample.parse phrase = Py.Return (Some parsed) /\
    "2024-01-17T05:00:00+00:00"%string =
      Sample.isoformat
        (to_utc_seconds Sample.tz_utcoffset Sample.utc parsed).
Proof.
  split; [reflexivity|].
  destruct (resolved_date_is_utc_whole_seconds Sample.parse
              Sample.tz_utcoffset Sample.utc Sample.isoformat
              "call mom tomorrow" "2024-01-17T05:00:00+00:00" eq_refl)
    as (phrase & parsed & Hp & Hs & _).
  exists phrase, parsed. split; assumption.
Defined.








End DateResolverClaims.

(** * The claim about overlapping scans *)

Module ServiceClaims.
Import TasksManager Scheduler Service.

Lemma nth_error_set_thread_other (l : list loop_thread) (t : loop_thread) :
  forall i j, i <> j -> nth_error (set_thread i t l) j = nth_error l j.
Proof.
  induction l as [|x l IH]; intros [|i] [|j] Hne; simpl; trivial.
  - congruence.
  - apply IH. congruence.
Qed.

Lemma nth_error_set_thread_same (l : list loop_thread) (t : loop_thread) :
  forall i x, nth_error l i = Some x -> nth_error (set_thread i t l) i = Some t.
Proof.
  induction l as [|y l IH]; intros [|i] x; simpl; try discriminate; trivial.
  apply IH.
Qed.

(** Entering a pass and then handling the fetched tasks one by one, with
    nothing in between, is the pass of [Scheduler.scan]. *)
Lemma enter_agrees_with_scan env db :
  scan env db =
  match enter env db with
  | Idle => (db, start)
  | Scanning todo p => scan_tasks env todo (db, p)
  end.
Proof.
  unfold scan, enter. destruct (negb (is_configured env)); trivial.
  now destruct (get_overdue_tasks _ _ db).
Qed.

(** The only thread that can be inside [_run_loop] is the one
    [_scheduler_thread] refers to. *)
Definition only_current (s : system) : Prop :=
  forall i pr,
    nth_error (threads s) i = Some (Running pr) ->
    _scheduler_thread s = Some i.

Lemma only_current_boot db : only_current (boot db).
Proof. intros [|i] pr; discriminate. Qed.

Lemma only_current_with_thread s i pr0 t db :
  only_current s ->
  nth_error (threads s) i = Some (Running pr0) ->
  only_current (with_thread s i t db).
Proof.
  intros Hinv Hi j pr Hj. simpl in *.
  destruct (Nat.eq_dec i j) as [<-|Hne].
  - exact (Hinv i pr0 Hi).
  - rewrite nth_error_set_thread_other in Hj by trivial.
    exact (Hinv j pr Hj).
Qed.

Lemma only_current_start_scheduler s :
  only_current s -> only_current (start_scheduler s).
Proof.
  intros Hinv. unfold start_scheduler.
  destruct (match _scheduler_thread s with
            | Some i => is_alive s i
            | None => false
            end) eqn:Ealive; trivial.
  intros j pr Hj. simpl in *.
  destruct (Nat.lt_ge_cases j (List.length (threads s))) as [Hlt|Hge].
  - rewrite nth_error_app1 in Hj by trivial.
    pose proof (Hinv j pr Hj) as Hcur. rewrite Hcur in Ealive.
    unfold is_alive in Ealive. rewrite Hj in Ealive. discriminate.
  - rewrite nth_error_app2 in Hj by trivial.
    destruct (j - List.length (threads s))%nat as [|k] eqn:Ek.
    + f_equal. lia.
    + destruct k; discriminate.
Qed.

Lemma only_current_step s s' : only_current s -> step s s' -> only_current s'.
Proof.
  intros Hinv Hstep.
  destruct Hstep;
    try (eapply only_current_with_thread; eassumption);
    try exact Hinv.
  now apply only_current_start_scheduler.
Qed.

Lemma only_current_reachable db s :
  reachable (boot db) s -> only_current s.
Proof.
  induction 1 as [|s s' _ IH Hstep].
  - apply only_current_boot.
  - exact (only_current_step s s' IH Hstep).
Qed.

Lemma filter_none {A : Type} (P : A -> bool) (l : list A) :
  Forall (fun x => P x = false) l -> filter P l = [].
Proof.
  induction 1 as [|a l Ha _ IH]; simpl; trivial.
  now rewrite Ha.
Qed.

Lemma at_most_one {A : Type} (P : A -> bool) (l : list A) :
  (forall i j x y,
      nth_error l i = Some x -> P x = true ->
      nth_error l j = Some y -> P y = true -> i = j) ->
  (List.length (filter P l) <= 1)%nat.
Proof.
  induction l as [|a l IH]; intros H; simpl; [lia|].
  destruct (P a) eqn:Ea.
  - rewrite filter_none; [simpl; lia|].
    apply Forall_forall.
    intros x Hx. destruct (P x) eqn:Ex; trivial.
    apply In_nth_error in Hx. destruct Hx as [j Hj].
    discriminate (H O (S j) a x eq_refl Ea Hj Ex).
  - apply IH. intros i j x y Hi Hx Hj Hy.
    assert (S i = S j) by (apply (H (S i) (S j) x y); assumption).
    lia.
Qed.

Lemma reachable_overlapping : reachable (boot Sample.db) Sample.overlapping.
Proof.
  apply reachable_step with (s := Sample.scheduled).
  - apply reachable_step with (s := Sample.started).
    + apply reachable_step with (s := boot Sample.db).
      * apply reachable_refl.
      * apply step_start.
    + apply (step_loop_enter Sample.started 0 Sample.env); reflexivity.
  - apply (step_manual_enter Sample.scheduled Sample.env); reflexivity.
Qed.

Lemma reachable_sent_twice : reachable (boot Sample.db) Sample.sent_twice.
Proof.
  apply reachable_step with (s := Sample.sent_once).
  - apply reachable_step with (s := Sample.overlapping).
    + exact reachable_overlapping.
    + apply (step_loop_task Sample.overlapping 0 Sample.env Sample.task3
               [Sample.task1] start).
      reflexivity.
  - apply (step_manual_task Sample.sent_once Sample.env Sample.task3
             [Sample.task1] start).
    reflexivity.
Qed.

(** C4, as the specification states it, fails: from start-up on the sample
    store the service reaches a state in which the loop thread and the
    manual trigger are both inside a scan pass, and, two steps later, one in
    which each of them has sent the reminder for task 3. *)
Lemma manual_scan_overlaps_scheduled_scan :
  reachable (boot Sample.db) Sample.overlapping /\
  scans_in_progress Sample.overlapping = 2%nat /\
  reachable (boot Sample.db) Sample.sent_twice /\
  exists p1 p2,
    threads Sample.sent_twice = [Running (Scanning [Sample.task1] p1)] /\
    request Sample.sent_twice = Scanning [Sample.task1] p2 /\
    reminders p1 = [Sample.task3] /\
    reminders p2 = [Sample.task3].
Proof.
  split; [exact reachable_overlapping|].
  split; [reflexivity|].
  split; [exact reachable_sent_twice|].
  do 2 eexists. repeat split.
Qed.

(** C4, amended. The manual trigger and the timed loop share no guard, so
    a manual pass may overlap a scheduled one. What the code serializes is
    the timed loop with itself: in every state the service can reach from
    start-up, at most one loop thread is alive, so at most one scheduled
    pass is in progress, and at most two passes in all. *)
Theorem scheduled_scans_never_overlap :
  forall (db : database) (s : system),
    reachable (boot db) s ->
    (List.length (filter is_running (threads s)) <= 1)%nat /\
    (scheduled_scans s <= 1)%nat /\
    (scans_in_progress s <= 2)%nat.
Proof.
  intros db s Hreach.
  pose proof (only_current_reachable db s Hreach) as Hinv.
  assert (Halive : (List.length (filter is_running (threads s)) <= 1)%nat).
  { apply at_most_one. intros i j [pr|] [pr'|] Hi Hx Hj Hy; try discriminate.
    pose proof (Hinv i pr Hi). pose proof (Hinv j pr' Hj). congruence. }
  assert (Hsched : (scheduled_scans s <= 1)%nat).
  { unfold scheduled_scans. apply at_most_one.
    intros i j [pr|] [pr'|] Hi Hx Hj Hy; try discriminate.
    pose proof (Hinv i pr Hi). pose proof (Hinv j pr' Hj). congruence. }
  repeat split; trivial.
  unfold scans_in_progress, manual_scans.
  destruct (is_scanning (request s)); lia.
Qed.

Lemma scheduled_scans_never_overlap_witness :
  reachable (boot Sample.db) Sample.overlapping /\
  (scheduled_scans Sample.overlapping <= 1)%nat.
Proof.
  split; [exact reachable_overlapping|].
  exact (proj1 (proj2
    (scheduled_scans_never_overlap Sample.db Sample.overlapping
       reachable_overlapping))).
Defined.

End ServiceClaims.

(** * Further properties of the task store *)

Module StoreProperties.
Import TasksManager TasksManagerFacts.

Lemma row_with_id_app (j : Z) (rows : list row) (x : row) :
  row_with_id j (rows ++ [x]) =
  match row_with_id j rows with
  | Some r => Some r
  | None => if id x =? j then Some x else None
  end.
Proof.
  unfold row_with_id. induction rows as [|r rows IH]; simpl.
  - now destruct (id x =? j).
  - now destruct (id r =? j).
Qed.

Lemma row_with_id_absent (j : Z) (rows : list row) :
  (forall r, In r rows -> id r <> j) -> row_with_id j rows = None.
Proof.
  intros H. unfold row_with_id.
  destruct (find _ rows) as [r|] eqn:E; trivial.
  apply find_some in E. destruct E as [Hin Hid].
  apply Z.eqb_eq in Hid. now destruct (H r Hin).
Qed.

Lemma row_with_id_found (j : Z) (rows : list row) (r : row) :
  row_with_id j rows = Some r -> In r rows /\ id r = j.
Proof.
  unfold row_with_id. intros H. apply find_some in H.
  now rewrite Z.eqb_eq in H.
Qed.

Lemma row_with_id_delete (i j : Z) (rows : list row) :
  row_with_id j (filter (fun r => negb (id r =? i)) rows) =
  if j =? i then None else row_with_id j rows.
Proof.
  unfold row_with_id. induction rows as [|r rows IH]; simpl.
  - now destruct (j =? i).
  - destruct (id r =? i) eqn:Ei; simpl.
    + rewrite IH. destruct (j =? i) eqn:Eji; trivial.
      destruct (id r =? j) eqn:Ej; trivial.
      apply Z.eqb_eq in Ei, Ej. apply Z.eqb_neq in Eji. lia.
    + destruct (id r =? j) eqn:Ej; [|exact IH].
      destruct (j =? i) eqn:Eji; trivial.
      apply Z.eqb_eq in Ej, Eji. apply Z.eqb_neq in Ei. lia.
Qed.

(** X1. A task that [add_task] stored is what [get_task] returns for the
    new id: the given text, due date and priority, not completed; the new
    id is positive, and every other id reads as before. *)
Theorem add_task_then_get_task :
  forall (fromisoformat : string -> option Py.datetime)
         (local_utcoffset : Z -> Z)
         (now text : string) (due_date : option string) (priority : string)
         (db : database),
    let added :=
      add_task fromisoformat local_utcoffset false now text due_date
        priority db in
    0 < fst added /\
    get_task false (fst added) (snd added) =
      Some {| task_id := fst added;
              task_text := text;
              task_due_date := due_date;
              task_completed := false;
              task_priority := priority;
              task_created_at := now;
              task_completed_at := None |} /\
    forall i, i <> fst added ->
              get_task false i (snd added) = get_task false i db.
Proof.
  intros fromisoformat local_utcoffset now text due_date priority db added.
  unfold added, add_task. cbn [fst snd].
  split; [apply next_rowid_positive|].
  unfold get_task. cbn [tasks]. split.
  - rewrite row_with_id_app, row_with_id_absent.
    + cbn [id]. now rewrite Z.eqb_refl.
    + intros r Hin. apply next_rowid_fresh in Hin. lia.
  - intros i Hi. rewrite row_with_id_app. cbn [id].
    destruct (row_with_id i (tasks db)); trivial.
    destruct (next_rowid db =? i) eqn:E; trivial.
    apply Z.eqb_eq in E. congruence.
Qed.

(** *** Ids are never handed out twice *)

Lemma sqlite_sequence_run_command fromisoformat local_utcoffset c db :
  sqlite_sequence db <=
  sqlite_sequence (History.run_command fromisoformat local_utcoffset c db).
Proof.
  destruct c as [e now text due priority|e now i|e i|env]; simpl.
  - unfold add_task. destruct e; simpl; [lia|]. unfold next_rowid. lia.
  - rewrite complete_task_sequence. lia.
  - unfold delete_task. destruct e; [simpl; lia|].
    destruct (rowcount _ _ >? 0); simpl; lia.
  - apply (SchedulerFacts.scan_preserves
             (fun d => sqlite_sequence db <= sqlite_sequence d)); [|lia].
    intros. now rewrite complete_task_sequence.
Qed.

Lemma sqlite_sequence_run fromisoformat local_utcoffset cs :
  forall db,
    sqlite_sequence db <=
    sqlite_sequence (History.run fromisoformat local_utcoffset cs db).
Proof.
  induction cs as [|c cs IH]; intros db; simpl; [lia|].
  etransitivity; [|apply IH]. apply sqlite_sequence_run_command.
Qed.

(** X2. AUTOINCREMENT: whatever happens to the store in between (the row
    may have been deleted), a later [add_task] never returns the id of a
    task that existed before. *)
Theorem add_task_never_reuses_an_id :
  forall (fromisoformat : string -> option Py.datetime)
         (local_utcoffset : Z -> Z)
         (db : database) (r : row) (later : list History.command)
         (now text : string) (due_date : option string) (priority : string),
    well_formed db ->
    In r (tasks db) ->
    id r <
    fst (add_task fromisoformat local_utcoffset false now text due_date
           priority (History.run fromisoformat local_utcoffset later db)).
Proof.
  intros fromisoformat local_utcoffset db r later now text due_date priority
    [_ Hall] Hin.
  rewrite Forall_forall in Hall. specialize (Hall r Hin).
  pose proof (sqlite_sequence_run fromisoformat local_utcoffset later db).
  unfold add_task. cbn [fst]. unfold next_rowid. lia.
Qed.

(** Task 4 of the sample store is deleted; the next task added gets id 5,
    not 4. *)
Lemma add_task_never_reuses_an_id_witness :
  fst (add_task Sample.fromisoformat Sample.utc false "2024-01-16 00:00:00"
         "dentist" None "high"
         (History.run Sample.fromisoformat Sample.utc
            [History.DeleteTask false 4] Sample.db)) = 5 /\
  4 <
  fst (add_task Sample.fromisoformat Sample.utc false "2024-01-16 00:00:00"
         "dentist" None "high"
         (History.run Sample.fromisoformat Sample.utc
            [History.DeleteTask false 4] Sample.db)).
Proof.
  split; [reflexivity|].
  refine (add_task_never_reuses_an_id Sample.fromisoformat Sample.utc
            Sample.db
            {| id := 4; text := "water plants";
               due_date := Some "2024-01-14T08:00:00+00:00"%string;
               due_ts := Some 1705219200; completed := 1; priority := "low";
               created_at := "2024-01-10 09:15:00";
               completed_at := Some "2024-01-12 07:00:00"%string |}
            [History.DeleteTask false 4] "2024-01-16 00:00:00" "dentist" None
            "high" well_formed_sample _).
  vm_compute. tauto.
Defined.

(** The DELETE on an id that binds. *)
Lemma delete_task_bound :
  forall (e e' : bool) (task_id : Z) (db : database),
    (fst (delete_task e task_id db) = true <->
       e = false /\ exists r, In r (tasks db) /\ id r = task_id) /\
    get_task false task_id (snd (delete_task false task_id db)) = None /\
    (forall j, j <> task_id ->
       get_task false j (snd (delete_task e task_id db)) =
       get_task false j db) /\
    delete_task e' task_id (snd (delete_task false task_id db)) =
      (false, snd (delete_task false task_id db)).
Proof.
  intros e e' task_id db.
  assert (Htasks : tasks (snd (delete_task false task_id db)) =
                   filter (fun r => negb (id r =? task_id)) (tasks db)).
  { unfold delete_task.
    destruct (rowcount _ _ >? 0) eqn:E; simpl; trivial.
    symmetry. apply forallb_filter_id. apply forallb_forall.
    intros r Hin. rewrite rowcount_zero in E. now rewrite (E r Hin). }
  split; [split|split; [|split]].
  - intros H. unfold delete_task in H. destruct e; [discriminate|].
    split; trivial.
    destruct (rowcount (fun r => id r =? task_id) (tasks db) >? 0) eqn:E;
      [|discriminate].
    apply rowcount_positive in E. destruct E as (r & Hin & Hid).
    apply Z.eqb_eq in Hid. eauto.
  - intros (-> & r & Hin & Hid). unfold delete_task.
    assert (E : (rowcount (fun r => id r =? task_id) (tasks db) >? 0) = true).
    { apply rowcount_positive. exists r. split; trivial. now apply Z.eqb_eq. }
    now rewrite E.
  - unfold get_task. rewrite Htasks, row_with_id_delete, Z.eqb_refl.
    reflexivity.
  - intros j Hj. destruct e; [reflexivity|].
    unfold get_task. rewrite Htasks, row_with_id_delete.
    apply Z.eqb_neq in Hj. now rewrite Hj.
  - assert (E : (rowcount (fun r => id r =? task_id)
                   (tasks (snd (delete_task false task_id db))) >? 0) = false).
    { apply rowcount_zero. intros r Hin. rewrite Htasks in Hin.
      apply filter_In in Hin. destruct Hin as [_ Hne].
      now apply negb_true_iff in Hne. }
    unfold delete_task at 1. rewrite E. now destruct e'.
Qed.

(** X3. For an id SQLite can hold, [delete_task(id)] never raises. It
    returns [True] exactly when SQLite does not fail and a row with that id
    exists, completed or not. After a call that ran without an SQLite error
    the id reads as absent, every other [int] reads as before (one that
    SQLite cannot hold raises before and after), and a second call returns
    [False] and changes nothing. *)
Theorem delete_task_removes_the_row :
  forall (e e' : bool) (task_id : Z) (db : database),
    binds task_id = true ->
    let db' := snd (Call.delete_task false task_id db) in
    (fst (Call.delete_task e task_id db) = Py.Return true \/
     fst (Call.delete_task e task_id db) = Py.Return false) /\
    (fst (Call.delete_task e task_id db) = Py.Return true <->
       e = false /\ exists r, In r (tasks db) /\ id r = task_id) /\
    Call.get_task false task_id db' = Py.Return None /\
    (forall j, j <> task_id ->
       Call.get_task false j (snd (Call.delete_task e task_id db)) =
       Call.get_task false j db) /\
    Call.delete_task e' task_id db' = (Py.Return false, db').
Proof.
  intros e e' task_id db Hb db'. unfold db'.
  rewrite !call_delete_task_binds by exact Hb. cbn [fst snd].
  destruct (delete_task_bound e e' task_id db) as (Hiff & Hgone & Hrest & Hagain).
  split; [|split; [|split; [|split]]].
  - destruct (fst (delete_task e task_id db)); auto.
  - rewrite <- Hiff. split; [now intros [= ->] | now intros ->].
  - rewrite call_get_task_binds by exact Hb. now rewrite Hgone.
  - intros j Hj. unfold Call.get_task.
    destruct (binds j); cbn [negb]; trivial.
    specialize (Hrest j Hj). unfold get_task in Hrest.
    destruct (row_with_id j (tasks (snd (delete_task e task_id db))))
      as [r1|], (row_with_id j (tasks db)) as [r2|]; congruence.
  - now rewrite Hagain.
Qed.

(** Task 2 of the sample store: deleted by the first call, absent
    afterwards, and not found by the second call. *)
Lemma delete_task_removes_the_row_witness :
  fst (Call.delete_task false 2 Sample.db) = Py.Return true /\
  Call.get_task false 2 (snd (Call.delete_task false 2 Sample.db)) =
    Py.Return None /\
  Call.delete_task false 2 (snd (Call.delete_task false 2 Sample.db)) =
    (Py.Return false, snd (Call.delete_task false 2 Sample.db)).
Proof.
  destruct (delete_task_removes_the_row false false 2 Sample.db eq_refl)
    as (_ & _ & Hgone & _ & Hagain).
  split; [reflexivity|]. split; assumption.
Defined.

(** X4. A successful [complete_task(id)] on a store with unique ids turns
    that one task from pending to completed, stamps [completed_at], and
    changes nothing else: the other fields of the task and every other id
    read as before, and the pending listing loses exactly that id. *)
Theorem complete_task_changes_one_task :
  forall (now : string) (task_id : Z) (db : database),
    well_formed db ->
    fst (complete_task false now task_id db) = true ->
    let db' := snd (complete_task false now task_id db) in
    (exists r,
        In r (tasks db) /\ id r = task_id /\ completed r = 0 /\
        get_task false task_id db = Some (task_of_row r) /\
        get_task false task_id db' =
          Some {| task_id := task_id;
                  task_text := text r;
                  task_due_date := due_date r;
                  task_completed := true;
                  task_priority := priority r;
                  task_created_at := created_at r;
                  task_completed_at := Some now |}) /\
    (forall j, j <> task_id ->
               get_task false j db' = get_task false j db) /\
    (forall j, In j (map pending_id (get_pending_tasks false db')) <->
               In j (map pending_id (get_pending_tasks false db)) /\
               j <> task_id).
Proof.
  intros now task_id db Hwf Hok db'.
  assert (Hex : exists r, In r (tasks db) /\ id r = task_id /\ completed r = 0).
  { unfold complete_task in Hok.
    destruct (rowcount (completes task_id) (tasks db) >? 0) eqn:E;
      [|discriminate].
    apply rowcount_positive in E. destruct E as (r & Hin & Hc).
    apply completes_spec in Hc. exists r. tauto. }
  destruct Hex as (r & Hin & Hid & Hpending).
  assert (Hrow : forall j,
             row_with_id j (tasks db') =
             if j =? task_id
             then option_map (complete_row now) (row_with_id j (tasks db))
             else row_with_id j (tasks db)).
  { intros j. unfold db'. now rewrite row_with_id_complete_task. }
  split; [|split].
  - exists r. repeat split; trivial.
    + unfold get_task. rewrite <- Hid.
      now rewrite (row_with_id_unique _ _ (proj1 Hwf) Hin).
    + unfold get_task. rewrite Hrow, Z.eqb_refl, <- Hid.
      rewrite (row_with_id_unique _ _ (proj1 Hwf) Hin). simpl.
      unfold complete_row. rewrite Hpending. reflexivity.
  - intros j Hj. unfold get_task. rewrite Hrow.
    apply Z.eqb_neq in Hj. now rewrite Hj.
  - intros j. unfold get_pending_tasks, pending_rows.
    rewrite !map_map. cbn [pending_id pending_of_row].
    rewrite !in_map_iff. split.
    + intros (r' & <- & Hin').
      apply Sql.order_by_In, filter_In in Hin'. destruct Hin' as [Hin' Hp].
      unfold db' in Hin'. rewrite complete_task_tasks in Hin'.
      unfold update_completed in Hin'. apply in_map_iff in Hin'.
      destruct Hin' as (r0 & Hr0 & Hin0).
      destruct (completes task_id r0) eqn:Ec.
      * subst r'. discriminate.
      * subst r'. split.
        -- exists r0. split; trivial.
           apply Sql.order_by_In, filter_In. now split.
        -- intros Heq. unfold completes in Ec.
           rewrite Heq, Z.eqb_refl in Ec. unfold is_pending in Hp.
           rewrite Hp in Ec. discriminate.
    + intros [(r' & <- & Hin') Hne].
      apply Sql.order_by_In, filter_In in Hin'. destruct Hin' as [Hin' Hp].
      exists r'. split; trivial.
      apply Sql.order_by_In, filter_In. split; trivial.
      unfold db'. rewrite complete_task_tasks. unfold update_completed.
      apply in_map_iff. exists r'. split; trivial.
      unfold completes. apply Z.eqb_neq in Hne. now rewrite Hne.
Qed.

(** Completing task 1 of the sample store leaves tasks 3 and 2 pending. *)
Lemma complete_task_changes_one_task_witness :
  map pending_id
    (get_pending_tasks false
       (snd (complete_task false "2024-01-16 00:00:00" 1 Sample.db)))
  = [3; 2] /\
  forall j,
    In j (map pending_id
            (get_pending_tasks false
               (snd (complete_task false "2024-01-16 00:00:00" 1 Sample.db))))
    <-> In j (map pending_id (get_pending_tasks false Sample.db)) /\ j <> 1.
Proof.
  split; [reflexivity|].
  exact (proj2 (proj2
    (complete_task_changes_one_task "2024-01-16 00:00:00" 1 Sample.db
       well_formed_sample eq_refl))).
Defined.

(** *** What no operation ever changes *)

(** Every row carrying [task_id] satisfies [P], and the id is no longer
    free. *)
Definition kept (task_id : Z) (P : row -> Prop) (db : database) : Prop :=
  task_id <= sqlite_sequence db /\
  forall r, In r (tasks db) -> id r = task_id -> P r.

Section Kept.
Variable fromisoformat : string -> option Py.datetime.
Variable local_utcoffset : Z -> Z.
Variable task_id : Z.
Variable P : row -> Prop.
(** [P] survives the only UPDATE the code has. *)
Hypothesis P_completed :
  forall now r, P r -> completed r = 0 -> P (mark_completed now r).

Lemma kept_complete_task e now i db :
  kept task_id P db -> kept task_id P (snd (complete_task e now i db)).
Proof.
  intros [Hseq Hrows]. unfold kept.
  rewrite complete_task_tasks, complete_task_sequence. split; trivial.
  destruct e; trivial.
  unfold update_completed. intros r Hin Hid.
  apply in_map_iff in Hin. destruct Hin as (r0 & <- & Hin).
  destruct (completes i r0) eqn:Ec; [|auto].
  apply completes_spec in Ec. apply P_completed; [|tauto].
  apply Hrows; trivial.
Qed.

Lemma kept_run_command c db :
  kept task_id P db ->
  kept task_id P (History.run_command fromisoformat local_utcoffset c db).
Proof.
  intros H. destruct c as [e now text due priority|e now i|e i|env]; simpl.
  - destruct H as [Hseq Hrows]. unfold add_task. destruct e; [now split|].
    simpl. split; simpl.
    + unfold next_rowid. lia.
    + intros r Hin Hid. apply in_app_iff in Hin.
      destruct Hin as [Hin|[<-|[]]]; auto.
      simpl in Hid. unfold next_rowid in Hid. lia.
  - now apply kept_complete_task.
  - destruct H as [Hseq Hrows]. unfold delete_task. destruct e; [now split|].
    destruct (rowcount _ _ >? 0); [|now split].
    split; simpl; trivial.
    intros r Hin. apply filter_In in Hin. now apply Hrows.
  - apply SchedulerFacts.scan_preserves; trivial.
    intros. now apply kept_complete_task.
Qed.

Lemma kept_run cs :
  forall db,
    kept task_id P db ->
    kept task_id P (History.run fromisoformat local_utcoffset cs db).
Proof.
  induction cs as [|c cs IH]; intros db H; simpl; trivial.
  apply IH. now apply kept_run_command.
Qed.

End Kept.

Lemma kept_initially (db : database) (r0 : row) (P : row -> Prop) :
  well_formed db -> In r0 (tasks db) -> P r0 -> kept (id r0) P db.
Proof.
  intros [Hnd Hall] Hin HP. split.
  - rewrite Forall_forall in Hall. apply (Hall r0 Hin).
  - intros r Hr Hid.
    pose proof (row_with_id_unique _ _ Hnd Hr) as H1.
    pose proof (row_with_id_unique _ _ Hnd Hin) as H2.
    rewrite Hid, H2 in H1. now injection H1 as <-.
Qed.

(** X5. The description of a task is fixed at creation: whatever commands
    and scan passes follow, as long as the task exists [get_task] reports
    the text, due date, priority and creation timestamp it was stored
    with. *)
Theorem task_description_never_changes :
  forall (fromisoformat : string -> option Py.datetime)
         (local_utcoffset : Z -> Z)
         (db : database) (r0 : row) (later : list History.command),
    well_formed db ->
    In r0 (tasks db) ->
    get_task false (id r0)
      (History.run fromisoformat local_utcoffset later db) = None \/
    exists tk,
      get_task false (id r0)
        (History.run fromisoformat local_utcoffset later db) = Some tk /\
      task_id tk = id r0 /\
      task_text tk = text r0 /\
      task_due_date tk = due_date r0 /\
      task_priority tk = priority r0 /\
      task_created_at tk = created_at r0.
Proof.
  intros fromisoformat local_utcoffset db r0 later Hwf Hin.
  set (P := fun r => text r = text r0 /\ due_date r = due_date r0 /\
                     priority r = priority r0 /\
                     created_at r = created_at r0).
  assert (Hk : kept (id r0) P
                 (History.run fromisoformat local_utcoffset later db)).
  { apply kept_run.
    - unfold P. intros now r H _. exact H.
    - apply kept_initially; trivial. unfold P. tauto. }
  unfold get_task.
  destruct (row_with_id (id r0) (tasks _)) as [r|] eqn:E; [right|now left].
  apply row_with_id_found in E. destruct E as [Hr Hid].
  destruct (proj2 Hk r Hr Hid) as (H1 & H2 & H3 & H4).
  exists (task_of_row r). simpl. repeat split; assumption.
Qed.

Lemma task_description_never_changes_witness :
  exists tk,
    get_task false 1
      (History.run Sample.fromisoformat Sample.utc
         [History.CompleteTask false "2024-01-16 00:00:00" 1;
          History.ScanPass Sample.env] Sample.db) = Some tk /\
    task_text tk = "pay rent"%string.
Proof.
  destruct (task_description_never_changes Sample.fromisoformat Sample.utc
              Sample.db
              {| id := 1; text := "pay rent";
                 due_date := Some "2024-01-15T10:00:00+00:00"%string;
                 due_ts := Some 1705312800; completed := 0;
                 priority := "medium";
                 created_at := "2024-01-10 09:00:00";
                 completed_at := None |}
              [History.CompleteTask false "2024-01-16 00:00:00" 1;
               History.ScanPass Sample.env]
              well_formed_sample (or_introl eq_refl))
    as [Hnone | (tk & Hget & _ & Htext & _)].
  - discriminate Hnone.
  - exists tk. split; assumption.
Defined.

(** X6. Completion is final: once a task is completed, whatever commands
    and scan passes follow, [get_task] either no longer finds it (it was
    deleted) or reports it exactly as it was, completed and with the same
    [completed_at]. *)
Theorem completed_task_stays_completed :
  forall (fromisoformat : string -> option Py.datetime)
         (local_utcoffset : Z -> Z)
         (db : database) (r0 : row) (later : list History.command),
    well_formed db ->
    In r0 (tasks db) ->
    completed r0 <> 0 ->
    get_task false (id r0)
      (History.run fromisoformat local_utcoffset later db) = None \/
    get_task false (id r0)
      (History.run fromisoformat local_utcoffset later db) =
      get_task false (id r0) db.
Proof.
  intros fromisoformat local_utcoffset db r0 later Hwf Hin Hdone.
  assert (Hk : kept (id r0) (fun r => r = r0)
                 (History.run fromisoformat local_utcoffset later db)).
  { apply kept_run.
    - intros now r -> Hzero. contradiction.
    - now apply kept_initially. }
  unfold get_task at 1 2.
  destruct (row_with_id (id r0) (tasks _)) as [r|] eqn:E; [right|now left].
  apply row_with_id_found in E. destruct E as [Hr Hid].
  rewrite (proj2 Hk r Hr Hid).
  unfold get_task. now rewrite (row_with_id_unique _ _ (proj1 Hwf) Hin).
Qed.

Lemma completed_task_stays_completed_witness :
  get_task false 4
    (History.run Sample.fromisoformat Sample.utc
       [History.CompleteTask false "2024-01-16 00:00:00" 4;
        History.ScanPass Sample.env] Sample.db) =
  get_task false 4 Sample.db.
Proof.
  destruct (completed_task_stays_completed Sample.fromisoformat Sample.utc
              Sample.db
              {| id := 4; text := "water plants";
                 due_date := Some "2024-01-14T08:00:00+00:00"%string;
                 due_ts := Some 1705219200; completed := 1;
                 priority := "low";
                 created_at := "2024-01-10 09:15:00";
                 completed_at := Some "2024-01-12 07:00:00"%string |}
              [History.CompleteTask false "2024-01-16 00:00:00" 4;
               History.ScanPass Sample.env]
              well_formed_sample
              (or_intror (or_intror (or_intror (or_introl eq_refl))))
              (fun H : 1 = 0 => Z.neq_succ_diag_l 0 H))
    as [Hnone | Hsame].
  - discriminate Hnone.
  - exact Hsame.
Defined.

(** X7. The primary-key invariant holds of every store the code can
    produce: starting from the empty database, after any sequence of
    commands and scan passes (failing or not) the ids are unique, positive
    and not above the AUTOINCREMENT counter. *)
Theorem every_store_is_well_formed :
  forall (fromisoformat : string -> option Py.datetime)
         (local_utcoffset : Z -> Z) (history : list History.command),
    well_formed (History.run fromisoformat local_utcoffset history empty).
Proof.
  intros fromisoformat local_utcoffset history.
  assert (H : forall cs db,
             well_formed db ->
             well_formed (History.run fromisoformat local_utcoffset cs db)).
  { induction cs as [|c cs IH]; intros db Hwf; simpl; trivial.
    apply IH. destruct c as [e now text due priority|e now i|e i|env]; simpl.
    - now apply well_formed_add_task.
    - now apply well_formed_complete_task.
    - now apply well_formed_delete_task.
    - apply SchedulerFacts.scan_preserves; trivial.
      intros. now apply well_formed_complete_task. }
  apply H, well_formed_empty.
Qed.

Lemma is_due_soon_spec (now_ts future_time_ts : Z) (r : row) :
  is_due_soon now_ts future_time_ts r = true <->
  completed r = 0 /\
  exists ts, due_ts r = Some ts /\ now_ts <= ts <= future_time_ts.
Proof.
  unfold is_due_soon. rewrite andb_true_iff, Z.eqb_eq.
  destruct (due_ts r) as [ts|].
  - rewrite andb_true_iff, !Z.leb_le. split.
    + intros [H1 H2]. eauto.
    + intros [H1 (ts' & [= <-] & H2)]. auto.
  - split; [intros [_ [=]] | intros [_ (ts & [=] & _)]].
Qed.

(** X8. [get_tasks_due_soon] returns the pending tasks whose [due_ts] lies
    between the clock value and the end of the window, both ends included,
    and no id twice. It never shares a task with [get_overdue_tasks] read
    at the same clock value: a task due exactly now is due soon, not
    overdue. With a negative window it returns nothing. *)
Theorem due_soon_and_overdue_are_disjoint :
  forall (now_ts minutes_ahead : Z) (db : database),
    well_formed db ->
    let soon := get_tasks_due_soon false now_ts minutes_ahead db in
    let overdue := get_overdue_tasks false now_ts db in
    (forall t, In t soon <->
       exists r, t = due_of_row r /\ In r (tasks db) /\ completed r = 0 /\
                 exists ts, due_ts r = Some ts /\
                            now_ts <= ts <= now_ts + minutes_ahead * 60) /\
    NoDup (map due_id soon) /\
    (forall i, In i (map due_id soon) -> In i (map due_id overdue) -> False) /\
    (minutes_ahead < 0 -> soon = []).
Proof.
  intros now_ts minutes_ahead db Hwf soon overdue.
  assert (Hsoon : forall t, In t soon <->
             exists r, t = due_of_row r /\ In r (tasks db) /\
                       is_due_soon now_ts (now_ts + minutes_ahead * 60) r
                       = true).
  { intros t. unfold soon, get_tasks_due_soon. rewrite in_map_iff. split.
    - intros (r & <- & Hin). apply Sql.order_by_In, filter_In in Hin.
      exists r. tauto.
    - intros (r & -> & Hin & Hs). exists r. split; trivial.
      apply Sql.order_by_In, filter_In. tauto. }
  split; [|split; [|split]].
  - intros t. rewrite Hsoon. split.
    + intros (r & Ht & Hin & Hs). apply is_due_soon_spec in Hs.
      exists r. tauto.
    + intros (r & Ht & Hin & Hc & Hts). exists r. repeat split; trivial.
      apply is_due_soon_spec. tauto.
  - unfold soon, get_tasks_due_soon. rewrite due_id_of_rows.
    eapply Permutation_NoDup.
    + apply Permutation_map, Permutation_sym, Sql.order_by_perm.
    + apply NoDup_map_filter, Hwf.
  - intros i Hs Ho.
    apply in_map_iff in Hs. destruct Hs as (t & <- & Hs).
    apply Hsoon in Hs. destruct Hs as (r & -> & Hr & Hrs).
    apply in_map_iff in Ho. destruct Ho as (t' & Hid & Ho).
    unfold overdue, get_overdue_tasks in Ho. apply in_map_iff in Ho.
    destruct Ho as (r' & <- & Hin').
    apply overdue_rows_In in Hin'. destruct Hin' as [Hr' Hov].
    simpl in Hid.
    assert (r' = r).
    { pose proof (row_with_id_unique _ _ (proj1 Hwf) Hr') as H1.
      pose proof (row_with_id_unique _ _ (proj1 Hwf) Hr) as H2.
      rewrite Hid, H2 in H1. now injection H1. }
    subst r'. apply is_overdue_spec in Hov. apply is_due_soon_spec in Hrs.
    destruct Hov as (_ & ts & E1 & Hlt), Hrs as (_ & ts' & E2 & Hle).
    rewrite E1 in E2. injection E2 as <-. lia.
  - intros Hneg. unfold soon, get_tasks_due_soon.
    assert (E : filter (is_due_soon now_ts (now_ts + minutes_ahead * 60))
                  (tasks db) = []).
    { clear - Hneg. induction (tasks db) as [|r l IH]; simpl; trivial.
      destruct (is_due_soon _ _ r) eqn:Es; [exfalso|exact IH].
      apply is_due_soon_spec in Es. destruct Es as (_ & ts & _ & H). lia. }
    rewrite E. reflexivity.
Qed.

(** At 2024-01-15T10:00:00Z with a 30 minute window, task 1 (due at that
    very second) is due soon while task 3 is overdue. *)
Lemma due_soon_and_overdue_are_disjoint_witness :
  map due_id (get_tasks_due_soon false 1705312800 30 Sample.db) = [1] /\
  map due_id (get_overdue_tasks false 1705312800 Sample.db) = [3] /\
  NoDup (map due_id (get_tasks_due_soon false 1705312800 30 Sample.db)).
Proof.
  split; [reflexivity|]. split; [reflexivity|].
  exact (proj1 (proj2
    (due_soon_and_overdue_are_disjoint 1705312800 30 Sample.db
       well_formed_sample))).
Defined.

Lemma now_ts_shifted (local_utcoffset : Z -> Z) (clock us : Z) :
  0 <= us < 1000000 ->
  0 <= clock - local_utcoffset clock ->
  Call.now_ts local_utcoffset clock us = clock - local_utcoffset clock.
Proof.
  intros Hus Hpos. unfold Call.now_ts, Py.int_timestamp, Py.utcoffset.
  cbn [Py.utcnow Py.tzinfo Py.wall Py.microsecond].
  rewrite Z.quot_div_nonneg by lia.
  rewrite Z.div_add_l by lia. rewrite (Z.div_small us) by lia. lia.
Qed.

(** X23. [get_overdue_tasks()], called at the instant [clock] on a machine
    whose local time is [local_utcoffset] ahead of UTC, compares with the
    instant shifted back by that offset: it returns the pending rows whose
    [due_ts] is below [clock - local_utcoffset clock], and only those, no
    id twice and by [due_ts] ascending. Where the local offset is zero the
    bound is the instant itself. (For clock values from 1970 to 2242, where
    the float of [timestamp()] holds the microseconds apart.) *)
Theorem overdue_call_compares_with_shifted_clock :
  forall (local_utcoffset : Z -> Z) (clock us : Z) (db : database),
    well_formed db ->
    0 <= us < 1000000 ->
    0 <= clock - local_utcoffset clock < 2 ^ 33 ->
    let bound := clock - local_utcoffset clock in
    let fetched := Call.get_overdue_tasks local_utcoffset false clock us db in
    fetched = map due_of_row (overdue_rows bound db) /\
    (forall r, In r (overdue_rows bound db) <->
       In r (tasks db) /\ completed r = 0 /\
       exists ts, due_ts r = Some ts /\ ts < bound) /\
    NoDup (map due_id fetched) /\
    StronglySorted
      (fun r1 r2 => exists t1 t2,
           due_ts r1 = Some t1 /\ due_ts r2 = Some t2 /\ t1 <= t2)
      (overdue_rows bound db) /\
    (local_utcoffset clock = 0 -> bound = clock).
Proof.
  intros local_utcoffset clock us db Hwf Hus Hpos bound fetched.
  unfold fetched, Call.get_overdue_tasks.
  rewrite (now_ts_shifted local_utcoffset clock us Hus (proj1 Hpos)).
  fold bound.
  split; [reflexivity|]. split; [|split; [|split]].
  - intros r. rewrite overdue_rows_In, is_overdue_spec. reflexivity.
  - now apply get_overdue_tasks_NoDup.
  - eapply StronglySorted_within;
      [|apply (Sql.order_by_sorted due_ts_order (H := Order_due_ts_order))].
    intros a b Ha Hb Hle.
    apply overdue_rows_In in Ha, Hb.
    destruct Ha as [_ Ha], Hb as [_ Hb].
    apply is_overdue_spec in Ha, Hb.
    destruct Ha as (_ & ta & Ea & _), Hb as (_ & tb & Eb & _).
    exists ta, tb. repeat split; trivial.
    unfold Cmp.le, due_ts_order, Cmp.on in Hle. rewrite Ea, Eb in Hle.
    simpl in Hle. now apply Z.compare_le_iff.
  - unfold bound. lia.
Qed.

(** Six hours behind UTC, at 2024-01-15T08:00:00Z, the call fetches what is
    due before 14:00:00Z: tasks 3 and 1 of the sample store. *)
Lemma overdue_call_compares_with_shifted_clock_witness :
  map due_id
    (Call.get_overdue_tasks Sample.behind_utc false 1705305600 0 Sample.db)
  = map due_id
      (map due_of_row (overdue_rows (1705305600 + 21600) Sample.db)).
Proof.
  apply (f_equal (map due_id)).
  refine (proj1
    (overdue_call_compares_with_shifted_clock Sample.behind_utc 1705305600 0
       Sample.db well_formed_sample _ _)).
  - lia.
  - vm_compute. split; [discriminate | reflexivity].
Defined.

End StoreProperties.

(** * Further properties of a scan pass *)

Module ScanProperties.
Import TasksManager TasksManagerFacts Scheduler SchedulerFacts.

(** [send_reminder] returned [True] for this task. *)
Definition sent_ok (env : environment) (t : due_task) : bool :=
  match send env t with
  | Py.Return true => true
  | _ => false
  end.

Lemma sent_ok_spec env t : sent_ok env t = true <-> send env t = Py.Return true.
Proof.
  unfold sent_ok. destruct (send env t) as [[|]|]; split; congruence.
Qed.

Lemma process_task_count env t db p :
  ~ In (due_id t) (seen p) ->
  sent_count (snd (process_task env t (db, p))) =
  sent_count p + (if sent_ok env t then 1 else 0).
Proof.
  intros Hfresh. unfold process_task, sent_ok.
  rewrite (not_seen_spec _ _ Hfresh).
  destruct (send env t) as [[|]|]; simpl; lia.
Qed.

Lemma scan_tasks_count env l :
  forall db p,
    NoDup (map due_id l) ->
    (forall t, In t l -> ~ In (due_id t) (seen p)) ->
    sent_count (snd (scan_tasks env l (db, p))) =
    sent_count p + Z.of_nat (List.length (filter (sent_ok env) l)).
Proof.
  induction l as [|t l IH]; intros db p Hnd Hfresh.
  - simpl. lia.
  - rewrite scan_tasks_cons.
    inversion Hnd as [|? ? Hnotin Hnd']; subst.
    pose proof (process_task_count env t db p (Hfresh t (or_introl eq_refl)))
      as Hcount.
    destruct (process_task_fresh env t db p (Hfresh t (or_introl eq_refl)))
      as (_ & _ & Hseen).
    destruct (process_task env t (db, p)) as [db1 p1]. simpl in Hcount, Hseen.
    rewrite IH; trivial.
    + rewrite Hcount. cbn [filter].
      destruct (sent_ok env t); cbn [List.length]; lia.
    + intros t' Hin. rewrite Hseen. intros [Heq|Hin'].
      * apply Hnotin. rewrite Heq. now apply in_map.
      * exact (Hfresh t' (or_intror Hin) Hin').
Qed.

(** X9. [run_reminder_scan_now] returns the number of fetched tasks for
    which [send_reminder] returned [True]: refused and raising calls are
    not counted, and the result is [0] when the sender is not configured.
    It lies between [0] and the number of fetched tasks. *)
Theorem manual_scan_counts_sent_reminders :
  forall (env : environment) (db : database),
    well_formed db ->
    let fetched := get_overdue_tasks (overdue_error env) (now_ts env) db in
    fst (run_reminder_scan_now env db) =
      (if is_configured env
       then Z.of_nat (List.length (filter (sent_ok env) fetched))
       else 0) /\
    0 <= fst (run_reminder_scan_now env db) <= Z.of_nat (List.length fetched).
Proof.
  intros env db Hwf fetched.
  assert (H : fst (run_reminder_scan_now env db) =
              if is_configured env
              then Z.of_nat (List.length (filter (sent_ok env) fetched))
              else 0).
  { unfold run_reminder_scan_now.
    destruct (is_configured env) eqn:Hc.
    - rewrite (ScanClaims.scan_fetched env db Hc). fold fetched.
      pose proof (scan_tasks_count env fetched db start
                    (get_overdue_tasks_NoDup _ _ db Hwf) (fun _ _ H => H))
        as Hcount.
      destruct (scan_tasks env fetched (db, start)) as [db' p].
      simpl in *. lia.
    - unfold scan. rewrite Hc. reflexivity. }
  split; [exact H|]. rewrite H.
  destruct (is_configured env); [|lia].
  pose proof (filter_length_le (sent_ok env) fetched). lia.
Qed.

(** In the sample pass two tasks are fetched and one reminder is sent. *)
Lemma manual_scan_counts_sent_reminders_witness :
  fst (run_reminder_scan_now Sample.env Sample.db) = 1 /\
  0 <= fst (run_reminder_scan_now Sample.env Sample.db) <= 2.
Proof.
  split; [reflexivity|].
  exact (proj2 (manual_scan_counts_sent_reminders Sample.env Sample.db
                  well_formed_sample)).
Defined.

(** X10. A scan pass neither adds nor deletes rows and never changes an
    id or the AUTOINCREMENT counter; a task that was not in the fetched
    list reads after the pass as it did before. *)
Theorem scan_touches_only_fetched_tasks :
  forall (env : environment) (db : database),
    let db' := fst (scan env db) in
    map id (tasks db') = map id (tasks db) /\
    sqlite_sequence db' = sqlite_sequence db /\
    forall i,
      ~ In i (map due_id
                (get_overdue_tasks (overdue_error env) (now_ts env) db)) ->
      get_task false i db' = get_task false i db.
Proof.
  intros env db db'.
  assert (H : map id (tasks db') = map id (tasks db) /\
              sqlite_sequence db' = sqlite_sequence db).
  { apply (scan_preserves
             (fun d => map id (tasks d) = map id (tasks db) /\
                       sqlite_sequence d = sqlite_sequence db)); [|auto].
    intros e now i d [H1 H2].
    rewrite complete_task_tasks, complete_task_sequence.
    split; trivial. destruct e; trivial.
    now rewrite map_id_update_completed. }
  split; [apply H|]. split; [apply H|].
  intros i Hnotin. unfold get_task, db', scan.
  destruct (negb (is_configured env)); trivial.
  destruct (get_overdue_tasks _ _ db) as [|t l] eqn:E; trivial.
  rewrite scan_tasks_other; trivial.
  intros t' Hin Heq. apply Hnotin. rewrite <- Heq. now apply in_map.
Qed.

Lemma row_unique (rows : list row) (r1 r2 : row) :
  NoDup (map id rows) -> In r1 rows -> In r2 rows -> id r1 = id r2 -> r1 = r2.
Proof.
  intros Hnd H1 H2 Hid.
  pose proof (row_with_id_unique _ _ Hnd H1) as E1.
  pose proof (row_with_id_unique _ _ Hnd H2) as E2.
  rewrite Hid, E2 in E1. now injection E1.
Qed.

Lemma overdue_task_In (now_ts : Z) (db : database) (t : due_task) :
  In t (get_overdue_tasks false now_ts db) <->
  exists r, t = due_of_row r /\ In r (tasks db) /\ is_overdue now_ts r = true.
Proof.
  unfold get_overdue_tasks. rewrite in_map_iff. split.
  - intros (r & <- & Hin). apply overdue_rows_In in Hin. exists r. tauto.
  - intros (r & -> & Hin). exists r. split; trivial.
    now apply overdue_rows_In.
Qed.

(** X11. After a pass in which SQLite did not fail on a completion, the
    overdue query, read at any clock value, returns what it would have
    returned before the pass without the fetched tasks whose reminder was
    sent. So the next pass retries exactly the reminders that were refused
    or raised, and sends none a second time. *)
Theorem next_pass_retries_what_was_not_sent :
  forall (env : environment) (db : database) (now_ts' : Z),
    well_formed db ->
    is_configured env = true ->
    (forall i, complete_error env i = false) ->
    let fetched := get_overdue_tasks (overdue_error env) (now_ts env) db in
    let db' := fst (scan env db) in
    forall t,
      In t (get_overdue_tasks false now_ts' db') <->
      In t (get_overdue_tasks false now_ts' db) /\
      (In t fetched -> send env t <> Py.Return true).
Proof.
  intros env db now_ts' Hwf Hconf Hok fetched db' t.
  pose proof (get_overdue_tasks_NoDup (overdue_error env) (now_ts env) db Hwf)
    as Hnd.
  destruct (scan_tasks_each env _ db start Hnd (fun _ _ H => H))
    as [_ Hrow].
  rewrite <- (ScanClaims.scan_fetched env db Hconf) in Hrow. fold db' fetched in Hrow.
  assert (Hother : forall i, ~ In i (map due_id fetched) ->
                     row_with_id i (tasks db') = row_with_id i (tasks db)).
  { intros i Hi. unfold db'. rewrite (ScanClaims.scan_fetched env db Hconf).
    apply scan_tasks_other. intros t' Hin Heq. apply Hi.
    rewrite <- Heq. now apply in_map. }
  assert (Hwf' : well_formed db').
  { apply scan_preserves; trivial.
    intros. now apply well_formed_complete_task. }
  assert (Hfetched : forall t', In t' fetched ->
             exists r, t' = due_of_row r /\ In r (tasks db) /\
                       completed r = 0 /\
                       row_with_id (id r) (tasks db') =
                         outcome env t' (Some r)).
  { intros t' Hin.
    destruct (get_overdue_tasks_In _ _ _ _ Hin) as (r & -> & Hr & Hp).
    exists r. repeat split; trivial.
    rewrite <- (row_with_id_unique _ _ (proj1 Hwf) Hr).
    exact (Hrow _ Hin). }
  rewrite !overdue_task_In. split.
  - intros (r' & -> & Hr' & Hov).
    pose proof (row_with_id_unique _ _ (proj1 Hwf') Hr') as Hlook.
    destruct (in_dec Z.eq_dec (id r') (map due_id fetched)) as [Hin|Hnotin].
    + apply in_map_iff in Hin. destruct Hin as (t0 & Hid & Hin).
      destruct (Hfetched t0 Hin) as (r & -> & Hr & Hp & Hout).
      simpl in Hid. rewrite Hid, Hlook in Hout. unfold outcome in Hout.
      destruct (send env (due_of_row r)) as [[|]|] eqn:Hsend.
      * simpl in Hout. rewrite Hok in Hout. simpl in Hout.
        injection Hout as ->. unfold complete_row in Hov.
        rewrite Hp in Hov. discriminate.
      * injection Hout as ->. split; [eauto|]. congruence.
      * injection Hout as ->. split; [eauto|]. congruence.
    + rewrite (Hother _ Hnotin) in Hlook.
      apply StoreProperties.row_with_id_found in Hlook.
      split; [exists r'; tauto|].
      intros Hin. exfalso. apply Hnotin.
      change (id r') with (due_id (due_of_row r')). now apply in_map.
  - intros [(r & -> & Hr & Hov) Hnot]. exists r. repeat split; trivial.
    assert (Hlook : row_with_id (id r) (tasks db') = Some r).
    { destruct (in_dec Z.eq_dec (id r) (map due_id fetched)) as [Hin|Hnotin].
      - apply in_map_iff in Hin. destruct Hin as (t0 & Hid & Hin).
        destruct (Hfetched t0 Hin) as (r0 & -> & Hr0 & Hp & Hout).
        simpl in Hid.
        assert (r0 = r) by (eapply row_unique; eauto; apply Hwf).
        subst r0. rewrite Hout.
        apply ScanClaims.outcome_not_sent. now apply Hnot.
      - rewrite (Hother _ Hnotin).
        apply row_with_id_unique; trivial. apply Hwf. }
    now apply StoreProperties.row_with_id_found in Hlook.
Qed.

(** After the sample pass task 3 (sent) is gone from the overdue list and
    task 1 (refused) is still in it. *)
Lemma next_pass_retries_what_was_not_sent_witness :
  map due_id
    (get_overdue_tasks false 1705312801 (fst (scan Sample.env Sample.db)))
  = [1] /\
  (In Sample.task1
      (get_overdue_tasks false 1705312801 (fst (scan Sample.env Sample.db)))
   <->
   In Sample.task1 (get_overdue_tasks false 1705312801 Sample.db) /\
   (In Sample.task1
       (get_overdue_tasks (overdue_error Sample.env) (now_ts Sample.env)
          Sample.db) ->
    send Sample.env Sample.task1 <> Py.Return true)).
Proof.
  split; [reflexivity|].
  exact (next_pass_retries_what_was_not_sent Sample.env Sample.db 1705312801
           well_formed_sample eq_refl (fun _ => eq_refl) Sample.task1).
Defined.

End ScanProperties.

(** * Further properties of the scheduler's life cycle *)

Module ServiceProperties.
Import TasksManager Scheduler Service.

Lemma is_alive_new_thread (s : system) (t : loop_thread) :
  nth_error (threads s ++ [t]) (List.length (threads s)) = Some t.
Proof.
  rewrite nth_error_app2 by lia. now rewrite Nat.sub_diag.
Qed.

(** X12. [start_scheduler] starts at most one thread: run twice in a row it
    does what it does run once. When the thread [_scheduler_thread] refers
    to is alive the call changes nothing at all, so a stop request made
    before it stays in force; otherwise it appends one thread, makes it the
    current one and clears the stop flag. *)
Theorem start_scheduler_starts_one_thread :
  forall (s : system),
    start_scheduler (start_scheduler s) = start_scheduler s /\
    (forall i pr,
        _scheduler_thread s = Some i ->
        nth_error (threads s) i = Some (Running pr) ->
        start_scheduler s = s /\
        start_scheduler (stop_scheduler s) = stop_scheduler s) /\
    ((forall i pr,
         _scheduler_thread s = Some i ->
         nth_error (threads s) i <> Some (Running pr)) ->
     threads (start_scheduler s) = threads s ++ [Running Idle] /\
     _scheduler_thread (start_scheduler s) = Some (List.length (threads s)) /\
     _scheduler_stop (start_scheduler s) = false).
Proof.
  intros s. split; [|split].
  - unfold start_scheduler at 2 3.
    destruct (match _scheduler_thread s with
              | Some i => is_alive s i
              | None => false
              end) eqn:E.
    + unfold start_scheduler. now rewrite E.
    + unfold start_scheduler, is_alive. cbn [_scheduler_thread threads].
      now rewrite is_alive_new_thread.
  - intros i pr Hcur Hi. unfold start_scheduler, is_alive.
    cbn [stop_scheduler _scheduler_thread threads].
    now rewrite Hcur, Hi.
  - intros Hdead. unfold start_scheduler.
    destruct (match _scheduler_thread s with
              | Some i => is_alive s i
              | None => false
              end) eqn:E; [|auto].
    destruct (_scheduler_thread s) as [i|] eqn:Hcur; [|discriminate].
    unfold is_alive in E.
    destruct (nth_error (threads s) i) as [[pr|]|] eqn:Hi; try discriminate.
    now destruct (Hdead i pr eq_refl).
Qed.

End ServiceProperties.

(** * Properties of the commands *)

Module CommandProperties.
Import TasksManager Commands.
Local Open Scope string_scope.

Fixpoint digits_only (s : string) : bool :=
  match s with
  | EmptyString => true
  | String c s' => Re.is_digit c && digits_only s'
  end.

Local Abbreviation isascii := Py.isascii.

Fixpoint has_digit (s : string) : bool :=
  match s with
  | EmptyString => false
  | String c s' => Re.is_digit c || has_digit s'
  end.

Lemma digits_only_uint (d : Decimal.uint) :
  digits_only (NilEmpty.string_of_uint d) = true.
Proof. induction d; simpl; trivial. Qed.

Lemma uint_nonempty (d : Decimal.uint) :
  d <> Decimal.Nil -> NilEmpty.string_of_uint d <> "".
Proof. destruct d; simpl; congruence. Qed.

(** [str] of a natural number: its decimal digits, at least one. *)
Lemma str_digits (n : Z) :
  0 <= n ->
  digits_only (PyText.str n) = true /\ PyText.str n <> "" /\
  PyText.int (PyText.str n) = Some n.
Proof.
  intros Hn. unfold PyText.str, PyText.int.
  destruct n as [|p|p]; [| |lia].
  - repeat split; trivial. discriminate.
  - simpl Z.to_int. cbn [NilZero.string_of_int].
    pose proof (DecimalPos.Unsigned.to_uint_nonnil p) as Hnil.
    assert (E : NilZero.string_of_uint (Pos.to_uint p) =
                NilEmpty.string_of_uint (Pos.to_uint p))
      by (destruct (Pos.to_uint p); trivial; congruence).
    repeat split.
    + rewrite E. apply digits_only_uint.
    + rewrite E. now apply uint_nonempty.
    + rewrite (NilZero.usu _ Hnil). simpl. f_equal.
      pose proof (DecimalN.Unsigned.of_to (N.pos p)) as H. simpl in H.
      now rewrite H.
Qed.

Lemma lower_app (a b : string) :
  SMSHandler.lower (a ++ b) = SMSHandler.lower a ++ SMSHandler.lower b.
Proof. induction a as [|c a IH]; simpl; congruence. Qed.

Lemma is_digit_codes (c : ascii) :
  Re.is_digit c = true -> (48 <= N_of_ascii c <= 57)%N.
Proof.
  unfold Re.is_digit. rewrite andb_true_iff, !N.leb_le. tauto.
Qed.

Lemma lower_digit (c : ascii) :
  Re.is_digit c = true -> SMSHandler.lower_ascii c = c.
Proof.
  intros H. apply is_digit_codes in H. unfold SMSHandler.lower_ascii.
  destruct ((65 <=? N_of_ascii c) && (N_of_ascii c <=? 90))%N eqn:E; trivial.
  apply andb_true_iff in E. rewrite !N.leb_le in E. lia.
Qed.

Lemma lower_digits (d : string) :
  digits_only d = true -> SMSHandler.lower d = d.
Proof.
  induction d as [|c d IH]; simpl; trivial.
  rewrite andb_true_iff. intros [Hc Hd].
  now rewrite (lower_digit c Hc), IH.
Qed.

Lemma digit_not_space (c : ascii) :
  Re.is_digit c = true -> PyText.is_space c = false.
Proof.
  intros H. apply is_digit_codes in H. unfold PyText.is_space.
  apply orb_false_iff. split; apply andb_false_iff.
  - right. apply N.leb_gt. lia.
  - right. apply N.leb_gt. lia.
Qed.

Lemma rstrip_digits (d : string) :
  digits_only d = true -> PyText.rstrip d = d.
Proof.
  induction d as [|c d IH]; simpl; trivial.
  rewrite andb_true_iff. intros [Hc Hd]. rewrite (IH Hd).
  destruct d; trivial. now rewrite (digit_not_space c Hc).
Qed.

Lemma rstrip_cons (c : ascii) (s : string) :
  s <> "" -> PyText.rstrip s = s -> PyText.rstrip (String c s) = String c s.
Proof.
  intros Hne Hs. simpl. rewrite Hs. destruct s; congruence.
Qed.

(** The group of digits takes every digit of a string of digits. *)
Lemma group_takes_all (d : string) :
  digits_only d = true -> d <> "" ->
  ReGroup.match_here [ReGroup.Group] d = Some d.
Proof.
  induction d as [|c d IH]; [congruence|].
  simpl digits_only. rewrite andb_true_iff. intros [Hc Hd] _.
  cbn [ReGroup.match_here] in *. rewrite Hc.
  destruct d as [|c' d']; [reflexivity|].
  now rewrite IH.
Qed.

Lemma spaces_then_group (d : string) :
  digits_only d = true -> d <> "" ->
  ReGroup.match_here [ReGroup.Spaces; ReGroup.Group] (String " " d) = Some d.
Proof.
  intros Hd Hne. pose proof (group_takes_all d Hd Hne) as Hg.
  cbn [ReGroup.match_here] in *. cbn [PyText.is_space N_of_ascii].
  destruct d as [|c d']; [congruence|].
  simpl in Hd. apply andb_true_iff in Hd. destruct Hd as [Hc _].
  change (PyText.is_space " ") with true. cbv iota.
  rewrite (digit_not_space c Hc). exact Hg.
Qed.

Lemma lower_done (d : string) :
  digits_only d = true ->
  SMSHandler.lower ("done " ++ d) = "done " ++ d /\
  SMSHandler.lower ("delete task " ++ d) = "delete task " ++ d.
Proof.
  intros Hd. rewrite !lower_app, (lower_digits d Hd). split; reflexivity.
Qed.

Lemma strip_before_digits (d : string) :
  digits_only d = true -> d <> "" ->
  PyText.strip ("done " ++ d) = "done " ++ d /\
  PyText.strip ("delete task " ++ d) = "delete task " ++ d.
Proof.
  intros Hd Hne. pose proof (rstrip_digits d Hd) as Hr.
  unfold PyText.strip. split.
  - change (PyText.lstrip ("done " ++ d)) with ("done " ++ d).
    cbn [append].
    repeat (apply rstrip_cons; [discriminate || assumption|]). exact Hr.
  - change (PyText.lstrip ("delete task " ++ d)) with ("delete task " ++ d).
    cbn [append].
    repeat (apply rstrip_cons; [discriminate || assumption|]). exact Hr.
Qed.

Lemma detect_done (d : string) :
  digits_only d = true -> d <> "" ->
  should_handle_command ("done " ++ d) = Some "complete_task" /\
  ReGroup.search done_pattern (SMSHandler.lower ("done " ++ d)) = Some d.
Proof.
  intros Hd Hne. split.
  - unfold should_handle_command.
    rewrite (proj1 (lower_done d Hd)), (proj1 (strip_before_digits d Hd Hne)).
    destruct d; [congruence|]. reflexivity.
  - rewrite (proj1 (lower_done d Hd)).
    pose proof (spaces_then_group d Hd Hne) as Hm.
    assert (E : ReGroup.match_here done_pattern ("done " ++ d) = Some d)
      by exact Hm.
    destruct d; [congruence|].
    cbn [append ReGroup.search]. cbn [append] in E. now rewrite E.
Qed.

Lemma detect_delete (d : string) :
  digits_only d = true -> d <> "" ->
  should_handle_command ("delete task " ++ d) = Some "delete_task" /\
  ReGroup.search delete_pattern (SMSHandler.lower ("delete task " ++ d))
  = Some d.
Proof.
  intros Hd Hne. split.
  - unfold should_handle_command.
    rewrite (proj2 (lower_done d Hd)), (proj2 (strip_before_digits d Hd Hne)).
    destruct d; [congruence|]. reflexivity.
  - rewrite (proj2 (lower_done d Hd)).
    pose proof (spaces_then_group d Hd Hne) as Hm.
    assert (E : ReGroup.match_here delete_pattern ("delete task " ++ d)
                = Some d) by exact Hm.
    destruct d; [congruence|].
    cbn [append ReGroup.search]. cbn [append] in E. now rewrite E.
Qed.

Section Handler.
Variable fromisoformat : string -> option Py.datetime.
Variable strftime : Py.datetime -> string.
Variable forget_last : Py.py_result bool.
Variable parse : string -> Py.py_result (option Py.datetime).
Variables tz_utcoffset local_utcoffset : Z -> Z.
Variable isoformat : Py.datetime -> string.
Variable add_conversation : string -> SMSHandler.reply -> Py.py_result bool.
Variable get_context_for_prompt : string -> Py.py_result string.
Variable parse_task_intent : string -> Py.py_result (option (string * string)).
Variable ask_llm : string -> string -> Py.py_result string.

Let process :=
  process_message fromisoformat strftime forget_last parse tz_utcoffset
    local_utcoffset isoformat add_conversation get_context_for_prompt
    parse_task_intent ask_llm.

Lemma process_done e now task_id db :
  0 <= task_id <= SQLITE_INTEGER_MAX ->
  process e now ("done " ++ PyText.str task_id) db =
  (CommandReply (if fst (complete_task e now task_id db)
                 then Completed task_id else NotCompleted task_id),
   snd (complete_task e now task_id db)).
Proof.
  intros [Hlo Hhi].
  destruct (str_digits task_id Hlo) as (Hd & Hne & Hint).
  destruct (detect_done _ Hd Hne) as [Hcmd Hsearch].
  unfold process, process_message. rewrite Hcmd.
  unfold _handle_command. cbn [String.eqb Ascii.eqb Bool.eqb].
  rewrite Hsearch, Hint.
  rewrite TasksManagerFacts.call_complete_task_binds
    by (apply TasksManagerFacts.binds_spec; unfold SQLITE_INTEGER_MIN; lia).
  now destruct (complete_task e now task_id db) as [[|] db'].
Qed.

Lemma process_delete e now task_id db :
  0 <= task_id <= SQLITE_INTEGER_MAX ->
  process e now ("delete task " ++ PyText.str task_id) db =
  (CommandReply (if fst (delete_task e task_id db)
                 then Deleted task_id else NotDeleted task_id),
   snd (delete_task e task_id db)).
Proof.
  intros [Hlo Hhi].
  destruct (str_digits task_id Hlo) as (Hd & Hne & Hint).
  destruct (detect_delete _ Hd Hne) as [Hcmd Hsearch].
  unfold process, process_message. rewrite Hcmd.
  unfold _handle_command. cbn [String.eqb Ascii.eqb Bool.eqb].
  rewrite Hsearch, Hint.
  rewrite TasksManagerFacts.call_delete_task_binds
    by (apply TasksManagerFacts.binds_spec; unfold SQLITE_INTEGER_MIN; lia).
  now destruct (delete_task e task_id db) as [[|] db'].
Qed.

End Handler.

(** X13. The reply a reminder asks for works: the body of the reminder for
    task [task_id] ends in "Reply 'done <id>' when completed!", and that
    reply, sent as a message, is taken as the command [complete_task] and
    handled by calling [complete_task] on exactly that id; the answer tells
    whether it succeeded. (Ids are SQLite integers.) *)
Theorem reminder_reply_completes_the_task :
  forall (fromisoformat : string -> option Py.datetime)
         (strftime : Py.datetime -> string)
         (forget_last : Py.py_result bool)
         (parse : string -> Py.py_result (option Py.datetime))
         (tz_utcoffset local_utcoffset : Z -> Z)
         (isoformat : Py.datetime -> string)
         (add_conversation : string -> SMSHandler.reply -> Py.py_result bool)
         (get_context_for_prompt : string -> Py.py_result string)
         (parse_task_intent :
            string -> Py.py_result (option (string * string)))
         (ask_llm : string -> string -> Py.py_result string)
         (e : bool) (now task_text : string) (task_id : Z) (db : database),
    0 <= task_id <= SQLITE_INTEGER_MAX ->
    let message := "done " ++ PyText.str task_id in
    MessageSender.message_body task_text task_id =
      "⏰ Reminder: " ++ task_text ++ PyText.newline ++ PyText.newline
      ++ "Reply '" ++ message ++ "' when completed!" /\
    process_message fromisoformat strftime forget_last parse tz_utcoffset
      local_utcoffset isoformat add_conversation get_context_for_prompt
      parse_task_intent ask_llm e now message db =
    (CommandReply (if fst (complete_task e now task_id db)
                   then Completed task_id else NotCompleted task_id),
     snd (complete_task e now task_id db)).
Proof.
  intros. split.
  - reflexivity.
  - now apply process_done.
Qed.

(** The reminder for task 1 of the sample store asks for "done 1"; that
    message completes task 1. *)
Lemma reminder_reply_completes_the_task_witness :
  Sample.process_message "2024-01-16 00:00:00" "done 1" Sample.db =
  (CommandReply (Completed 1),
   snd (complete_task false "2024-01-16 00:00:00" 1 Sample.db)).
Proof.
  refine (proj2
    (reminder_reply_completes_the_task Sample.fromisoformat Sample.strftime
       Sample.forget_last Sample.parse Sample.tz_utcoffset Sample.utc
       Sample.isoformat Sample.add_conversation
       Sample.get_context_for_prompt Sample.parse_task_intent Sample.ask_llm
       false "2024-01-16 00:00:00" "pay rent" 1 Sample.db _)).
  unfold SQLITE_INTEGER_MAX. lia.
Defined.

(** X14. The message "delete task <id>" is taken as the command
    [delete_task] and handled by calling [delete_task] on exactly that id;
    the answer tells whether a row was deleted. (Ids are SQLite
    integers.) *)
Theorem delete_message_deletes_the_task :
  forall (fromisoformat : string -> option Py.datetime)
         (strftime : Py.datetime -> string)
         (forget_last : Py.py_result bool)
         (parse : string -> Py.py_result (option Py.datetime))
         (tz_utcoffset local_utcoffset : Z -> Z)
         (isoformat : Py.datetime -> string)
         (add_conversation : string -> SMSHandler.reply -> Py.py_result bool)
         (get_context_for_prompt : string -> Py.py_result string)
         (parse_task_intent :
            string -> Py.py_result (option (string * string)))
         (ask_llm : string -> string -> Py.py_result string)
         (e : bool) (now : string) (task_id : Z) (db : database),
    0 <= task_id <= SQLITE_INTEGER_MAX ->
    process_message fromisoformat strftime forget_last parse tz_utcoffset
      local_utcoffset isoformat add_conversation get_context_for_prompt
      parse_task_intent ask_llm e now ("delete task " ++ PyText.str task_id)
      db =
    (CommandReply (if fst (delete_task e task_id db)
                   then Deleted task_id else NotDeleted task_id),
     snd (delete_task e task_id db)).
Proof. intros. now apply process_delete. Qed.

Lemma delete_message_deletes_the_task_witness :
  Sample.process_message "2024-01-16 00:00:00" "delete task 4" Sample.db =
  (CommandReply (Deleted 4), snd (delete_task false 4 Sample.db)).
Proof.
  refine (delete_message_deletes_the_task Sample.fromisoformat
            Sample.strftime Sample.forget_last Sample.parse
            Sample.tz_utcoffset Sample.utc Sample.isoformat
            Sample.add_conversation Sample.get_context_for_prompt
            Sample.parse_task_intent Sample.ask_llm
            false "2024-01-16 00:00:00" 4 Sample.db _).
  unfold SQLITE_INTEGER_MAX. lia.
Defined.

Lemma lower_ascii_digit (c : ascii) :
  Re.is_digit (SMSHandler.lower_ascii c) = Re.is_digit c.
Proof.
  unfold SMSHandler.lower_ascii.
  destruct ((65 <=? N_of_ascii c) && (N_of_ascii c <=? 90))%N eqn:E; trivial.
  apply andb_true_iff in E. rewrite !N.leb_le in E.
  unfold Re.is_digit.
  rewrite N_ascii_embedding by lia.
  transitivity false.
  - apply andb_false_iff. right. apply N.leb_gt. lia.
  - symmetry. apply andb_false_iff. right. apply N.leb_gt. lia.
Qed.

Lemma has_digit_lower (s : string) :
  has_digit (SMSHandler.lower s) = has_digit s.
Proof.
  induction s as [|c s IH]; simpl; trivial.
  now rewrite lower_ascii_digit, IH.
Qed.

(** A pattern with the group of digits matches nothing in a text without
    digits. *)
Lemma match_here_needs_digit (p : list ReGroup.atom) :
  In ReGroup.Group p ->
  forall s, has_digit s = false -> ReGroup.match_here p s = None.
Proof.
  induction p as [|a p IH]; [contradiction|].
  intros Hin. destruct a as [c| |].
  - destruct Hin as [[=]|Hin]. intros [|x s] Hs; simpl; trivial.
    simpl in Hs. apply orb_false_iff in Hs.
    destruct (Ascii.eqb x c); trivial. now apply IH.
  - destruct Hin as [[=]|Hin].
    induction s as [|x s IHs]; intros Hs; trivial.
    simpl in Hs. apply orb_false_iff in Hs. destruct Hs as [_ Hs].
    cbn [ReGroup.match_here] in *.
    destruct (PyText.is_space x); trivial.
    rewrite (IHs Hs). now apply IH.
  - intros [|x s] Hs; trivial.
    simpl in Hs. apply orb_false_iff in Hs. destruct Hs as [Hx _].
    cbn [ReGroup.match_here]. now rewrite Hx.
Qed.

Lemma search_needs_digit (p : list ReGroup.atom) (s : string) :
  In ReGroup.Group p -> has_digit s = false -> ReGroup.search p s = None.
Proof.
  intros Hin. induction s as [|x s IH]; intros Hs.
  - cbn [ReGroup.search]. now rewrite (match_here_needs_digit p Hin).
  - cbn [ReGroup.search]. rewrite (match_here_needs_digit p Hin _ Hs).
    apply IH. simpl in Hs. now apply orb_false_iff in Hs.
Qed.

(** X15. A task is named by digits only: when the message, a text of ASCII
    characters, holds no digit, the commands [complete_task] and
    [delete_task] touch nothing in the store and answer by asking for a
    task id. *)
Theorem command_without_digits_changes_nothing :
  forall (fromisoformat : string -> option Py.datetime)
         (strftime : Py.datetime -> string)
         (forget_last : Py.py_result bool)
         (e : bool) (now message : string) (db : database),
    isascii message = true ->
    has_digit message = false ->
    _handle_command fromisoformat strftime forget_last e now "complete_task"
      message db = (SpecifyDoneId, db) /\
    _handle_command fromisoformat strftime forget_last e now "delete_task"
      message db = (SpecifyDeleteId, db).
Proof.
  intros fromisoformat strftime forget_last e now message db _ Hno.
  rewrite <- has_digit_lower in Hno.
  unfold _handle_command. cbn [String.eqb Ascii.eqb Bool.eqb].
  rewrite !search_needs_digit; trivial.
  - split; reflexivity.
  - unfold delete_pattern. rewrite !in_app_iff. right. right. right.
    simpl. tauto.
  - unfold done_pattern. rewrite in_app_iff. right. simpl. tauto.
Qed.

Lemma command_without_digits_changes_nothing_witness :
  _handle_command Sample.fromisoformat Sample.strftime Sample.forget_last
    false "2024-01-16 00:00:00" "complete_task" "done with the rent"
    Sample.db = (SpecifyDoneId, Sample.db).
Proof.
  exact (proj1
    (command_without_digits_changes_nothing Sample.fromisoformat
       Sample.strftime Sample.forget_last false "2024-01-16 00:00:00"
       "done with the rent" Sample.db eq_refl eq_refl)).
Defined.

(** X21. Only the commands "done" and "delete task" can complete or delete
    a task: handling any other message (a text of ASCII characters) leaves
    every stored row as it is and adds at most one row, a pending one. *)
Theorem other_messages_only_add :
  forall (fromisoformat : string -> option Py.datetime)
         (strftime : Py.datetime -> string)
         (forget_last : Py.py_result bool)
         (parse : string -> Py.py_result (option Py.datetime))
         (tz_utcoffset local_utcoffset : Z -> Z)
         (isoformat : Py.datetime -> string)
         (add_conversation : string -> SMSHandler.reply -> Py.py_result bool)
         (get_context_for_prompt : string -> Py.py_result string)
         (parse_task_intent :
            string -> Py.py_result (option (string * string)))
         (ask_llm : string -> string -> Py.py_result string)
         (e : bool) (now message : string) (db : database),
    isascii message = true ->
    should_handle_command message <> Some "complete_task" ->
    should_handle_command message <> Some "delete_task" ->
    exists rows,
      tasks (snd (process_message fromisoformat strftime forget_last parse
                    tz_utcoffset local_utcoffset isoformat add_conversation
                    get_context_for_prompt parse_task_intent ask_llm e now
                    message db)) = (tasks db ++ rows)%list /\
      (List.length rows <= 1)%nat /\
      Forall (fun r => completed r = 0) rows.
Proof.
  intros fromisoformat strftime forget_last parse tz l isoformat
    add_conversation get_context_for_prompt parse_task_intent ask_llm e now
    message db _ Hdone Hdelete.
  assert (Hsame : forall d : database,
             tasks d = tasks db ->
             exists rows, tasks d = (tasks db ++ rows)%list /\
                          (List.length rows <= 1)%nat /\
                          Forall (fun r => completed r = 0) rows).
  { intros d Hd. exists []. rewrite app_nil_r. repeat split; auto. }
  unfold process_message.
  destruct (should_handle_command message) as [command|] eqn:Hcmd.
  - unfold should_handle_command in Hcmd.
    destruct (String.eqb _ "forget this").
    { injection Hcmd as <-. unfold _handle_command. simpl.
      destruct forget_last as [[|]|]; now apply Hsame. }
    destruct (String.eqb _ "show tasks").
    { injection Hcmd as <-. now apply Hsame. }
    destruct (String.prefix "done " _); [congruence|].
    destruct (String.prefix "delete task " _); [congruence|discriminate].
  - destruct (get_context_for_prompt message); [|now apply Hsame].
    destruct (parse_task_intent message) as [[[task_text priority]|]|];
      [| |now apply Hsame].
    + unfold SMSHandler._handle_task_creation, add_task.
      destruct e.
      * now apply Hsame.
      * eexists [_]. cbn [fst snd].
        destruct (next_rowid db >? 0).
        -- destruct (add_conversation _ _); cbn [snd tasks];
             repeat split; auto.
        -- cbn [snd tasks]. repeat split; auto.
    + destruct (ask_llm message a); now apply Hsame.
Qed.

(** "show tasks" leaves the sample store as it is. *)
Lemma other_messages_only_add_witness :
  exists rows,
    tasks (snd (Sample.process_message "2024-01-16 00:00:00" "Show Tasks "
                  Sample.db)) = (tasks Sample.db ++ rows)%list /\
    (List.length rows <= 1)%nat /\
    Forall (fun r => completed r = 0) rows.
Proof.
  refine (other_messages_only_add Sample.fromisoformat Sample.strftime
            Sample.forget_last Sample.parse Sample.tz_utcoffset Sample.utc
            Sample.isoformat Sample.add_conversation
            Sample.get_context_for_prompt Sample.parse_task_intent
            Sample.ask_llm false "2024-01-16 00:00:00" "Show Tasks "
            Sample.db eq_refl _ _); discriminate.
Defined.

End CommandProperties.

(** * Properties of the message sender *)

Module SenderProperties.
Import MessageSender.
Local Open Scope string_scope.

Lemma prefix_whatsapp (n : string) :
  String.prefix "whatsapp:" ("whatsapp:" ++ n) = true.
Proof. destruct n; reflexivity. Qed.

Lemma truthy_format_destination (number : option string)
    (use_whatsapp : bool) :
  truthy (_format_destination number use_whatsapp) = truthy number.
Proof.
  destruct number as [n|]; trivial.
  unfold _format_destination, truthy.
  destruct (Py.truthy n) eqn:Ht; cbn [negb]; trivial.
  now destruct (use_whatsapp && negb (String.prefix "whatsapp:" n)).
Qed.

(** X16. [_format_destination] normalises a number: a missing or empty
    number stays as it is; for SMS the number is returned unchanged; for
    WhatsApp the result starts with "whatsapp:", the prefix being added
    when the number lacks it and not repeated when the number has it.
    Formatting twice is formatting once. *)
Theorem format_destination_is_idempotent :
  forall (number : option string) (use_whatsapp : bool),
    _format_destination (_format_destination number use_whatsapp)
      use_whatsapp = _format_destination number use_whatsapp /\
    truthy (_format_destination number use_whatsapp) = truthy number /\
    _format_destination number false = number /\
    (truthy number = true ->
     exists n rest,
       number = Some n /\
       _format_destination number true = Some ("whatsapp:" ++ rest) /\
       (n = "whatsapp:" ++ rest \/
        (n = rest /\ String.prefix "whatsapp:" n = false))).
Proof.
  intros [n|] w.
  2:{ repeat split; trivial. discriminate. }
  unfold _format_destination, truthy.
  destruct (Py.truthy n) eqn:Ht; cbn [negb].
  2:{ rewrite Ht. cbn [negb]. repeat split; trivial. discriminate. }
  split; [|split; [|split]].
  - destruct (w && negb (String.prefix "whatsapp:" n)) eqn:E.
    + change (Py.truthy ("whatsapp:" ++ n)) with true. cbn [negb].
      now rewrite prefix_whatsapp, andb_false_r.
    + rewrite Ht. cbn [negb]. now rewrite E.
  - now destruct (w && negb (String.prefix "whatsapp:" n)).
  - reflexivity.
  - intros _. cbn [andb]. destruct (String.prefix "whatsapp:" n) eqn:E.
    + cbn [negb]. apply prefix_correct in E.
      exists n, (substring 9 (String.length n - 9) n).
      assert (Hn : n = "whatsapp:" ++ substring 9 (String.length n - 9) n).
      { do 9 (destruct n as [|? n]; [discriminate|]).
        simpl in E. injection E as -> -> -> -> -> -> -> -> ->. simpl.
        rewrite Nat.sub_0_r.
        repeat f_equal. clear. induction n as [|c n IH]; simpl; trivial.
        now rewrite <- IH. }
      split; trivial. split; [now rewrite <- Hn | now left].
    + exists n, n. auto.
Qed.

(** X17. A sender built from the environment is configured exactly when
    the account SID, the auth token, the user's number and the sending
    number are all set and non-empty, the sending number being
    [WHATSAPP_FROM] when [USE_WHATSAPP] is "true" (in any case) and
    [TWILIO_PHONE_NUMBER] otherwise. *)
Theorem configured_iff_variables_set :
  forall (env : environ),
    is_configured (init env) =
    truthy (TWILIO_ACCOUNT_SID env) && truthy (TWILIO_AUTH_TOKEN env)
    && truthy (USER_PHONE_NUMBER env)
    && truthy (if use_whatsapp (init env)
               then WHATSAPP_FROM env else TWILIO_PHONE_NUMBER env) /\
    (use_whatsapp (init env) = true <->
     exists v, USE_WHATSAPP env = Some v /\ SMSHandler.lower v = "true").
Proof.
  intros env. split.
  - unfold is_configured. cbn [init client user_number from_number
                               account_sid auth_token use_whatsapp].
    rewrite !truthy_format_destination.
    destruct (truthy (TWILIO_ACCOUNT_SID env)),
      (truthy (TWILIO_AUTH_TOKEN env)),
      (truthy (USER_PHONE_NUMBER env)); cbn [andb]; trivial.
    now rewrite !andb_true_r.
  - cbn [init use_whatsapp]. rewrite String.eqb_eq.
    destruct (USE_WHATSAPP env) as [v|].
    + split; [eauto | now intros (v' & [= <-] & H)].
    + split; [discriminate | now intros (v' & [=] & _)].
Qed.

(** X18. A pass run with a configured [MessageSender] never meets a
    raising [send_reminder]: each fetched task gets one call to Twilio, and
    after the pass (ids unique, no SQLite error on completion) the task is
    completed exactly when that call returned; when Twilio raised, the task
    is still pending. *)
Theorem sender_pass_completes_accepted_messages :
  forall (create : string -> string -> string -> Py.py_result unit)
         (s : sender) (now_ts : Z) (overdue_error : bool)
         (complete_time : Z -> string)
         (db : TasksManager.database) (t : TasksManager.due_task),
    TasksManager.well_formed db ->
    is_configured s = true ->
    In t (TasksManager.get_overdue_tasks overdue_error now_ts db) ->
    let env :=
      scan_environment create s now_ts overdue_error (fun _ => false)
        complete_time in
    let accepted :=
      match create (message_body (TasksManager.due_text t)
                      (TasksManager.due_id t))
                   (number (from_number s)) (number (user_number s)) with
      | Py.Return _ => true
      | Py.Raise => false
      end in
    Scheduler.send env t = Py.Return accepted /\
    exists tk,
      TasksManager.get_task false (TasksManager.due_id t)
        (fst (Scheduler.scan env db)) = Some tk /\
      TasksManager.task_completed tk = accepted.
Proof.
  intros create s now_ts overdue_error complete_time db t Hwf Hconf Hin
    env accepted.
  assert (Hsend : Scheduler.send env t = Py.Return accepted).
  { unfold Scheduler.send, env, scan_environment, send_reminder, accepted.
    cbn [Scheduler.send_reminder]. rewrite Hconf. cbn [negb].
    now destruct (create _ _ _). }
  split; [exact Hsend|].
  pose proof (TasksManagerFacts.get_overdue_tasks_NoDup overdue_error now_ts
                db Hwf) as Hnd.
  destruct (SchedulerFacts.scan_tasks_each env _ db Scheduler.start Hnd
              (fun _ _ H => H)) as [_ Hrow].
  specialize (Hrow t Hin).
  assert (Hscan : Scheduler.scan env db =
                  Scheduler.scan_tasks env
                    (TasksManager.get_overdue_tasks overdue_error now_ts db)
                    (db, Scheduler.start))
    by (apply (ScanClaims.scan_fetched env db); exact Hconf).
  rewrite <- Hscan in Hrow.
  destruct (TasksManagerFacts.get_overdue_tasks_In _ _ _ _ Hin)
    as (r & -> & Hr & Hp).
  cbn [TasksManager.due_id TasksManager.due_of_row] in Hrow |- *.
  rewrite (TasksManagerFacts.row_with_id_unique _ _ (proj1 Hwf) Hr) in Hrow.
  unfold TasksManager.get_task. rewrite Hrow.
  unfold SchedulerFacts.outcome. rewrite Hsend.
  destruct accepted; cbn [Scheduler.complete_error env scan_environment].
  - eexists. split; [reflexivity|].
    unfold TasksManagerFacts.complete_row. rewrite Hp. reflexivity.
  - eexists. split; [reflexivity|]. simpl. now rewrite Hp.
Qed.

(** With the sample sender, Twilio accepts the reminder for task 3, which
    is completed by the pass. *)
Lemma sender_pass_completes_accepted_messages_witness :
  exists tk,
    TasksManager.get_task false 3
      (fst (Scheduler.scan
              (scan_environment Sample.twilio_create Sample.sender 1705312801
                 false (fun _ => false) (fun _ => "2024-01-15 10:00:01"))
              Sample.db)) = Some tk /\
    TasksManager.task_completed tk = true.
Proof.
  exact (proj2
    (sender_pass_completes_accepted_messages Sample.twilio_create
       Sample.sender 1705312801 false (fun _ => "2024-01-15 10:00:01")
       Sample.db Sample.task3 TasksManagerFacts.well_formed_sample eq_refl
       (or_introl eq_refl))).
Defined.

End SenderProperties.

(** * Further properties of the date resolver and of task creation *)

Module ResolverProperties.
Import SMSHandler.

Lemma int_timestamp_utc_seconds (local_utcoffset : Z -> Z) (dt : Py.datetime) :
  Py.tzinfo dt = Some 0 -> Py.microsecond dt = 0 ->
  Py.int_timestamp local_utcoffset dt = Py.wall dt.
Proof.
  intros Htz Hmicro. unfold Py.int_timestamp, Py.utcoffset.
  rewrite Htz, Hmicro, Z.sub_0_r, Z.add_0_r.
  apply Z.quot_mul. discriminate.
Qed.

Lemma to_utc_seconds_is_utc (tz l : Z -> Z) (dt : Py.datetime) :
  Py.tzinfo (to_utc_seconds tz l dt) = Some 0 /\
  Py.microsecond (to_utc_seconds tz l dt) = 0.
Proof. split; reflexivity. Qed.

(** X20. From the message to the reminder: when the whole message parses
    to a date and [fromisoformat] reads back the string [isoformat] wrote,
    [_handle_task_creation] (the store not failing) stores the new task
    with [due_ts] equal to the resolved UTC instant in seconds, and the
    overdue query returns the task exactly at clock values after that
    instant. *)
Theorem created_task_is_overdue_after_its_instant :
  forall (parse : string -> Py.py_result (option Py.datetime))
         (tz_utcoffset local_utcoffset : Z -> Z)
         (isoformat : Py.datetime -> string)
         (fromisoformat : string -> option Py.datetime)
         (add_conversation : string -> reply -> Py.py_result bool)
         (now task_text priority user_message : string)
         (db : TasksManager.database) (parsed : Py.datetime),
    parse user_message = Py.Return (Some parsed) ->
    let due := to_utc_seconds tz_utcoffset local_utcoffset parsed in
    Py.truthy (isoformat due) = true ->
    fromisoformat (Py.replace_Z (isoformat due)) = Some due ->
    let db' :=
      snd (_handle_task_creation parse tz_utcoffset local_utcoffset isoformat
             fromisoformat add_conversation false now task_text priority
             user_message db) in
    let new_id := TasksManager.next_rowid db in
    TasksManager.tasks db' =
      TasksManager.tasks db ++
        [{| TasksManager.id := new_id;
            TasksManager.text := task_text;
            TasksManager.due_date := Some (isoformat due);
            TasksManager.due_ts := Some (Py.wall due);
            TasksManager.completed := 0;
            TasksManager.priority := priority;
            TasksManager.created_at := now;
            TasksManager.completed_at := None |}] /\
    forall now_ts,
      In new_id (map TasksManager.due_id
                   (TasksManager.get_overdue_tasks false now_ts db')) <->
      Py.wall due < now_ts.
Proof.
  intros parse tz l isoformat fromisoformat add_conversation now task_text
    priority user_message db parsed Hparse due Htruthy Hback db' new_id.
  assert (Hres : _parse_date_nlp parse tz l isoformat user_message
                 = Some (isoformat due)).
  { unfold _parse_date_nlp. rewrite Hparse. reflexivity. }
  assert (Htasks : TasksManager.tasks db' =
      TasksManager.tasks db ++
        [{| TasksManager.id := new_id;
            TasksManager.text := task_text;
            TasksManager.due_date := Some (isoformat due);
            TasksManager.due_ts := Some (Py.wall due);
            TasksManager.completed := 0;
            TasksManager.priority := priority;
            TasksManager.created_at := now;
            TasksManager.completed_at := None |}]).
  { unfold db', _handle_task_creation. rewrite Hres.
    unfold TasksManager.add_task, TasksManager.compute_due_ts.
    rewrite Htruthy, Hback.
    rewrite (int_timestamp_utc_seconds l due) by reflexivity.
    fold new_id.
    destruct (new_id >? 0); [|reflexivity].
    now destruct (add_conversation user_message (RemindOn new_id)). }
  split; [exact Htasks|].
  intros now_ts. unfold TasksManager.get_overdue_tasks.
  rewrite TasksManagerFacts.due_id_of_rows, in_map_iff. split.
  - intros (r & Hid & Hin).
    apply TasksManagerFacts.overdue_rows_In in Hin. destruct Hin as [Hin Hov].
    rewrite Htasks in Hin. apply in_app_iff in Hin.
    destruct Hin as [Hin|[<-|[]]].
    + apply TasksManagerFacts.next_rowid_fresh in Hin. unfold new_id in Hid.
      lia.
    + apply TasksManagerFacts.is_overdue_spec in Hov.
      destruct Hov as (_ & ts & [= <-] & Hlt). exact Hlt.
  - intros Hlt. eexists. split.
    2:{ apply TasksManagerFacts.overdue_rows_In. split.
        - rewrite Htasks. apply in_app_iff. right. left. reflexivity.
        - apply TasksManagerFacts.is_overdue_spec. simpl. eauto. }
    reflexivity.
Qed.

(** "in 5 minutes", said at 23:00 on 2024-01-15 six hours behind UTC, is
    due at 05:05:00 UTC: the task is not overdue at that second and is
    overdue one second later. *)
Lemma created_task_is_overdue_after_its_instant_witness :
  map TasksManager.due_id
    (TasksManager.get_overdue_tasks false 1705381500
       (snd (_handle_task_creation Sample.parse Sample.tz_utcoffset Sample.utc
               Sample.isoformat Sample.fromisoformat_utc
               Sample.add_conversation false "2024-01-16 05:00:00" "stretch"
               "medium" "in 5 minutes" TasksManager.empty))) = [] /\
  (In 1 (map TasksManager.due_id
           (TasksManager.get_overdue_tasks false 1705381501
              (snd (_handle_task_creation Sample.parse Sample.tz_utcoffset
                      Sample.utc Sample.isoformat Sample.fromisoformat_utc
                      Sample.add_conversation false "2024-01-16 05:00:00"
                      "stretch" "medium" "in 5 minutes" TasksManager.empty))))
   <-> 1705381500 < 1705381501).
Proof.
  split; [reflexivity|].
  exact (proj2
    (created_task_is_overdue_after_its_instant Sample.parse
       Sample.tz_utcoffset Sample.utc Sample.isoformat
       Sample.fromisoformat_utc Sample.add_conversation
       "2024-01-16 05:00:00" "stretch" "medium" "in 5 minutes"
       TasksManager.empty
       {| Py.wall := 1705359900; Py.microsecond := 617000;
          Py.tzinfo := Some (-21600) |}
       eq_refl eq_refl eq_refl) 1705381501).
Defined.

End ResolverProperties.

(** * Properties of the task summary *)

Module SummaryProperties.
Import TasksManager TaskSummary.
Local Open Scope string_scope.

(** X22. The summary names at most five tasks, the first five of the
    pending listing in its order, and then counts the rest: when the
    listing is not empty the summary is its parts joined by line feeds, and
    with [n] pending tasks the parts are one header line, [min n 5] task
    lines and, when [n > 5], one last line "... and <n - 5> more". When
    SQLite fails the summary is the one of a store without pending
    tasks. *)
Theorem summary_lists_five_and_counts_the_rest :
  forall (fromisoformat : string -> option Py.datetime)
         (strftime : Py.datetime -> string)
         (e : bool) (db : database),
    let listing := get_pending_tasks e db in
    let n := List.length listing in
    let parts := summary_parts fromisoformat strftime listing in
    (listing <> [] ->
     get_task_summary fromisoformat strftime e db =
     String.concat PyText.newline parts) /\
    List.length parts = (1 + min n 5 + (if (5 <? n)%nat then 1 else 0))%nat /\
    (forall i, (i < min n 5)%nat ->
       nth_error parts (S i) =
       option_map (task_line fromisoformat strftime) (nth_error listing i)) /\
    ((5 < n)%nat ->
     nth_error parts 6 =
     Some ("... and " ++ PyText.str (Z.of_nat n - 5) ++ " more")) /\
    get_task_summary fromisoformat strftime true db =
    get_task_summary fromisoformat strftime false empty.
Proof.
  intros fromisoformat strftime e db listing n parts.
  assert (Hsum : get_task_summary fromisoformat strftime e db =
                 match listing with
                 | [] => "You have no pending tasks! 🎉"
                 | _ :: _ => String.concat PyText.newline parts
                 end) by reflexivity.
  subst parts n. clearbody listing.
  set (n := List.length listing).
  split.
  { intros Hne. rewrite Hsum. destruct listing; [congruence|reflexivity]. }
  clear Hsum.
  assert (Hfirst : List.length (firstn 5 listing) = min n 5)
    by (rewrite length_firstn; unfold n; lia).
  assert (Hgt : (Z.of_nat n >? 5) = (5 <? n)%nat).
  { destruct (5 <? n)%nat eqn:E.
    - apply Nat.ltb_lt in E. apply Z.gtb_lt. lia.
    - apply Nat.ltb_ge in E. rewrite Z.gtb_ltb. apply Z.ltb_ge. lia. }
  unfold summary_parts. fold n. rewrite Hgt.
  split; [|split; [|split]].
  - cbn [app List.length]. rewrite length_app, length_map, Hfirst.
    destruct (5 <? n)%nat; simpl; lia.
  - intros i Hi. cbn [app nth_error].
    rewrite nth_error_app1 by (rewrite length_map, Hfirst; exact Hi).
    rewrite nth_error_map, nth_error_firstn.
    assert (E : (i <? 5)%nat = true) by (apply Nat.ltb_lt; lia).
    now rewrite E.
  - intros Hn. cbn [app].
    match goal with
    | |- nth_error (_ :: ?l) 6 = ?r => change (nth_error l 5 = r)
    end.
    rewrite nth_error_app2 by (rewrite length_map, Hfirst; lia).
    rewrite length_map, Hfirst.
    assert (E : (5 <? n)%nat = true) by now apply Nat.ltb_lt.
    rewrite E. replace (5 - min n 5)%nat with 0%nat by lia. reflexivity.
  - reflexivity.
Qed.

End SummaryProperties.
